(** * Backtesting core: ledger, risk gate, metrics and engine

    A shallow embedding of [src/risk/portfolio.py], [src/risk/risk_manager.py],
    [src/risk/metrics.py] and [src/backtesting/backtest_engine.py], followed
    by the properties of the design document that they decide.  The paper
    trading side, [src/execution/order.py],
    [src/paper_trading/virtual_broker.py] and
    [src/paper_trading/paper_trader.py] on the virtual broker, is embedded
    after the engine; further properties of the whole follow the first
    ones.

    Numbers.  Python [int] is [Z].  Python [float] is read as an exact
    rational ([Q]): rounding, overflow, infinities and NaN of binary64 are
    not represented, except where pandas produces NaN or an infinity by
    itself (see [PerformanceMetrics]), and in the sizing rule, where
    [int()] turns a rounded quotient into a number of shares: [Binary64]
    embeds that rule again on binary64 numbers, with the errors of [int()].
    The ledger and the engine work with the exact reading; what is proved of
    them is what they do whenever they return.  Comparisons of floats are the
    boolean comparisons of [Q] ([==] is [Qeq]).  A division whose
    denominator the code guards is [Qdiv]; an unguarded division of Python
    numbers is [py_div], which raises on a zero denominator (numpy scalars
    would return an infinity or NaN there instead; the properties below
    that depend on a quotient assume or establish a non-zero denominator).

    Dictionaries keyed by symbol are [gmap string _]; the wall clock
    ([datetime.now()]) is an argument of the operations that read it.
    Printing, and a strategy that raises, are not modelled. *)

From Stdlib Require Import ZArith QArith Qround Qabs Lqa Lia Ascii String.
From Stdlib Require PrimFloat SpecFloat FloatOps FloatAxioms.
From stdpp Require Import gmap strings list fin_maps sorting.

Local Open Scope Q_scope.

(** ** Python numbers and strings *)

(** [x > y] on floats. *)
Definition Qgtb (x y : Q) : bool := negb (Qle_bool x y).

(** [x < y] on floats. *)
Definition Qltb (x y : Q) : bool := negb (Qle_bool y x).

(** Exceptions the modelled code can raise. *)
Inductive exn : Set := ZeroDivisionError | ValueError | KeyError | OverflowError.

(** Sequencing of computations that can raise. *)
Definition raise_bind {A B : Type} (m : exn + A) (k : A -> exn + B) : exn + B :=
  match m with
  | inl e => inl e
  | inr a => k a
  end.

Notation "'let!' x ':=' m 'in' k" := (raise_bind m (fun x => k))
  (at level 10, x pattern, m at level 200, k at level 200).

(** [x / y] on Python numbers: raises on a zero denominator. *)
Definition py_div (x y : Q) : exn + Q :=
  if Qeq_bool y 0 then inl ZeroDivisionError else inr (x / y).

(** [int(x)] on the exact reading of a float: truncation toward zero.
    [Binary64.py_int] is [int()] on the binary64 number itself. *)
Definition py_int (x : Q) : Z := Z.quot (Qnum x) (Zpos (Qden x)).

(** [max(a, b)]: the first argument unless the second is strictly greater. *)
Definition py_max (a b : Q) : Q := if Qgtb b a then b else a.

(** [str.upper()] on the ASCII range.  Python's is Unicode-aware: a side
    spelled with a letter outside ASCII is not covered by a hypothesis of
    the form [upper side = ...]. *)
Definition upper_ascii (c : ascii) : ascii :=
  let n := nat_of_ascii c in
  if (97 <=? n)%nat && (n <=? 122)%nat then ascii_of_nat (n - 32) else c.

Fixpoint upper (s : string) : string :=
  match s with
  | EmptyString => EmptyString
  | String c s' => String (upper_ascii c) (upper s')
  end.

(** [x or d] for an optional float argument: [None] and [0] are falsy. *)
Definition or_default (x : option Q) (d : Q) : Q :=
  match x with
  | Some v => if Qeq_bool v 0 then d else v
  | None => d
  end.

Abbreviation datetime := Z (only parsing).

(** ** [src/risk/portfolio.py] *)

Module Portfolio.

Record Position := mkPosition {
  pos_symbol : string;
  pos_quantity : Z;
  avg_price : Q;
  current_price : Q;
  market_value : Q;
  unrealized_pl : Q
}.

(** [Position.__init__] *)
Definition new_position (symbol : string) (quantity : Z) (avg : Q) : Position :=
  mkPosition symbol quantity avg avg (inject_Z quantity * avg) 0.

(** [Position.update_price] *)
Definition update_price (price : Q) (pos : Position) : Position :=
  mkPosition (pos_symbol pos) (pos_quantity pos) (avg_price pos)
    price
    (inject_Z (pos_quantity pos) * price)
    ((price - avg_price pos) * inject_Z (pos_quantity pos)).

Record Trade := mkTrade {
  tr_symbol : string;
  tr_side : string;
  tr_quantity : Z;
  tr_price : Q;
  tr_timestamp : datetime;
  tr_commission : Q;
  pnl : Q
}.

(** [Trade.__init__] *)
Definition new_trade (symbol side : string) (quantity : Z) (price : Q)
    (timestamp : datetime) (commission : Q) : Trade :=
  mkTrade symbol side quantity price timestamp commission 0.

Definition set_pnl (v : Q) (t : Trade) : Trade :=
  mkTrade (tr_symbol t) (tr_side t) (tr_quantity t) (tr_price t)
    (tr_timestamp t) (tr_commission t) v.

(** One entry of [equity_curve]. *)
Record EquityPoint := mkEquityPoint {
  ep_timestamp : datetime;
  ep_value : Q;
  ep_cash : Q;
  ep_positions_value : Q
}.

Record t := mkPortfolio {
  initial_capital : Q;
  cash : Q;
  positions : gmap string Position;
  trades : list Trade;
  equity_curve : list EquityPoint;
  portfolio_value : Q;
  peak_value : Q
}.

(** [Portfolio.__init__] *)
Definition init (capital : Q) : t :=
  mkPortfolio capital capital ∅ [] [] capital capital.

Definition set_cash (c : Q) (p : t) : t :=
  mkPortfolio (initial_capital p) c (positions p) (trades p)
    (equity_curve p) (portfolio_value p) (peak_value p).

Definition set_positions (m : gmap string Position) (p : t) : t :=
  mkPortfolio (initial_capital p) (cash p) m (trades p)
    (equity_curve p) (portfolio_value p) (peak_value p).

Definition set_trades (l : list Trade) (p : t) : t :=
  mkPortfolio (initial_capital p) (cash p) (positions p) l
    (equity_curve p) (portfolio_value p) (peak_value p).

(** [trade.pnl = v] after [self.trades.append(trade)]: the list holds the
    same object, at the index it was appended at. *)
Definition set_trade_pnl (idx : nat) (v : Q) (p : t) : t :=
  set_trades (alter (set_pnl v) idx (trades p)) p.

(** The re-averaging branch of a BUY on an existing position. *)
Definition add_to_position (pos : Position) (quantity : Z) (price : Q) : Position :=
  let total_cost := inject_Z (pos_quantity pos) * avg_price pos
                    + inject_Z quantity * price in
  let total_quantity := (pos_quantity pos + quantity)%Z in
  mkPosition (pos_symbol pos) total_quantity
    (if (total_quantity >? 0)%Z then total_cost / inject_Z total_quantity else 0)
    (current_price pos) (market_value pos) (unrealized_pl pos).

Definition reduce_position (pos : Position) (quantity : Z) : Position :=
  mkPosition (pos_symbol pos) (pos_quantity pos - quantity)%Z
    (avg_price pos) (current_price pos) (market_value pos) (unrealized_pl pos).

(** [Portfolio.update_position]; [now] is the value of [datetime.now()]. *)
Definition update_position (p : t) (symbol : string) (quantity : Z) (price : Q)
    (side : string) (commission : Q) (now : datetime) : t :=
  let trade := new_trade symbol side quantity price now commission in
  let idx := length (trades p) in
  let p := set_trades (trades p ++ [trade]) p in
  if String.eqb (upper side) "BUY" then
    let p :=
      match positions p !! symbol with
      | Some pos =>
          set_positions (<[symbol := add_to_position pos quantity price]> (positions p)) p
      | None =>
          set_positions (<[symbol := new_position symbol quantity price]> (positions p)) p
      end in
    set_cash (cash p - (inject_Z quantity * price + commission)) p
  else if String.eqb (upper side) "SELL" then
    match positions p !! symbol with
    | Some pos =>
        let p :=
          if (quantity >=? pos_quantity pos)%Z then
            let realized_pl := (price - avg_price pos) * inject_Z (pos_quantity pos) in
            let p := set_trade_pnl idx (realized_pl - commission) p in
            set_positions (delete symbol (positions p)) p
          else
            let realized_pl := (price - avg_price pos) * inject_Z quantity in
            let p := set_trade_pnl idx (realized_pl - commission) p in
            set_positions (<[symbol := reduce_position pos quantity]> (positions p)) p
        in
        set_cash (cash p + (inject_Z quantity * price - commission)) p
    | None => p
    end
  else p.

(** [sum(pos.market_value for pos in self.positions.values())] *)
Definition positions_value (m : gmap string Position) : Q :=
  map_fold (fun _ pos acc => acc + market_value pos) 0 m.

(** [Portfolio._calculate_portfolio_value] *)
Definition _calculate_portfolio_value (p : t) (now : datetime) : t :=
  let pv := positions_value (positions p) in
  let value := cash p + pv in
  let peak := if Qgtb value (peak_value p) then value else peak_value p in
  mkPortfolio (initial_capital p) (cash p) (positions p) (trades p)
    (equity_curve p ++ [mkEquityPoint now value (cash p) pv])
    value peak.

(** The loop of [update_prices]: each item of the price dict re-prices the
    position of its symbol when there is one. *)
Definition reprice (m : gmap string Position) (items : list (string * Q))
    : gmap string Position :=
  fold_left (fun acc '(symbol, price) => alter (update_price price) symbol acc)
    items m.

(** [Portfolio.update_prices] *)
Definition update_prices (p : t) (prices : gmap string Q) (now : datetime) : t :=
  _calculate_portfolio_value
    (set_positions (reprice (positions p) (map_to_list prices)) p) now.

Definition get_position (p : t) (symbol : string) : option Position :=
  positions p !! symbol.

Definition has_position (p : t) (symbol : string) : bool :=
  bool_decide (is_Some (positions p !! symbol)).

(** [Portfolio.get_total_return] *)
Definition get_total_return (p : t) : exn + Q :=
  py_div (portfolio_value p - initial_capital p) (initial_capital p).

(** [Portfolio.get_drawdown] *)
Definition get_drawdown (p : t) : Q :=
  if Qeq_bool (peak_value p) 0 then 0
  else (peak_value p - portfolio_value p) / peak_value p.

(** The dictionary [get_summary] returns. *)
Record Summary := mkSummary {
  sm_initial_capital : Q;
  sm_cash : Q;
  sm_portfolio_value : Q;
  sm_total_return : Q;
  sm_total_return_pct : Q;
  sm_peak_value : Q;
  sm_drawdown : Q;
  sm_drawdown_pct : Q;
  sm_num_positions : nat;
  sm_total_trades : nat;
  sm_winning_trades : nat;
  sm_losing_trades : nat;
  sm_win_rate : Q;
  sm_avg_win : Q;
  sm_avg_loss : Q
}.

Definition sum_pnl (l : list Trade) : Q :=
  fold_left (fun acc tr => acc + pnl tr) l 0.

Definition count_Q {A : Type} (l : list A) : Q := inject_Z (Z.of_nat (length l)).

(** [Portfolio.get_summary] *)
Definition get_summary (p : t) : exn + Summary :=
  let total_trades := length (trades p) in
  let winning_trades := List.filter (fun tr => Qgtb (pnl tr) 0) (trades p) in
  let losing_trades := List.filter (fun tr => Qltb (pnl tr) 0) (trades p) in
  let! total_return := get_total_return p in
  inr (mkSummary (initial_capital p) (cash p) (portfolio_value p)
         total_return (total_return * 100)
         (peak_value p) (get_drawdown p) (get_drawdown p * 100)
         (size (positions p)) total_trades
         (length winning_trades) (length losing_trades)
         (if (0 <? total_trades)%nat
          then count_Q winning_trades / inject_Z (Z.of_nat total_trades) else 0)
         (match winning_trades with
          | [] => 0 | _ => sum_pnl winning_trades / count_Q winning_trades end)
         (match losing_trades with
          | [] => 0 | _ => sum_pnl losing_trades / count_Q losing_trades end)).

End Portfolio.

(** ** [src/config.py] *)

(** The class attributes of [Config] the core reads.  The first three come
    from the process environment, so they are fields of a record the model
    receives; the two thresholds are literals in the source. *)
Record Config := mkConfig {
  INITIAL_CAPITAL : Q;
  COMMISSION_PER_TRADE : Q;
  SLIPPAGE_PERCENT : Q
}.

Definition MAX_POSITION_SIZE : Q := 10 # 100.
Definition MAX_DRAWDOWN_THRESHOLD : Q := 20 # 100.

(** The configuration with an empty environment. *)
Definition default_config : Config := mkConfig 100000 0 (1 # 1000).

(** ** [src/risk/risk_manager.py] *)

Module RiskManager.

(** The risk manager keeps a reference to the ledger, never a copy: its
    own fields are the three limits, and every method reads the ledger it
    is given. *)
Record t := mkRiskManager {
  max_position_size : Q;
  max_drawdown : Q;
  max_loss_per_trade : Q
}.

(** [RiskManager.__init__] *)
Definition init (max_position_size max_drawdown : option Q)
    (max_loss_per_trade : Q) : t :=
  mkRiskManager (or_default max_position_size MAX_POSITION_SIZE)
                (or_default max_drawdown MAX_DRAWDOWN_THRESHOLD)
                max_loss_per_trade.

(** The reason texts, with the numbers they are formatted from. *)
Inductive reason :=
| TradeApproved
| InvalidOrderSide
| InsufficientCash (need have : Q)
| PositionSizeExceeds (position_size limit : Q)
| DrawdownExceeds (drawdown limit : Q)
| NoPosition (symbol : string)
| InsufficientShares (selling held : Z)
| MaxDrawdownReached (drawdown : Q)
| NegativeCash
| NoReason.

(** [RiskManager._check_buy_order] *)
Definition _check_buy_order (rm : t) (p : Portfolio.t) (symbol : string)
    (quantity : Z) (price : Q) : exn + (bool * reason) :=
  let order_value := inject_Z quantity * price in
  if Qgtb order_value (Portfolio.cash p) then
    inr (false, InsufficientCash order_value (Portfolio.cash p))
  else
    let! position_size := py_div order_value (Portfolio.portfolio_value p) in
    if Qgtb position_size (max_position_size rm) then
      inr (false, PositionSizeExceeds position_size (max_position_size rm))
    else if Qgtb (Portfolio.get_drawdown p) (max_drawdown rm) then
      inr (false, DrawdownExceeds (Portfolio.get_drawdown p) (max_drawdown rm))
    else inr (true, TradeApproved).

(** [RiskManager._check_sell_order] *)
Definition _check_sell_order (p : Portfolio.t) (symbol : string)
    (quantity : Z) : bool * reason :=
  match Portfolio.get_position p symbol with
  | None => (false, NoPosition symbol)
  | Some position =>
      if (quantity >? Portfolio.pos_quantity position)%Z then
        (false, InsufficientShares quantity (Portfolio.pos_quantity position))
      else (true, TradeApproved)
  end.

(** [RiskManager.check_trade] *)
Definition check_trade (rm : t) (p : Portfolio.t) (symbol : string)
    (quantity : Z) (price : Q) (side : string) : exn + (bool * reason) :=
  if String.eqb (upper side) "BUY" then _check_buy_order rm p symbol quantity price
  else if String.eqb (upper side) "SELL" then inr (_check_sell_order p symbol quantity)
  else inr (false, InvalidOrderSide).

(** [RiskManager.calculate_position_size], on the exact reading: the
    quotients are not rounded and [int()] does not raise.  See
    [Binary64.calculate_position_size] for the rule on binary64. *)
Definition calculate_position_size (rm : t) (p : Portfolio.t) (price : Q)
    (stop_loss_pct : Q) : Z :=
  let risk_amount := Portfolio.portfolio_value p * max_loss_per_trade rm in
  let risk_per_share := price * stop_loss_pct in
  if Qeq_bool risk_per_share 0 then 0%Z
  else
    let shares := py_int (risk_amount / risk_per_share) in
    let max_shares :=
      py_int ((Portfolio.portfolio_value p * max_position_size rm) / price) in
    Z.min shares max_shares.

(** The default of [stop_loss_pct]. *)
Definition default_stop_loss_pct : Q := 2 # 100.

(** [RiskManager.should_stop_trading] *)
Definition should_stop_trading (rm : t) (p : Portfolio.t) : bool * reason :=
  let drawdown := Portfolio.get_drawdown p in
  if Qgtb drawdown (max_drawdown rm) then (true, MaxDrawdownReached drawdown)
  else if Qltb (Portfolio.cash p) 0 then (true, NegativeCash)
  else (false, NoReason).

End RiskManager.

(** ** The sizing rule on binary64

    [RiskManager.calculate_position_size] once more, on the numbers Python
    computes with: [float] is IEEE 754 binary64, every operation rounded to
    nearest.  The portfolio value and the two limits the method reads from
    [self] are arguments; an [int] among the arguments (below 2^53 in
    size) stands for the float it converts to. *)

Module Binary64.
Import PrimFloat SpecFloat FloatOps.

(** [int(x)] on a float: the mantissa shifted by the exponent, which
    drops the fraction; an infinity raises OverflowError and NaN
    ValueError. *)
Definition py_int (x : float) : exn + Z :=
  match Prim2SF x with
  | S754_nan => inl ValueError
  | S754_infinity _ => inl OverflowError
  | S754_zero _ => inr 0%Z
  | S754_finite s m e =>
      let magnitude :=
        match e with
        | Zneg k => Z.shiftr (Zpos m) (Zpos k)
        | _ => Z.shiftl (Zpos m) e
        end in
      inr (if s then (- magnitude)%Z else magnitude)
  end.

(** [x / y] on floats: raises on a zero denominator of either sign. *)
Definition py_div (x y : float) : exn + float :=
  if (y =? 0)%float then inl ZeroDivisionError else inr (x / y)%float.

(** [RiskManager.calculate_position_size] *)
Definition calculate_position_size
    (portfolio_value max_position_size max_loss_per_trade price stop_loss_pct : float)
    : exn + Z :=
  let risk_amount := (portfolio_value * max_loss_per_trade)%float in
  let risk_per_share := (price * stop_loss_pct)%float in
  if (risk_per_share =? 0)%float then inr 0%Z
  else
    let! quotient := py_div risk_amount risk_per_share in
    let! shares := py_int quotient in
    let! quotient := py_div (portfolio_value * max_position_size)%float price in
    let! max_shares := py_int quotient in
    inr (Z.min shares max_shares).

End Binary64.

(** ** [src/risk/metrics.py] *)

Module PerformanceMetrics.

(** An entry of a pandas float series: a finite number, an infinity or NaN.
    pandas divides without raising, so [pct_change] can produce all four. *)
Inductive pdfloat := Finite (q : Q) | PosInf | NegInf | NaN.

Definition is_nan (x : pdfloat) : bool :=
  match x with NaN => true | _ => false end.

(** [cur / prev - 1] in a float series. *)
Definition pct (prev cur : Q) : pdfloat :=
  if Qeq_bool prev 0 then
    if Qeq_bool cur 0 then NaN
    else if Qgtb cur 0 then PosInf else NegInf
  else Finite (cur / prev - 1).

(** [Series.pct_change()]: NaN first, then the change from each entry to
    the next. *)
Fixpoint pct_change_from (prev : Q) (values : list Q) : list pdfloat :=
  match values with
  | [] => []
  | v :: rest => pct prev v :: pct_change_from v rest
  end.

Definition pct_change (values : list Q) : list pdfloat :=
  match values with
  | [] => []
  | v :: rest => NaN :: pct_change_from v rest
  end.

(** [Series.dropna()] *)
Definition dropna (s : list pdfloat) : list pdfloat :=
  List.filter (fun x => negb (is_nan x)) s.

Definition values_of (equity_curve : list Portfolio.EquityPoint) : list Q :=
  List.map Portfolio.ep_value equity_curve.

(** [PerformanceMetrics.calculate_returns] *)
Definition calculate_returns (equity_curve : list Portfolio.EquityPoint)
    : list pdfloat :=
  match equity_curve with
  | [] => []
  | _ => dropna (pct_change (values_of equity_curve))
  end.

(** The finite entries of a series, when all of them are finite. *)
Fixpoint all_finite (s : list pdfloat) : option (list Q) :=
  match s with
  | [] => Some []
  | Finite q :: rest =>
      match all_finite rest with
      | Some qs => Some (q :: qs)
      | None => None
      end
  | _ :: _ => None
  end.

Definition Qsum (l : list Q) : Q := fold_left Qplus l 0.

Definition length_Q {A : Type} (l : list A) : Q := inject_Z (Z.of_nat (length l)).

(** Arithmetic mean of a non-empty list. *)
Definition mean (l : list Q) : Q := Qsum l / length_Q l.

(** Sample variance (one degree of freedom removed) of two entries or
    more. *)
Definition sample_variance (l : list Q) : Q :=
  let m := mean l in
  Qsum (List.map (fun x => (x - m) * (x - m)) l) / (length_Q l - 1).

(** The square of [Series.std()]; [None] is NaN: fewer than two entries, or
    an infinite entry. *)
Definition std_squared (s : list pdfloat) : option Q :=
  match all_finite s with
  | Some qs => if (length qs <? 2)%nat then None else Some (sample_variance qs)
  | None => None
  end.

(** A float result whose square roots are kept symbolic:
    [Scaled n m v] is [sqrt n * (m / sqrt v)], with [v] non-zero. *)
Inductive stat := Num (q : Q) | NotANumber | Scaled (n : Z) (m v : Q).

Definition default_risk_free_rate : Q := 2 # 100.
Definition default_periods_per_year : Z := 252.

(** [PerformanceMetrics.sharpe_ratio].  [returns.std() == 0] holds exactly
    when the variance is a number and is zero; with a NaN deviation the
    quotient, and the result, is NaN. *)
Definition sharpe_ratio (returns : list pdfloat) (risk_free_rate : Q)
    (periods_per_year : Z) : stat :=
  match returns with
  | [] => Num 0
  | _ =>
      match std_squared returns, all_finite returns with
      | Some v, Some qs =>
          if Qeq_bool v 0 then Num 0
          else
            let excess_returns :=
              List.map (fun r => r - risk_free_rate / inject_Z periods_per_year) qs in
            Scaled periods_per_year (mean excess_returns) v
      | _, _ => NotANumber
      end
  end.

(** The state of the loop of [max_drawdown]. *)
Record dd_state := mkDD {
  peak : Q;
  max_dd : Q;
  max_dd_duration : nat;
  current_dd_duration : nat
}.

(** One iteration of the loop body. *)
Definition dd_step (st : dd_state) (value : Q) : exn + dd_state :=
  if Qgtb value (peak st) then
    inr (mkDD value (max_dd st) (max_dd_duration st) 0)
  else
    let! drawdown := py_div (peak st - value) (peak st) in
    let cur := S (current_dd_duration st) in
    inr (mkDD (peak st) (py_max (max_dd st) drawdown)
              (Nat.max (max_dd_duration st) cur) cur).

Fixpoint dd_loop (st : dd_state) (values : list Q) : exn + dd_state :=
  match values with
  | [] => inr st
  | value :: rest => let! st' := dd_step st value in dd_loop st' rest
  end.

(** [PerformanceMetrics.max_drawdown] *)
Definition max_drawdown (equity_curve : list Portfolio.EquityPoint)
    : exn + (Q * nat) :=
  match values_of equity_curve with
  | [] => inr (0, 0%nat)
  | (v0 :: _) as values =>
      let! st := dd_loop (mkDD v0 0 0 0) values in
      inr (max_dd st, max_dd_duration st)
  end.

(** The entries of the result dictionary that are rational functions of
    the inputs, and the Sharpe ratio.  [sortino_ratio], [calmar_ratio],
    [value_at_risk_95] and [cvar_95] are left out: their values need roots,
    real powers and percentiles, and no property below reads them. *)
Record Metrics := mkMetrics {
  total_return : Q;
  total_return_pct : Q;
  sharpe : stat;
  max_drawdown_value : Q;
  max_drawdown_pct : Q;
  max_drawdown_duration : nat;
  total_trades : nat;
  winning_trades : nat;
  losing_trades : nat;
  win_rate : Q;
  avg_win : Q;
  avg_loss : Q;
  profit_factor : Q;
  trading_days : nat;
  years : Q
}.

Definition pnls (l : list Portfolio.Trade) : list Q := List.map Portfolio.pnl l.

(** [PerformanceMetrics.calculate_all_metrics]; [inr None] is the empty
    dictionary. *)
Definition calculate_all_metrics (equity_curve : list Portfolio.EquityPoint)
    (trades : list Portfolio.Trade) (initial_capital : Q) (risk_free_rate : Q)
    : exn + option Metrics :=
  let returns := calculate_returns equity_curve in
  match last equity_curve with
  | None => inr None
  | Some final =>
      let final_value := Portfolio.ep_value final in
      let! total_return := py_div (final_value - initial_capital) initial_capital in
      let! dd := max_drawdown equity_curve in
      let trading_days := length equity_curve in
      let years := inject_Z (Z.of_nat trading_days) / 252 in
      let winning := List.filter (fun t => Qgtb (Portfolio.pnl t) 0) trades in
      let losing := List.filter (fun t => Qltb (Portfolio.pnl t) 0) trades in
      let! pf := match losing with
                | [] => inr 0
                | _ => py_div (Qabs (Qsum (pnls winning))) (Qabs (Qsum (pnls losing)))
                end in
      inr (Some (mkMetrics
        total_return
        (total_return * 100)
        (sharpe_ratio returns risk_free_rate default_periods_per_year)
        (fst dd)
        (fst dd * 100)
        (snd dd)
        (length trades)
        (length winning)
        (length losing)
        (match trades with [] => 0 | _ => length_Q winning / length_Q trades end)
        (match winning with [] => 0 | _ => mean (pnls winning) end)
        (match losing with [] => 0 | _ => mean (pnls losing) end)
        pf
        trading_days
        years))
  end.

End PerformanceMetrics.

(** ** [src/strategy/base_strategy.py] *)

Record Signal := mkSignal {
  sg_symbol : string;
  signal_type : string;
  sg_timestamp : datetime;
  sg_price : Q;
  sg_quantity : option Z;
  sg_reason : string
}.

Definition BUY : string := "BUY".
Definition SELL : string := "SELL".
Definition HOLD : string := "HOLD".

(** ** [src/backtesting/backtest_engine.py] *)

(** One row of a price table. *)
Record Bar := mkBar {
  bar_open : Q;
  bar_high : Q;
  bar_low : Q;
  bar_close : Q;
  bar_volume : Q
}.

(** The object the engine builds for the strategy on every bar. *)
Record BarEvent := mkBarEvent {
  be_symbol : string;
  be_timestamp : datetime;
  be_open : Q;
  be_high : Q;
  be_low : Q;
  be_close : Q;
  be_volume : Q
}.

(** A price table: rows by timestamp, the index without repetition. *)
Abbreviation DataFrame := (gmap Z Bar).

(** A Python dictionary whose order of insertion is observed. *)
Fixpoint dict_get {V : Type} (d : list (string * V)) (k : string) : option V :=
  match d with
  | [] => None
  | (k', v) :: rest => if String.eqb k' k then Some v else dict_get rest k
  end.

Fixpoint dict_set {V : Type} (d : list (string * V)) (k : string) (v : V)
    : list (string * V) :=
  match d with
  | [] => [(k, v)]
  | (k', v') :: rest =>
      if String.eqb k' k then (k, v) :: rest else (k', v') :: dict_set rest k v
  end.

Module BacktestEngine.
Section Engine.

(** The strategy is a collaborator: its state and its [on_bar], which
    returns the new state and the signal, if any.  [clock n] is what the
    [n]-th call of [datetime.now()] returns. *)
Context {State : Type}.
Variable on_bar : State -> BarEvent -> State * option Signal.
Variable clock : nat -> datetime.

Record Results := mkResults {
  metrics : option PerformanceMetrics.Metrics;
  portfolio_summary : Portfolio.Summary;
  res_equity_curve : list Portfolio.EquityPoint;
  res_trades : list Portfolio.Trade;
  final_portfolio_value : Q
}.

Record t := mkEngine {
  strategy : State;
  initial_capital : Q;
  commission : Q;
  slippage : Q;
  portfolio : Portfolio.t;
  risk_manager : RiskManager.t;
  data : list (string * DataFrame);
  current_prices : gmap string Q;
  results : option Results
}.

(** [BacktestEngine.__init__] *)
Definition init (cfg : Config) (strat : State)
    (initial_capital commission slippage : option Q) : t :=
  let capital := or_default initial_capital (INITIAL_CAPITAL cfg) in
  mkEngine strat capital
    (or_default commission (COMMISSION_PER_TRADE cfg))
    (or_default slippage (SLIPPAGE_PERCENT cfg))
    (Portfolio.init capital)
    (RiskManager.init None None (2 # 100))
    [] ∅ None.

Definition set_portfolio (p : Portfolio.t) (e : t) : t :=
  mkEngine (strategy e) (initial_capital e) (commission e) (slippage e) p
    (risk_manager e) (data e) (current_prices e) (results e).

Definition set_strategy (s : State) (e : t) : t :=
  mkEngine s (initial_capital e) (commission e) (slippage e) (portfolio e)
    (risk_manager e) (data e) (current_prices e) (results e).

Definition set_current_prices (m : gmap string Q) (e : t) : t :=
  mkEngine (strategy e) (initial_capital e) (commission e) (slippage e)
    (portfolio e) (risk_manager e) (data e) m (results e).

Definition set_results (r : Results) (e : t) : t :=
  mkEngine (strategy e) (initial_capital e) (commission e) (slippage e)
    (portfolio e) (risk_manager e) (data e) (current_prices e) (Some r).

(** [BacktestEngine.load_data] *)
Definition load_data (e : t) (symbol : string) (df : DataFrame) : t :=
  mkEngine (strategy e) (initial_capital e) (commission e) (slippage e)
    (portfolio e) (risk_manager e) (dict_set (data e) symbol df)
    (current_prices e) (results e).

(** What [datetime.now()] returns next: the ledger reads the clock once for
    every trade and once for every equity point it appends, and nothing
    else reads it. *)
Definition now (p : Portfolio.t) : datetime :=
  clock (length (Portfolio.trades p) + length (Portfolio.equity_curve p)).

(** [BacktestEngine._process_signal] *)
Definition _process_signal (e : t) (signal : Signal) : exn + t :=
  let symbol := sg_symbol signal in
  let price := sg_price signal in
  let p := portfolio e in
  if String.eqb (signal_type signal) BUY then
    if negb (Portfolio.has_position p symbol) then
      let quantity :=
        RiskManager.calculate_position_size (risk_manager e) p price
          RiskManager.default_stop_loss_pct in
      if (quantity >? 0)%Z then
        let! verdict := RiskManager.check_trade (risk_manager e) p symbol quantity price "BUY" in
        if fst verdict then
          let execution_price := price * (1 + slippage e) in
          inr (set_portfolio
                 (Portfolio.update_position p symbol quantity execution_price
                    "BUY" (commission e) (now p)) e)
        else inr e
      else inr e
    else inr e
  else if String.eqb (signal_type signal) SELL then
    match Portfolio.get_position p symbol with
    | Some position =>
        let quantity := Portfolio.pos_quantity position in
        let! verdict := RiskManager.check_trade (risk_manager e) p symbol quantity price "SELL" in
        if fst verdict then
          let execution_price := price * (1 - slippage e) in
          inr (set_portfolio
                 (Portfolio.update_position p symbol quantity execution_price
                    "SELL" (commission e) (now p)) e)
        else inr e
    | None => inr e
    end
  else inr e.

(** The body of the loop over [symbols] at one date. *)
Definition visit_symbol (date : Z) (e : t) (symbol : string) : exn + t :=
  match dict_get (data e) symbol with
  | None => inr e
  | Some df =>
      match df !! date with
      | None => inr e
      | Some bar =>
          let e := set_current_prices (<[symbol := bar_close bar]> (current_prices e)) e in
          let bar_event :=
            mkBarEvent symbol date (bar_open bar) (bar_high bar) (bar_low bar)
              (bar_close bar) (bar_volume bar) in
          let '(s', signal) := on_bar (strategy e) bar_event in
          let e := set_strategy s' e in
          match signal with
          | Some sg => _process_signal e sg
          | None => inr e
          end
      end
  end.

Fixpoint visit_symbols (date : Z) (e : t) (symbols : list string) : exn + t :=
  match symbols with
  | [] => inr e
  | symbol :: rest =>
      let! e' := visit_symbol date e symbol in visit_symbols date e' rest
  end.

(** The loop over [all_dates], with its [break]. *)
Fixpoint run_dates (e : t) (symbols : list string) (dates : list Z) : exn + t :=
  match dates with
  | [] => inr e
  | date :: rest =>
      if fst (RiskManager.should_stop_trading (risk_manager e) (portfolio e)) then inr e
      else
        let! e' := visit_symbols date e symbols in
        let p := portfolio e' in
        let e'' := set_portfolio (Portfolio.update_prices p (current_prices e') (now p)) e' in
        run_dates e'' symbols rest
  end.

(** The union of [set(self.data[s].index)] over [symbols]; a symbol that
    was never loaded raises. *)
Fixpoint index_union (d : list (string * DataFrame)) (symbols : list string)
    : exn + gset Z :=
  match symbols with
  | [] => inr ∅
  | s :: rest =>
      match dict_get d s with
      | None => inl KeyError
      | Some df => let! others := index_union d rest in inr (dom df ∪ others)
      end
  end.

Definition sorted_dates (dates : gset Z) : list Z :=
  merge_sort Z.le (elements dates).

(** [BacktestEngine._generate_results] *)
Definition _generate_results (e : t) : exn + Results :=
  let p := portfolio e in
  let! m := PerformanceMetrics.calculate_all_metrics
              (Portfolio.equity_curve p) (Portfolio.trades p) (initial_capital e)
              PerformanceMetrics.default_risk_free_rate in
  let! summary := Portfolio.get_summary p in
  inr (mkResults m summary (Portfolio.equity_curve p) (Portfolio.trades p)
         (Portfolio.portfolio_value p)).

(** [BacktestEngine.run]: the engine after the run, and the results. *)
Definition run (e : t) (symbols : option (list string)) : exn + (t * Results) :=
  let symbols :=
    match symbols with
    | None => List.map fst (data e)
    | Some l => l
    end in
  match symbols with
  | [] => inl ValueError
  | _ =>
      let! dates := index_union (data e) symbols in
      let! e' := run_dates e symbols (sorted_dates dates) in
      let! r := _generate_results e' in
      inr (set_results r e', r)
  end.

End Engine.
End BacktestEngine.

(** ** [src/execution/order.py] *)

Module OrderType.
Inductive t := MARKET | LIMIT | STOP | STOP_LIMIT.
End OrderType.

Module OrderSide.
Inductive t := BUY | SELL.

(** [OrderSide.value] *)
Definition value (s : t) : string :=
  match s with
  | BUY => "buy"
  | SELL => "sell"
  end.
End OrderSide.

Module OrderStatus.
Inductive t := PENDING | SUBMITTED | FILLED | PARTIALLY_FILLED | CANCELLED | REJECTED.
End OrderStatus.

Module Order.

Record t := mkOrder {
  order_id : option string;
  symbol : string;
  order_type : OrderType.t;
  side : OrderSide.t;
  quantity : Z;
  price : option Q;
  stop_price : option Q;
  time_in_force : string;
  status : OrderStatus.t;
  filled_quantity : Z;
  filled_price : option Q;
  created_at : datetime;
  filled_at : option datetime;
  commission : Q
}.

(** [Order.__init__]; [now] is the value of [datetime.now()]. *)
Definition init (symbol : string) (order_type : OrderType.t) (side : OrderSide.t)
    (quantity : Z) (price stop_price : option Q) (time_in_force : string)
    (now : datetime) : t :=
  mkOrder None symbol order_type side quantity price stop_price time_in_force
    OrderStatus.PENDING 0 None now None 0.

(** A market order with the defaults of the other arguments. *)
Definition market (symbol : string) (side : OrderSide.t) (quantity : Z)
    (now : datetime) : t :=
  init symbol OrderType.MARKET side quantity None None "day" now.

Definition set_status (s : OrderStatus.t) (o : t) : t :=
  mkOrder (order_id o) (symbol o) (order_type o) (side o) (quantity o) (price o)
    (stop_price o) (time_in_force o) s (filled_quantity o) (filled_price o)
    (created_at o) (filled_at o) (commission o).

Definition set_order_id (id : string) (o : t) : t :=
  mkOrder (Some id) (symbol o) (order_type o) (side o) (quantity o) (price o)
    (stop_price o) (time_in_force o) (status o) (filled_quantity o) (filled_price o)
    (created_at o) (filled_at o) (commission o).

(** The four assignments of a fill. *)
Definition set_fill (filled_price : Q) (filled_at : datetime) (commission : Q)
    (o : t) : t :=
  mkOrder (order_id o) (symbol o) (order_type o) (side o) (quantity o) (price o)
    (stop_price o) (time_in_force o) (status o) (quantity o) (Some filled_price)
    (created_at o) (Some filled_at) commission.

End Order.

(** ** [src/paper_trading/virtual_broker.py] *)

Module VirtualBroker.
Section Broker.

(** [Config] is read when an order executes, not when the broker is
    built. *)
Variable cfg : Config.

(** [orders] holds the order objects themselves: what [_execute_order]
    writes on an order shows in the dictionary and on the caller's side,
    so the model stores the order as it is when [submit_order] returns. *)
Record t := mkBroker {
  initial_capital : Q;
  portfolio : Portfolio.t;
  orders : gmap string Order.t;
  current_prices : gmap string Q
}.

(** [VirtualBroker.__init__] *)
Definition init (initial_capital : option Q) : t :=
  let capital := or_default initial_capital (INITIAL_CAPITAL cfg) in
  mkBroker capital (Portfolio.init capital) ∅ ∅.

Definition set_portfolio (p : Portfolio.t) (b : t) : t :=
  mkBroker (initial_capital b) p (orders b) (current_prices b).

Definition set_orders (m : gmap string Order.t) (b : t) : t :=
  mkBroker (initial_capital b) (portfolio b) m (current_prices b).

(** [VirtualBroker._execute_order]: the order and the ledger after it.
    [filled_at] and [now] are the two clock readings, the second one taken
    by the ledger. *)
Definition _execute_order (b : t) (order : Order.t) (filled_at now : datetime)
    : Portfolio.t * Order.t :=
  match current_prices b !! Order.symbol order with
  | None => (portfolio b, Order.set_status OrderStatus.REJECTED order)
  | Some market_price =>
      let execution_price :=
        match Order.side order with
        | OrderSide.BUY => market_price * (1 + SLIPPAGE_PERCENT cfg)
        | OrderSide.SELL => market_price * (1 - SLIPPAGE_PERCENT cfg)
        end in
      let order :=
        Order.set_status OrderStatus.FILLED
          (Order.set_fill execution_price filled_at (COMMISSION_PER_TRADE cfg) order) in
      (Portfolio.update_position (portfolio b) (Order.symbol order)
         (Order.quantity order) execution_price
         (OrderSide.value (Order.side order)) (Order.commission order) now,
       order)
  end.

(** [VirtualBroker.submit_order]; [uuid] is the value of
    [str(uuid.uuid4())].  Returns the broker, the order as the caller sees
    it afterwards, and the id. *)
Definition submit_order (b : t) (order : Order.t) (uuid : string)
    (filled_at now : datetime) : t * Order.t * string :=
  let order := Order.set_status OrderStatus.SUBMITTED (Order.set_order_id uuid order) in
  let '(p, order) := _execute_order b order filled_at now in
  (mkBroker (initial_capital b) p (<[uuid := order]> (orders b)) (current_prices b),
   order, uuid).

(** [VirtualBroker.cancel_order] *)
Definition cancel_order (b : t) (order_id : string) : t * bool :=
  match orders b !! order_id with
  | Some order =>
      match Order.status order with
      | OrderStatus.PENDING | OrderStatus.SUBMITTED =>
          (set_orders (<[order_id := Order.set_status OrderStatus.CANCELLED order]>
                         (orders b)) b, true)
      | _ => (b, false)
      end
  | None => (b, false)
  end.

(** [VirtualBroker.get_order_status] *)
Definition get_order_status (b : t) (order_id : string) : OrderStatus.t :=
  match orders b !! order_id with
  | Some order => Order.status order
  | None => OrderStatus.REJECTED
  end.

(** The dictionary [get_account_info] returns. *)
Record AccountInfo := mkAccountInfo {
  ai_cash : Q;
  ai_portfolio_value : Q;
  ai_buying_power : Q;
  ai_equity : Q;
  ai_initial_capital : Q;
  ai_total_return : Q;
  ai_drawdown : Q
}.

(** [VirtualBroker.get_account_info] *)
Definition get_account_info (b : t) : exn + AccountInfo :=
  let p := portfolio b in
  let! total_return := Portfolio.get_total_return p in
  inr (mkAccountInfo (Portfolio.cash p) (Portfolio.portfolio_value p)
         (Portfolio.cash p) (Portfolio.portfolio_value p) (initial_capital b)
         total_return (Portfolio.get_drawdown p)).

(** [VirtualBroker.get_positions]: one entry for every open position. *)
Definition get_positions (b : t) : list Portfolio.Position :=
  snd <$> map_to_list (Portfolio.positions (portfolio b)).

(** [VirtualBroker.get_current_price] *)
Definition get_current_price (b : t) (symbol : string) : option Q :=
  current_prices b !! symbol.

(** [VirtualBroker.update_prices]: [dict.update] lets the new prices win. *)
Definition update_prices (b : t) (prices : gmap string Q) (now : datetime) : t :=
  mkBroker (initial_capital b)
    (Portfolio.update_prices (portfolio b) prices now)
    (orders b) (prices ∪ current_prices b).

End Broker.
End VirtualBroker.

(** ** [src/paper_trading/paper_trader.py], with the virtual broker *)

Module PaperTrader.
Section Trader.

(** The strategy, as for the engine.  [src/data/data_fetcher.py] is not
    part of the sources: [fetch_latest_price] is what its method of that
    name returns.  [now_at] and [uuid_at] are the readings of the clock and
    of the id generator, by place of call. *)
Context {State : Type}.
Variable cfg : Config.
Variable on_bar : State -> BarEvent -> State * option Signal.
Variable fetch_latest_price : string -> option Q.
Variable now_at : nat -> datetime.
Variable uuid_at : nat -> string.

(** One entry of [performance_log]. *)
Record LogEntry := mkLogEntry {
  log_timestamp : datetime;
  log_portfolio_value : Q;
  log_cash : Q;
  log_positions : nat
}.

Record t := mkTrader {
  strategy : State;
  symbols : list string;
  is_running : bool;
  broker : VirtualBroker.t;
  portfolio : Portfolio.t;
  risk_manager : RiskManager.t;
  performance_log : list LogEntry
}.

(** [PaperTrader.__init__] with [use_alpaca=False]. *)
Definition init (strat : State) (symbols : list string) (initial_capital : Q) : t :=
  mkTrader strat symbols false
    (VirtualBroker.init cfg (Some initial_capital))
    (Portfolio.init initial_capital)
    (RiskManager.init None None (2 # 100))
    [].

Definition set_broker (b : VirtualBroker.t) (t0 : t) : t :=
  mkTrader (strategy t0) (symbols t0) (is_running t0) b (portfolio t0)
    (risk_manager t0) (performance_log t0).

Definition set_portfolio (p : Portfolio.t) (t0 : t) : t :=
  mkTrader (strategy t0) (symbols t0) (is_running t0) (broker t0) p
    (risk_manager t0) (performance_log t0).

Definition set_strategy (s : State) (t0 : t) : t :=
  mkTrader s (symbols t0) (is_running t0) (broker t0) (portfolio t0)
    (risk_manager t0) (performance_log t0).

(** Building a market order and handing it to the broker; [k] is the place
    of the first of the three clock readings. *)
Definition submit_market_order (t0 : t) (symbol : string) (side : OrderSide.t)
    (quantity : Z) (k : nat) : t :=
  let order := Order.market symbol side quantity (now_at k) in
  let '(b, _, _) :=
    VirtualBroker.submit_order cfg (broker t0) order (uuid_at k)
      (now_at (k + 1)) (now_at (k + 2)) in
  set_broker b t0.

(** [PaperTrader._process_signal] *)
Definition _process_signal (t0 : t) (signal : Signal) (current_price : Q)
    (k : nat) : exn + t :=
  let symbol := sg_symbol signal in
  let p := portfolio t0 in
  if String.eqb (signal_type signal) BUY then
    if negb (Portfolio.has_position p symbol) then
      let quantity :=
        RiskManager.calculate_position_size (risk_manager t0) p current_price
          RiskManager.default_stop_loss_pct in
      if (quantity >? 0)%Z then
        let! verdict :=
          RiskManager.check_trade (risk_manager t0) p symbol quantity
            current_price "BUY" in
        if fst verdict then inr (submit_market_order t0 symbol OrderSide.BUY quantity k)
        else inr t0
      else inr t0
    else inr t0
  else if String.eqb (signal_type signal) SELL then
    match Portfolio.get_position p symbol with
    | Some position =>
        let quantity := Portfolio.pos_quantity position in
        let! verdict :=
          RiskManager.check_trade (risk_manager t0) p symbol quantity
            current_price "SELL" in
        if fst verdict then inr (submit_market_order t0 symbol OrderSide.SELL quantity k)
        else inr t0
    | None => inr t0
    end
  else inr t0.

(** [if price:] on what the fetcher returns. *)
Definition truthy_price (price : option Q) : option Q :=
  match price with
  | Some v => if Qeq_bool v 0 then None else Some v
  | None => None
  end.

(** The first loop of [_trading_iteration]. *)
Definition collect_prices (symbols : list string) : gmap string Q :=
  fold_left
    (fun acc symbol =>
       match truthy_price (fetch_latest_price symbol) with
       | Some price => <[symbol := price]> acc
       | None => acc
       end)
    symbols ∅.

(** The body of the second loop, for the symbol at place [i]. *)
Definition visit_symbol (current_prices : gmap string Q) (t0 : t)
    (i : nat) (symbol : string) : exn + t :=
  match current_prices !! symbol with
  | None => inr t0
  | Some price =>
      let bar_event :=
        mkBarEvent symbol (now_at (2 + 4 * i)) price price price price 0 in
      let '(s', signal) := on_bar (strategy t0) bar_event in
      let t1 := set_strategy s' t0 in
      match signal with
      | Some sg => _process_signal t1 sg price (3 + 4 * i)
      | None => inr t1
      end
  end.

Fixpoint visit_symbols (current_prices : gmap string Q) (t0 : t) (i : nat)
    (symbols : list string) : exn + t :=
  match symbols with
  | [] => inr t0
  | symbol :: rest =>
      let! t1 := visit_symbol current_prices t0 i symbol in
      visit_symbols current_prices t1 (S i) rest
  end.

(** [PaperTrader.stop]: the summary is computed, and printed. *)
Definition stop (t0 : t) : exn + t :=
  let t1 := mkTrader (strategy t0) (symbols t0) false (broker t0) (portfolio t0)
              (risk_manager t0) (performance_log t0) in
  let! _ := Portfolio.get_summary (portfolio t1) in
  inr t1.

(** [PaperTrader._log_performance] *)
Definition _log_performance (t0 : t) (now : datetime) : exn + t :=
  let! account_info := VirtualBroker.get_account_info (broker t0) in
  inr (mkTrader (strategy t0) (symbols t0) (is_running t0) (broker t0)
         (portfolio t0) (risk_manager t0)
         (performance_log t0 ++
            [mkLogEntry now (VirtualBroker.ai_portfolio_value account_info)
               (VirtualBroker.ai_cash account_info)
               (length (VirtualBroker.get_positions (broker t0)))])).

(** [PaperTrader._trading_iteration] *)
Definition _trading_iteration (t0 : t) : exn + t :=
  if fst (RiskManager.should_stop_trading (risk_manager t0) (portfolio t0)) then
    stop t0
  else
    let current_prices := collect_prices (symbols t0) in
    let t1 := set_broker
                (VirtualBroker.update_prices (broker t0) current_prices (now_at 0)) t0 in
    let t2 := set_portfolio
                (Portfolio.update_prices (portfolio t1) current_prices (now_at 1)) t1 in
    let! t3 := visit_symbols current_prices t2 0 (symbols t2) in
    _log_performance t3 (now_at (2 + 4 * length (symbols t3))).

End Trader.
End PaperTrader.

(** * The vocabulary of the properties

    Definitions the statements below are written with: sequences of ledger
    operations, the sizing rule and the drawdown figures in the words of the
    design document, and a few concrete ledgers, curves and runs. *)

Module LedgerSpec.
Import Portfolio.

(** The price a list of items leaves on a symbol: the last one listed. *)
Fixpoint last_price (items : list (string * Q)) (symbol : string) : option Q :=
  match items with
  | [] => None
  | (s, price) :: rest =>
      match last_price rest symbol with
      | Some later => Some later
      | None => if decide (s = symbol) then Some price else None
      end
  end.

Definition repriced (items : list (string * Q)) (symbol : string)
    (pos : Position) : Position :=
  match last_price items symbol with
  | Some price => update_price price pos
  | None => pos
  end.

(** A ledger operation: a fill or a revaluation, with the clock reading. *)
Inductive op :=
| Fill (symbol : string) (quantity : Z) (price : Q) (side : string)
       (commission : Q) (now : Z)
| Revalue (prices : gmap string Q) (now : Z).

Definition apply_op (p : t) (o : op) : t :=
  match o with
  | Fill symbol quantity price side commission now =>
      update_position p symbol quantity price side commission now
  | Revalue prices now => update_prices p prices now
  end.

Definition apply_ops (p : t) (ops : list op) : t := fold_left apply_op ops p.

(** Ten shares of X bought at 5 out of 1000. *)
Definition one_position : t := update_position (init 1000) "X" 10 5 "BUY" 0 0.

(** One share bought at 1000, then revalued at 1. *)
Definition overdrawn_ops : list op :=
  [Fill "X" 1 1000 "BUY" 0 0; Revalue {[ "X"%string := 1 ]} 1].

(** A ledger whose drawdown is exactly 20/100. *)
Definition at_threshold : t :=
  apply_ops (init 100)
    [Fill "X" 1 50 "BUY" 0 0; Revalue {[ "X"%string := 30 ]} 1].

End LedgerSpec.

Module RiskSpec.
Import PrimFloat SpecFloat.

(** [int()] in the words of the sizing rule: rounding toward zero. *)
Definition toward_zero (x : Q) : Z := if Qle_bool 0 x then Qfloor x else Qceiling x.

(** The sizing rule in the words of the design document, with floors. *)
Definition floor_position_size (v risk_fraction max_position_fraction p
    stop_loss_fraction : Q) : Z :=
  if Qeq_bool (p * stop_loss_fraction) 0 then 0%Z
  else Z.min (Qfloor ((v * risk_fraction) / (p * stop_loss_fraction)))
             (Qfloor ((v * max_position_fraction) / p)).

(** What a binary64 number stands for: a rational, an infinity or NaN.
    The finite number of mantissa m and exponent e is m * 2^e. *)
Inductive reading := Exact (v : Q) | Infinite | NotNumber.

Definition read (x : float) : reading :=
  match FloatOps.Prim2SF x with
  | S754_nan => NotNumber
  | S754_infinity _ => Infinite
  | S754_zero _ => Exact 0
  | S754_finite s m e =>
      let magnitude :=
        match e with
        | Zneg k => Zpos m # 2 ^ k
        | _ => inject_Z (Zpos m * 2 ^ e)
        end in
      Exact (if s then - magnitude else magnitude)
  end.

(** The sizing rule on the two binary64 quotients: each rounded toward
    zero, the smaller one returned; the first quotient that is not a
    number of its own decides the error. *)
Definition sized (q1 q2 : float) : exn + Z :=
  match read q1, read q2 with
  | Exact v1, Exact v2 => inr (Z.min (toward_zero v1) (toward_zero v2))
  | Exact _, Infinite => inl OverflowError
  | Exact _, NotNumber => inl ValueError
  | Infinite, _ => inl OverflowError
  | NotNumber, _ => inl ValueError
  end.

(** The numbers of the defaults, and two prices. *)
#[warnings="-inexact-float"] Definition two_percent : float := 0.02%float.

#[warnings="-inexact-float"] Definition ten_percent : float := 0.1%float.

#[warnings="-inexact-float"] Definition price_19_92 : float := 19.92%float.

Definition tiny_price : float := 0x1p-1030%float.

End RiskSpec.

Module MetricsSpec.

(** The number of [true] entries a list starts with. *)
Fixpoint leading_run (flags : list bool) : nat :=
  match flags with
  | true :: rest => S (leading_run rest)
  | _ => 0
  end.

(** The longest block of consecutive [true] entries: the longest leading
    run over all the places a block can start at. *)
Fixpoint longest_run (flags : list bool) : nat :=
  match flags with
  | [] => 0
  | _ :: rest => Nat.max (leading_run flags) (longest_run rest)
  end.

(** [block] occurs in [flags] as consecutive entries, all of them [true]. *)
Definition true_block (flags block : list bool) : Prop :=
  (exists before after, flags = before ++ block ++ after)
  /\ Forall (fun b => b = true) block.

(** Every value paired with the peak of the values before it. *)
Fixpoint against_peak (peak : Q) (values : list Q) : list (Q * Q) :=
  match values with
  | [] => []
  | v :: rest => (peak, v) :: against_peak (if Qgtb v peak then v else peak) rest
  end.

(** The points of a curve; the first value is paired with itself, as the
    loop starts from [values[0]]. *)
Definition points (values : list Q) : list (Q * Q) :=
  match values with
  | [] => []
  | v0 :: _ => against_peak v0 values
  end.

(** The running peak at a point, the point included. *)
Definition running_peak (pt : Q * Q) : Q :=
  if Qgtb (snd pt) (fst pt) then snd pt else fst pt.

(** (peak - value) / peak against the running peak. *)
Definition drawdown_at (pt : Q * Q) : Q :=
  (running_peak pt - snd pt) / running_peak pt.

(** The largest drawdown over the points, and 0 when there is none. *)
Definition largest_drawdown (pts : list (Q * Q)) : Q :=
  fold_left py_max (List.map drawdown_at pts) 0.

(** The point does not set a new peak: its value is at or below the peak
    of the values before it. *)
Definition at_or_below_peak (pt : Q * Q) : bool := negb (Qgtb (snd pt) (fst pt)).

(** The point is strictly below the running peak. *)
Definition strictly_below_peak (pt : Q * Q) : bool := Qltb (snd pt) (running_peak pt).

(** The equity curve with the given values, all in cash. *)
Definition curve_of (values : list Q) : list Portfolio.EquityPoint :=
  imap (fun i v => Portfolio.mkEquityPoint (Z.of_nat i) v v 0) values.

End MetricsSpec.

Module EngineSpec.
Import BacktestEngine.

Definition trade_count {State : Type} (e : @BacktestEngine.t State) : nat :=
  length (Portfolio.trades (portfolio e)).

(** A step either leaves the ledger as it was or appends trades to it; the
    engine's own capital never changes. *)
Definition ledger_kept_or_traded {State : Type} (e e' : @BacktestEngine.t State)
    : Prop :=
  (portfolio e' = portfolio e \/ (trade_count e < trade_count e')%nat)
  /\ initial_capital e' = initial_capital e.

(** The ledger of a run that has not traded: no position, the initial
    cash, and an equity curve that stays at it. *)
Definition untouched (c : Q) (p : Portfolio.t) : Prop :=
  Portfolio.positions p = ∅
  /\ Portfolio.cash p = c
  /\ Forall (fun pt => Portfolio.ep_value pt == c) (Portfolio.equity_curve p).

Definition flat_bar (c : Q) : Bar := mkBar c c c c 1000.

Definition three_days : DataFrame :=
  list_to_map [(1%Z, flat_bar 50); (2%Z, flat_bar 60); (3%Z, flat_bar 55)].

(** A strategy that never signals. *)
Definition idle (s : unit) (b : BarEvent) : unit * option Signal := (s, None).

Definition ticks (n : nat) : Z := Z.of_nat n.

(** A fresh engine with the default configuration and one table, for X. *)
Definition idle_engine (df : DataFrame) : @BacktestEngine.t unit :=
  load_data (init default_config tt None None None) "X" df.

Definition buy_signal : Signal := mkSignal "X" BUY 1 50 None "".

Definition sell_signal : Signal := mkSignal "X" SELL 2 60 None "".

End EngineSpec.

(** ** Vocabulary of the further properties *)

Module LedgerTerms.
Import Portfolio LedgerSpec.

Definition is_fill (o : op) : bool :=
  match o with Fill _ _ _ _ _ _ => true | Revalue _ _ => false end.

(** The number of fills, and of revaluations, among operations. *)
Definition count_fills (ops : list op) : nat := length (List.filter is_fill ops).

Definition count_revalues (ops : list op) : nat :=
  length (List.filter (fun o => negb (is_fill o)) ops).

(** What the last equity point says the ledger is worth; the capital before
    the first one. *)
Definition last_value (capital : Q) (curve : list EquityPoint) : Q :=
  match last curve with
  | Some pt => ep_value pt
  | None => capital
  end.

(** What a revaluation does to one position. *)
Definition revalued (prices : gmap string Q) (symbol : string) (pos : Position)
    : Position :=
  match prices !! symbol with
  | Some price => update_price price pos
  | None => pos
  end.

(** The peak is the capital or a recorded value, and bounds them all. *)
Definition peak_is_high_water (capital : Q) (p : t) : Prop :=
  capital <= peak_value p
  /\ Forall (fun pt => ep_value pt <= peak_value p) (equity_curve p)
  /\ (peak_value p = capital
      \/ exists pt, In pt (equity_curve p) /\ peak_value p = ep_value pt).

(** Every point adds up, and the portfolio value is the last one. *)
Definition curve_consistent (capital : Q) (p : t) : Prop :=
  Forall (fun pt => ep_value pt = ep_cash pt + ep_positions_value pt) (equity_curve p)
  /\ portfolio_value p = last_value capital (equity_curve p).

End LedgerTerms.

Module MetricsTerms.

(** Each value is above the one before it. *)
Definition rising (values : list Q) : Prop := Sorted Qlt values.

(** No value is above the one before it. *)
Definition falling (values : list Q) : Prop := Sorted (fun a b => b <= a) values.

End MetricsTerms.

Module EngineTerms.

(** Some listed symbol has a bar at the date. *)
Definition has_bar (d : list (string * DataFrame)) (symbols : list string)
    (date : Z) : Prop :=
  exists s df, In s symbols /\ dict_get d s = Some df /\ is_Some (df !! date).

(** Every open position and every logged trade has a positive quantity. *)
Definition positive_ledger (p : Portfolio.t) : Prop :=
  (forall s pos, Portfolio.positions p !! s = Some pos ->
                 (0 < Portfolio.pos_quantity pos)%Z)
  /\ Forall (fun tr => (0 < Portfolio.tr_quantity tr)%Z) (Portfolio.trades p).

(** What a step appended to the two logs of the ledger. *)
Definition appended (p p' : Portfolio.t) (trs : list Portfolio.Trade)
    (pts : list Portfolio.EquityPoint) : Prop :=
  Portfolio.trades p' = Portfolio.trades p ++ trs
  /\ Portfolio.equity_curve p' = Portfolio.equity_curve p ++ pts.

(** A strategy that buys on the first bar it sees and sells on the
    third. *)
Definition buy_then_sell (n : nat) (b : BarEvent) : nat * option Signal :=
  (S n,
   match n with
   | 0%nat => Some (mkSignal (be_symbol b) BUY (be_timestamp b) (be_close b) None "")
   | 2%nat => Some (mkSignal (be_symbol b) SELL (be_timestamp b) (be_close b) None "")
   | _ => None
   end).

(** A fresh engine for [buy_then_sell], with one table for X. *)
Definition trading_engine (df : DataFrame) : @BacktestEngine.t nat :=
  BacktestEngine.load_data
    (BacktestEngine.init default_config 0%nat None None None) "X" df.

End EngineTerms.

Module BrokerSpec.

(** What a client can ask of the virtual broker. *)
Inductive request :=
| Submit (order : Order.t) (uuid : string) (filled_at now : Z)
| Cancel (order_id : string)
| Prices (prices : gmap string Q) (now : Z).

Definition serve (cfg : Config) (b : VirtualBroker.t) (r : request) : VirtualBroker.t :=
  match r with
  | Submit order uuid filled_at now =>
      fst (fst (VirtualBroker.submit_order cfg b order uuid filled_at now))
  | Cancel order_id => fst (VirtualBroker.cancel_order b order_id)
  | Prices prices now => VirtualBroker.update_prices b prices now
  end.

Definition serve_all (cfg : Config) (b : VirtualBroker.t) (rs : list request)
    : VirtualBroker.t :=
  fold_left (serve cfg) rs b.

(** The order has reached one of the two states [submit_order] leaves it
    in. *)
Definition settled (o : Order.t) : Prop :=
  Order.status o = OrderStatus.FILLED \/ Order.status o = OrderStatus.REJECTED.

(** The price at which the broker fills an order at a market price. *)
Definition execution_price (cfg : Config) (side : OrderSide.t) (market_price : Q) : Q :=
  match side with
  | OrderSide.BUY => market_price * (1 + SLIPPAGE_PERCENT cfg)
  | OrderSide.SELL => market_price * (1 - SLIPPAGE_PERCENT cfg)
  end.

(** A broker that has seen the price 50 for X. *)
Definition priced_broker : VirtualBroker.t :=
  VirtualBroker.update_prices (VirtualBroker.init default_config (Some 100000))
    {[ "X"%string := 50 ]} 0.

End BrokerSpec.

Module TraderSpec.

(** What one polling round reads from outside: the latest prices, the
    clock and the id generator. *)
Record feed := mkFeed {
  latest_price : string -> option Q;
  now_at : nat -> Z;
  uuid_at : nat -> string
}.

(** One [_trading_iteration] after the other, one feed for each. *)
Fixpoint iterate {State : Type} (cfg : Config)
    (on_bar : State -> BarEvent -> State * option Signal)
    (feeds : list feed) (t0 : @PaperTrader.t State) : exn + @PaperTrader.t State :=
  match feeds with
  | [] => inr t0
  | f :: rest =>
      let! t1 := PaperTrader._trading_iteration cfg on_bar
                   (latest_price f) (now_at f) (uuid_at f) t0 in
      iterate cfg on_bar rest t1
  end.

(** Every order the broker holds is a BUY order. *)
Definition only_buys (b : VirtualBroker.t) : Prop :=
  forall id o, VirtualBroker.orders b !! id = Some o -> Order.side o = OrderSide.BUY.

(** The trader's own ledger as [__init__] made it, but for its equity
    curve and its peak: no position, no trade, the initial cash. *)
Definition idle_ledger (c : Q) (p : Portfolio.t) : Prop :=
  Portfolio.positions p = ∅
  /\ Portfolio.trades p = []
  /\ Portfolio.cash p = c
  /\ Portfolio.initial_capital p = c
  /\ Portfolio.portfolio_value p == c.

(** What the rounds keep: the idle ledger of the trader, and BUY orders
    only at the broker. *)
Definition round_invariant {State : Type} (c : Q) (t0 : @PaperTrader.t State) : Prop :=
  idle_ledger c (PaperTrader.portfolio t0)
  /\ only_buys (PaperTrader.broker t0).

(** A strategy that alternates BUY and SELL signals, and two rounds at the
    prices 50 and 60 for every symbol. *)
Definition alternating (n : nat) (b : BarEvent) : nat * option Signal :=
  (S n,
   Some (mkSignal (be_symbol b) (if Nat.even n then BUY else SELL)
           (be_timestamp b) (be_close b) None "")).

Definition two_rounds : list feed :=
  [mkFeed (fun _ => Some 50) Z.of_nat (fun _ => "a"%string);
   mkFeed (fun _ => Some 60) Z.of_nat (fun _ => "b"%string)].

End TraderSpec.

(** * Facts about the Python primitives *)

Lemma Qgtb_true x y : Qgtb x y = true <-> y < x.
Proof.
  unfold Qgtb. rewrite negb_true_iff, <- not_true_iff_false, Qle_bool_iff.
  split; [apply Qnot_le_lt | apply Qlt_not_le].
Qed.

Lemma Qgtb_false x y : Qgtb x y = false <-> x <= y.
Proof. unfold Qgtb. rewrite negb_false_iff. apply Qle_bool_iff. Qed.

Lemma Qltb_true x y : Qltb x y = true <-> x < y.
Proof. apply Qgtb_true. Qed.

Lemma Qltb_false x y : Qltb x y = false <-> y <= x.
Proof. apply Qgtb_false. Qed.

Lemma Qeq_bool_false x y : Qeq_bool x y = false <-> ~ x == y.
Proof. rewrite <- Qeq_bool_iff. symmetry. apply not_true_iff_false. Qed.

(** [int()] is the floor of a non-negative float and the ceiling of a
    negative one. *)
Lemma py_int_nonneg x : 0 <= x -> py_int x = Qfloor x.
Proof.
  destruct x as [n d]. unfold py_int, Qfloor, Qle. simpl. intros H.
  apply Z.quot_div_nonneg; lia.
Qed.

Lemma py_int_nonpos x : x <= 0 -> py_int x = Qceiling x.
Proof.
  destruct x as [n d]. unfold py_int, Qceiling, Qfloor, Qle. simpl. intros H.
  rewrite <- (Z.opp_involutive n) at 1. rewrite Z.quot_opp_l by lia.
  f_equal. apply Z.quot_div_nonneg; lia.
Qed.

(** * The ledger *)

Module PortfolioFacts.
Import Portfolio LedgerSpec.

Lemma alter_appended {A : Type} (f : A -> A) (l : list A) (x : A) :
  alter f (length l) (l ++ [x]) = l ++ [f x].
Proof. induction l as [|a l IH]; simpl; [reflexivity | f_equal; exact IH]. Qed.

Lemma Zmin_sell_all (q h : Z) : (q >=? h)%Z = true -> Z.min q h = h.
Proof. intros H. apply Z.geb_le in H. lia. Qed.

Lemma Zmin_sell_part (q h : Z) : (q >=? h)%Z = false -> Z.min q h = q.
Proof. intros H. rewrite Z.geb_leb in H. apply Z.leb_gt in H. lia. Qed.

(** A BUY fill, whatever the quantities: the average cost is guarded and
    falls to 0 when the new quantity is not positive. *)
Lemma buy_fill_guarded (p : t) (symbol side : string) (q : Z) (price commission : Q)
    (now : Z) :
  upper side = "BUY"%string ->
  let p' := update_position p symbol q price side commission now in
  (forall pos, positions p !! symbol = Some pos ->
     exists pos', positions p' !! symbol = Some pos'
       /\ pos_quantity pos' = (pos_quantity pos + q)%Z
       /\ ((0 < pos_quantity pos + q)%Z ->
           avg_price pos' =
             (inject_Z (pos_quantity pos) * avg_price pos + inject_Z q * price)
             / inject_Z (pos_quantity pos + q))
       /\ ((pos_quantity pos + q <= 0)%Z -> avg_price pos' = 0))
  /\ (positions p !! symbol = None ->
      exists pos', positions p' !! symbol = Some pos'
        /\ pos_quantity pos' = q /\ avg_price pos' = price)
  /\ cash p' = cash p - (inject_Z q * price + commission)
  /\ trades p' = trades p ++ [new_trade symbol side q price now commission].
Proof.
  intros Hside p'. subst p'. unfold update_position. rewrite Hside. simpl.
  repeat split.
  - intros pos Hpos. rewrite Hpos. simpl. rewrite lookup_insert_eq.
    eexists; split; [reflexivity|]. simpl. repeat split.
    + intros Hq. apply Z.gtb_lt in Hq. now rewrite Hq.
    + intros Hq. destruct (Z.gtb_spec (pos_quantity pos + q) 0); [lia | reflexivity].
  - intros Hnone. rewrite Hnone. simpl. rewrite lookup_insert_eq.
    eexists; split; [reflexivity|]. now simpl.
  - destruct (positions p !! symbol); reflexivity.
  - destruct (positions p !! symbol); reflexivity.
Qed.

(** C1: a BUY fill of a quantity q > 0 at price p, on a ledger whose open
    positions hold positive quantities as the data model has them.  On an
    existing position of quantity oq and average cost oa the quantity
    becomes oq + q and the average cost (oq*oa + q*p)/(oq + q); on a
    symbol with no position a position of quantity q and average cost p is
    created; in both cases cash decreases by exactly q*p + commission and
    one Trade record is appended. *)
Theorem buy_fill (p : t) (symbol side : string) (q : Z) (price commission : Q)
    (now : Z) :
  upper side = "BUY"%string ->
  (0 < q)%Z ->
  (forall pos, positions p !! symbol = Some pos -> (0 < pos_quantity pos)%Z) ->
  let p' := update_position p symbol q price side commission now in
  (forall pos, positions p !! symbol = Some pos ->
     exists pos', positions p' !! symbol = Some pos'
       /\ pos_quantity pos' = (pos_quantity pos + q)%Z
       /\ avg_price pos' =
            (inject_Z (pos_quantity pos) * avg_price pos + inject_Z q * price)
            / inject_Z (pos_quantity pos + q))
  /\ (positions p !! symbol = None ->
      exists pos', positions p' !! symbol = Some pos'
        /\ pos_quantity pos' = q /\ avg_price pos' = price)
  /\ cash p' = cash p - (inject_Z q * price + commission)
  /\ trades p' = trades p ++ [new_trade symbol side q price now commission].
Proof.
  intros Hside Hq Hheld p'.
  destruct (buy_fill_guarded p symbol side q price commission now Hside)
    as (Hold & Hnew & Hcash & Htrades).
  split; [|now repeat split].
  intros pos Hpos. destruct (Hold pos Hpos) as (pos' & Hl & Hquantity & Havg & _).
  exists pos'. split; [exact Hl|]. split; [exact Hquantity|].
  apply Havg. specialize (Hheld pos Hpos). lia.
Qed.

Lemma buy_fill_witness :
  let p' := update_position one_position "X" 10 8 "buy" 1 1 in
  (exists pos', positions p' !! "X"%string = Some pos'
     /\ pos_quantity pos' = 20%Z /\ avg_price pos' == 13 # 2)
  /\ cash p' == 869.
Proof.
  assert (Hheld : forall pos, positions one_position !! "X"%string = Some pos ->
                              (0 < pos_quantity pos)%Z).
  { intros pos [= <-]. reflexivity. }
  pose proof (buy_fill one_position "X" "buy" 10 8 1 1 eq_refl eq_refl Hheld) as H.
  cbv zeta in H. destruct H as (Hold & _ & Hcash & _).
  destruct (Hold (new_position "X" 10 5) eq_refl) as (pos' & Hl & Hq & Ha).
  split.
  - exists pos'. split; [exact Hl|]. split; [exact Hq|].
    rewrite Ha. reflexivity.
  - rewrite Hcash. reflexivity.
Defined.

(** C2: a SELL fill of q at price p on a position of h shares at average
    cost a records the realized P&L (p - a) * min(q, h) - commission on the
    appended trade; with q >= h the position is removed, otherwise its
    quantity drops by q and its average cost stays; cash increases by
    exactly q*p - commission. *)
Theorem sell_fill (p : t) (symbol side : string) (q : Z) (price commission : Q)
    (now : Z) (pos : Position) :
  upper side = "SELL"%string ->
  positions p !! symbol = Some pos ->
  let p' := update_position p symbol q price side commission now in
  let h := pos_quantity pos in
  let a := avg_price pos in
  trades p' =
    trades p ++ [set_pnl ((price - a) * inject_Z (Z.min q h) - commission)
                   (new_trade symbol side q price now commission)]
  /\ ((q >= h)%Z -> positions p' = delete symbol (positions p)
                    /\ positions p' !! symbol = None)
  /\ ((q < h)%Z ->
      exists pos', positions p' !! symbol = Some pos'
        /\ pos_quantity pos' = (h - q)%Z /\ avg_price pos' = a)
  /\ cash p' = cash p + (inject_Z q * price - commission).
Proof.
  intros Hside Hpos p' h a. subst p' h a. unfold update_position.
  rewrite Hside. simpl. rewrite Hpos.
  destruct (q >=? pos_quantity pos)%Z eqn:Hq; simpl.
  - rewrite alter_appended, (Zmin_sell_all _ _ Hq).
    apply Z.geb_le in Hq.
    repeat split; try reflexivity; try apply lookup_delete_eq. lia.
  - rewrite alter_appended, (Zmin_sell_part _ _ Hq).
    rewrite Z.geb_leb in Hq. apply Z.leb_gt in Hq.
    repeat split; try reflexivity; try lia.
    intros _. rewrite lookup_insert_eq. eexists. split; [reflexivity|]. now simpl.
Qed.

Lemma sell_fill_witness :
  let p' := update_position one_position "X" 4 7 "sell" 1 1 in
  (exists tr, last (trades p') = Some tr /\ pnl tr == 7)
  /\ cash p' == 977.
Proof.
  pose proof (sell_fill one_position "X" "sell" 4 7 1 1 (new_position "X" 10 5)
                eq_refl eq_refl) as H.
  cbv zeta in H. destruct H as (Htr & _ & _ & Hcash).
  split.
  - eexists. rewrite Htr, last_snoc. split; [reflexivity|]. reflexivity.
  - rewrite Hcash. reflexivity.
Defined.

(** C10: a SELL on a symbol with no open position still appends a Trade
    record, with pnl 0, and leaves cash and the positions unchanged; the
    number of trades grows by one although nothing was filled. *)
Theorem sell_without_position (p : t) (symbol side : string) (q : Z)
    (price commission : Q) (now : Z) :
  upper side = "SELL"%string ->
  positions p !! symbol = None ->
  let p' := update_position p symbol q price side commission now in
  trades p' = trades p ++ [new_trade symbol side q price now commission]
  /\ pnl (new_trade symbol side q price now commission) = 0
  /\ length (trades p') = S (length (trades p))
  /\ cash p' = cash p
  /\ positions p' = positions p.
Proof.
  intros Hside Hnone p'. subst p'. unfold update_position.
  rewrite Hside. simpl. rewrite Hnone. simpl.
  repeat split. rewrite length_app. simpl. lia.
Qed.

Lemma sell_without_position_witness :
  let p' := update_position (init 1000) "X" 5 7 "SELL" 1 0 in
  length (trades p') = 1%nat /\ cash p' = 1000 /\ positions p' = ∅.
Proof.
  pose proof (sell_without_position (init 1000) "X" "SELL" 5 7 1 0 eq_refl eq_refl) as H.
  cbv zeta in H. destruct H as (_ & _ & Hlen & Hcash & Hpos).
  split; [exact Hlen|]. split; [exact Hcash | exact Hpos].
Defined.

(** *** Revaluation *)

Lemma update_price_twice (a b : Q) (pos : Position) :
  update_price a (update_price b pos) = update_price a pos.
Proof. reflexivity. Qed.

Lemma reprice_lookup (items : list (string * Q)) (m : gmap string Position)
    (symbol : string) :
  reprice m items !! symbol = repriced items symbol <$> m !! symbol.
Proof.
  unfold reprice, repriced. revert m.
  induction items as [|[s price] rest IH]; intros m; simpl.
  - now destruct (m !! symbol).
  - rewrite IH, lookup_alter.
    destruct (last_price rest symbol) as [later|]; case_decide; subst;
      destruct (m !! symbol); simpl; try reflexivity; congruence.
Qed.

Lemma reprice_idempotent (items : list (string * Q)) (m : gmap string Position) :
  reprice (reprice m items) items = reprice m items.
Proof.
  apply map_eq. intros symbol. rewrite !reprice_lookup.
  destruct (m !! symbol) as [pos|]; simpl; [|reflexivity].
  unfold repriced. now destruct (last_price items symbol).
Qed.

(** C3: two revaluations in a row with the same price map append one
    EquityPoint each; the two points have the same value, cash and
    positions_value, and each satisfies value = cash + positions_value. *)
Theorem revalue_twice (p : t) (prices : gmap string Q) (t1 t2 : Z) :
  let p1 := update_prices p prices t1 in
  let p2 := update_prices p1 prices t2 in
  exists e1 e2,
    equity_curve p1 = equity_curve p ++ [e1]
    /\ equity_curve p2 = equity_curve p1 ++ [e2]
    /\ ep_value e1 = ep_value e2
    /\ ep_cash e1 = ep_cash e2
    /\ ep_positions_value e1 = ep_positions_value e2
    /\ ep_value e1 = ep_cash e1 + ep_positions_value e1
    /\ ep_value e2 = ep_cash e2 + ep_positions_value e2.
Proof.
  intros p1 p2. subst p1 p2. unfold update_prices, _calculate_portfolio_value.
  simpl. rewrite reprice_idempotent.
  eexists _, _. repeat split.
Qed.

(** *** Peak and drawdown over arbitrary operations *)

Lemma update_position_value p symbol q price side commission now :
  portfolio_value (update_position p symbol q price side commission now)
    = portfolio_value p
  /\ peak_value (update_position p symbol q price side commission now)
    = peak_value p.
Proof.
  unfold update_position.
  destruct (String.eqb (upper side) "BUY"); [|destruct (String.eqb (upper side) "SELL")];
    simpl; destruct (positions p !! symbol) as [pos|]; simpl;
    try destruct (q >=? pos_quantity pos)%Z; split; reflexivity.
Qed.

Lemma apply_op_peak (p : t) (o : op) :
  peak_value p <= peak_value (apply_op p o).
Proof.
  destruct o as [symbol q price side commission now | prices now]; simpl.
  - destruct (update_position_value p symbol q price side commission now) as [_ ->].
    apply Qle_refl.
  - unfold update_prices, _calculate_portfolio_value. simpl.
    match goal with |- context [Qgtb ?v ?k] => destruct (Qgtb v k) eqn:E end.
    + apply Qgtb_true in E. now apply Qlt_le_weak.
    + apply Qle_refl.
Qed.

Lemma apply_op_below_peak (p : t) (o : op) :
  portfolio_value p <= peak_value p ->
  portfolio_value (apply_op p o) <= peak_value (apply_op p o).
Proof.
  intros H. destruct o as [symbol q price side commission now | prices now]; simpl.
  - destruct (update_position_value p symbol q price side commission now) as [-> ->].
    exact H.
  - unfold update_prices, _calculate_portfolio_value. simpl.
    match goal with |- context [Qgtb ?v ?k] => destruct (Qgtb v k) eqn:E end.
    + apply Qle_refl.
    + now apply Qgtb_false in E.
Qed.

Lemma apply_ops_peak (ops : list op) (p : t) :
  peak_value p <= peak_value (apply_ops p ops).
Proof.
  revert p. induction ops as [|o ops IH]; intros p; simpl.
  - apply Qle_refl.
  - eapply Qle_trans; [apply apply_op_peak | apply IH].
Qed.

Lemma apply_ops_below_peak (ops : list op) (p : t) :
  portfolio_value p <= peak_value p ->
  portfolio_value (apply_ops p ops) <= peak_value (apply_ops p ops).
Proof.
  revert p. induction ops as [|o ops IH]; intros p H; simpl; [exact H|].
  apply IH. now apply apply_op_below_peak.
Qed.

Lemma drawdown_bounds (p : t) :
  0 <= peak_value p -> portfolio_value p <= peak_value p ->
  0 <= get_drawdown p /\ (0 <= portfolio_value p -> get_drawdown p <= 1).
Proof.
  intros Hpeak Hval. unfold get_drawdown.
  destruct (Qeq_bool (peak_value p) 0) eqn:E.
  - split; intros; lra.
  - apply Qeq_bool_false in E.
    assert (0 < peak_value p) as Hpos by lra.
    split.
    + apply Qle_shift_div_l; [exact Hpos | lra].
    + intros Hv. apply Qle_shift_div_r; [exact Hpos | lra].
Qed.

(** C9, as amended: along every sequence of fills and revaluations from
    construction the peak value never decreases; with a non-negative
    initial capital the drawdown is at least 0, and it is at most 1
    whenever the portfolio value is non-negative. *)
Theorem peak_monotone_drawdown_bounds (capital : Q) (before after : list op) :
  let p := apply_ops (init capital) before in
  let p' := apply_ops p after in
  peak_value p <= peak_value p'
  /\ (0 <= capital -> 0 <= get_drawdown p)
  /\ (0 <= capital -> 0 <= portfolio_value p -> get_drawdown p <= 1).
Proof.
  intros p p'. subst p p'. split; [apply apply_ops_peak|].
  assert (0 <= capital -> 0 <= peak_value (apply_ops (init capital) before)) as Hpk.
  { intros Hc. eapply Qle_trans; [exact Hc | apply (apply_ops_peak before (init capital))]. }
  assert (portfolio_value (apply_ops (init capital) before)
          <= peak_value (apply_ops (init capital) before)) as Hbelow.
  { apply apply_ops_below_peak. simpl. apply Qle_refl. }
  split; intros Hc; apply drawdown_bounds; auto.
Qed.

Lemma peak_monotone_drawdown_bounds_witness :
  let p := apply_ops (init 100) [Fill "X" 1 50 "BUY" 0 0; Revalue {[ "X"%string := 40 ]} 1] in
  0 <= get_drawdown p <= 1.
Proof.
  pose proof (peak_monotone_drawdown_bounds 100
                [Fill "X" 1 50 "BUY" 0 0; Revalue {[ "X"%string := 40 ]} 1] []) as H.
  cbv zeta in H. destruct H as (_ & Hlo & Hhi).
  split; [apply Hlo | apply Hhi]; vm_compute; discriminate.
Defined.

(** The claim C9 as written fails on its drawdown bounds.  Buying one share
    at 1000 with 100 of capital and revaluing it at 1 gives a portfolio
    value of -899 against a peak of 100: the drawdown is 999/100.  With a
    negative initial capital the drawdown goes below 0. *)
Lemma drawdown_bounds_counterexample :
  1 < get_drawdown (apply_ops (init 100) overdrawn_ops)
  /\ get_drawdown (apply_ops (init (-100)) overdrawn_ops) < 0.
Proof. split; vm_compute; reflexivity. Qed.

End PortfolioFacts.

(** * The risk gate *)

Module RiskFacts.
Import PrimFloat SpecFloat FloatOps FloatAxioms.
Import RiskManager LedgerSpec RiskSpec.

(** C4: [should_stop_trading] halts exactly when the drawdown is strictly
    above [max_drawdown] or cash is strictly below 0; a drawdown equal to
    the threshold, with non-negative cash, does not halt. *)
Theorem should_halt_iff (rm : t) (p : Portfolio.t) :
  (fst (should_stop_trading rm p) = true
     <-> max_drawdown rm < Portfolio.get_drawdown p \/ Portfolio.cash p < 0)
  /\ (Portfolio.get_drawdown p == max_drawdown rm -> 0 <= Portfolio.cash p ->
      fst (should_stop_trading rm p) = false).
Proof.
  unfold should_stop_trading.
  destruct (Qgtb (Portfolio.get_drawdown p) (max_drawdown rm)) eqn:Hd.
  - apply Qgtb_true in Hd. simpl. split; [tauto|]. intros He _. lra.
  - apply Qgtb_false in Hd.
    destruct (Qltb (Portfolio.cash p) 0) eqn:Hc; simpl.
    + apply Qltb_true in Hc. split; [tauto|]. intros _ H0. lra.
    + apply Qltb_false in Hc. split; [|reflexivity].
      split; [discriminate|]. intros [H|H]; lra.
Qed.

Lemma should_halt_iff_witness :
  fst (should_stop_trading (init None (Some (20 # 100)) (2 # 100)) at_threshold) = false.
Proof.
  apply (should_halt_iff (init None (Some (20 # 100)) (2 # 100)) at_threshold);
    vm_compute; [reflexivity | discriminate].
Defined.

(** The threshold the gate compares with is the configured one, except that
    a configured 0 is replaced by the default. *)
Lemma configured_max_drawdown (mps : option Q) (th mlpt : Q) :
  ~ th == 0 -> max_drawdown (init mps (Some th) mlpt) = th.
Proof. intros H. simpl. apply Qeq_bool_false in H. now rewrite H. Qed.

Lemma zero_max_drawdown_is_default (mps : option Q) (mlpt : Q) :
  max_drawdown (init mps (Some 0) mlpt) = MAX_DRAWDOWN_THRESHOLD
  /\ max_drawdown (init mps None mlpt) = MAX_DRAWDOWN_THRESHOLD.
Proof. split; reflexivity. Qed.

Lemma py_int_toward_zero x : py_int x = toward_zero x.
Proof.
  unfold toward_zero. destruct (Qle_bool 0 x) eqn:E.
  - apply Qle_bool_iff in E. now apply py_int_nonneg.
  - apply py_int_nonpos. apply Qlt_le_weak, Qnot_le_lt.
    intros H. apply Qle_bool_iff in H. congruence.
Qed.

(** *** The sizing rule on binary64 *)

Lemma eqb_zero (x : float) :
  (x =? 0)%float = match Prim2SF x with S754_zero _ => true | _ => false end.
Proof.
  rewrite eqb_spec. change (Prim2SF 0) with (S754_zero false).
  now destruct (Prim2SF x) as [[|]|[|]| |[|] ? ?].
Qed.

(** Shifting the mantissa is rounding m * 2^e toward zero. *)
Lemma toward_zero_shift (s : bool) (m : positive) (e : Z) :
  toward_zero
    (let magnitude :=
       match e with
       | Zneg k => Zpos m # 2 ^ k
       | _ => inject_Z (Zpos m * 2 ^ e)
       end in
     if s then - magnitude else magnitude)
  = (let magnitude :=
       match e with
       | Zneg k => Z.shiftr (Zpos m) (Zpos k)
       | _ => Z.shiftl (Zpos m) e
       end in
     if s then (- magnitude)%Z else magnitude).
Proof.
  cbv zeta. unfold toward_zero.
  assert (Hfrac : forall k, Qfloor (Zpos m # 2 ^ k) = Z.shiftr (Zpos m) (Zpos k)).
  { intros k. unfold Qfloor. rewrite Z.shiftr_div_pow2 by lia.
    now rewrite Pos2Z.inj_pow. }
  assert (Hnn : forall (z : Z) (s : bool), (0 <= z)%Z ->
            (if Qle_bool 0 (if s then - inject_Z (Zpos m * 2 ^ z)
                            else inject_Z (Zpos m * 2 ^ z))
             then Qfloor (if s then - inject_Z (Zpos m * 2 ^ z)
                          else inject_Z (Zpos m * 2 ^ z))
             else Qceiling (if s then - inject_Z (Zpos m * 2 ^ z)
                            else inject_Z (Zpos m * 2 ^ z)))
            = if s then (- Z.shiftl (Zpos m) z)%Z else Z.shiftl (Zpos m) z).
  { intros z s0 Hz. rewrite (Z.shiftl_mul_pow2 _ _ Hz).
    assert (Hpos : (0 < Zpos m * 2 ^ z)%Z)
      by (apply Z.mul_pos_pos; [|apply Z.pow_pos_nonneg]; lia).
    destruct s0.
    - assert (H : Qle_bool 0 (- inject_Z (Zpos m * 2 ^ z)) = false).
      { apply not_true_iff_false. rewrite Qle_bool_iff. unfold Qle. cbn. lia. }
      rewrite H. unfold Qceiling. rewrite Qopp_involutive. now rewrite Qfloor_Z.
    - assert (H : Qle_bool 0 (inject_Z (Zpos m * 2 ^ z)) = true).
      { rewrite Qle_bool_iff. unfold Qle. cbn. lia. }
      rewrite H. now rewrite Qfloor_Z. }
  destruct e as [|k|k].
  - apply (Hnn 0%Z s). lia.
  - apply (Hnn (Zpos k) s). lia.
  - destruct s.
    + assert (H : Qle_bool 0 (- (Zpos m # 2 ^ k)) = false).
      { apply not_true_iff_false. rewrite Qle_bool_iff. unfold Qle. cbn. lia. }
      rewrite H. unfold Qceiling. rewrite Qopp_involutive. now rewrite Hfrac.
    + assert (H : Qle_bool 0 (Zpos m # 2 ^ k) = true).
      { rewrite Qle_bool_iff. unfold Qle. cbn. lia. }
      rewrite H. apply Hfrac.
Qed.

(** [int()] rounds the number a float stands for toward zero. *)
Lemma py_int_read (x : float) :
  Binary64.py_int x
  = match read x with
    | Exact v => inr (toward_zero v)
    | Infinite => inl OverflowError
    | NotNumber => inl ValueError
    end.
Proof.
  unfold Binary64.py_int, read. destruct (Prim2SF x) as [s|s| |s m e]; try reflexivity.
  now rewrite toward_zero_shift.
Qed.

(** Zero times a float is zero or NaN. *)
Lemma mul_zero_l (x y : float) :
  (x =? 0)%float = true ->
  (x * y =? 0)%float = true \/ Prim2SF (x * y) = S754_nan.
Proof.
  rewrite !eqb_zero, mul_spec. unfold SF64mul, SFmul.
  destruct (Prim2SF x); try discriminate. intros _.
  destruct (Prim2SF y); auto.
Qed.

Lemma div_nan_r (x y : float) :
  Prim2SF y = S754_nan -> Prim2SF (x / y) = S754_nan.
Proof.
  intros H. rewrite div_spec, H. unfold SF64div, SFdiv. now destruct (Prim2SF x).
Qed.

(** What the method comes to on either side of its test. *)
Lemma sizing_outcome (v max_position_size max_loss_per_trade price stop : float) :
  let risk_per_share := (price * stop)%float in
  let q1 := (v * max_loss_per_trade / risk_per_share)%float in
  let q2 := (v * max_position_size / price)%float in
  Binary64.calculate_position_size v max_position_size max_loss_per_trade price stop
  = if (risk_per_share =? 0)%float then inr 0%Z else sized q1 q2.
Proof.
  intros rps q1 q2. unfold Binary64.calculate_position_size. fold rps.
  destruct (rps =? 0)%float eqn:Hz; [reflexivity|].
  unfold Binary64.py_div at 1. rewrite Hz. cbn [raise_bind]. fold q1.
  unfold sized. rewrite py_int_read.
  destruct (price =? 0)%float eqn:Hp.
  - destruct (mul_zero_l price stop Hp) as [H|H]; fold rps in H; [congruence|].
    assert (Hq : read q1 = NotNumber).
    { unfold read, q1. now rewrite (div_nan_r _ _ H). }
    rewrite Hq. reflexivity.
  - destruct (read q1); cbn [raise_bind]; try reflexivity.
    unfold Binary64.py_div. rewrite Hp. cbn [raise_bind]. fold q2.
    rewrite py_int_read. now destruct (read q2).
Qed.

(** C5, as amended: on binary64 numbers [calculate_position_size] returns
    0 when the product price * stop_loss_pct equals 0.  Otherwise, with
    q1 = (v * max_loss_per_trade) / (price * stop_loss_pct) and
    q2 = (v * max_position_size) / price as binary64 computes them, it
    returns the smaller of q1 and q2, each rounded toward zero, when both
    are finite, which is the smaller of their floors when neither is
    negative; it raises OverflowError when the first of them that is not
    finite is an infinity and ValueError when it is NaN.  It never raises
    ZeroDivisionError: a price of zero makes the product zero or NaN, and
    NaN makes q1 NaN. *)
Theorem position_size (v max_position_size max_loss_per_trade price stop : float) :
  let risk_per_share := (price * stop)%float in
  let q1 := (v * max_loss_per_trade / risk_per_share)%float in
  let q2 := (v * max_position_size / price)%float in
  let result :=
    Binary64.calculate_position_size v max_position_size max_loss_per_trade
      price stop in
  ((risk_per_share =? 0)%float = true -> result = inr 0%Z)
  /\ ((risk_per_share =? 0)%float = false -> result = sized q1 q2)
  /\ (forall v1 v2,
        (risk_per_share =? 0)%float = false ->
        read q1 = Exact v1 -> read q2 = Exact v2 -> 0 <= v1 -> 0 <= v2 ->
        result = inr (Z.min (Qfloor v1) (Qfloor v2)))
  /\ result <> inl ZeroDivisionError.
Proof.
  intros rps q1 q2 result.
  pose proof (sizing_outcome v max_position_size max_loss_per_trade price stop) as H.
  cbv zeta in H. fold rps q1 q2 result in H.
  split; [|split; [|split]].
  - intros Hz. now rewrite H, Hz.
  - intros Hz. now rewrite H, Hz.
  - intros v1 v2 Hz H1 H2 Hv1 Hv2. rewrite H, Hz. unfold sized. rewrite H1, H2.
    unfold toward_zero.
    now rewrite (proj2 (Qle_bool_iff 0 v1) Hv1), (proj2 (Qle_bool_iff 0 v2) Hv2).
  - rewrite H. destruct (rps =? 0)%float; [discriminate|].
    unfold sized. destruct (read q1), (read q2); discriminate.
Qed.

Lemma position_size_witness :
  Binary64.calculate_position_size 100000 ten_percent two_percent 50 two_percent
  = inr 200%Z.
Proof.
  destruct (position_size 100000 ten_percent two_percent 50 two_percent)
    as (_ & _ & H & _).
  cbv zeta in H.
  rewrite (H _ _ eq_refl eq_refl eq_refl) by (unfold Qle; cbn; lia).
  reflexivity.
Defined.

(** The claim C5 as written fails on ordinary numbers.  With the default
    limits, a portfolio value of 99600 and the price 19.92, both floors of
    the rule are exact, 5000 and 500, and the rule gives 500; binary64
    computes the second quotient as 499.99999999999994 and the code
    returns 499.  And it does not return for every price: at the price
    2^-1030 the first quotient is infinite and [int()] raises
    OverflowError. *)
Lemma position_size_floor_counterexample :
  Binary64.calculate_position_size 99600 ten_percent two_percent price_19_92
    two_percent = inr 499%Z
  /\ floor_position_size 99600 (2 # 100) (1 # 10) (1992 # 100) (2 # 100) = 500%Z
  /\ Binary64.calculate_position_size 100000 ten_percent two_percent tiny_price
       two_percent = inl OverflowError.
Proof. repeat split; vm_compute; reflexivity. Qed.

End RiskFacts.

(** * The metrics *)

Module MetricsFacts.
Import PerformanceMetrics MetricsSpec.

(** *** Runs of consecutive points *)

Lemma leading_run_block (block after : list bool) :
  Forall (fun b => b = true) block ->
  (length block <= leading_run (block ++ after))%nat.
Proof.
  induction 1 as [|b block Hb _ IH]; simpl; [lia|]. subst b. lia.
Qed.

Lemma leading_le_longest (flags : list bool) :
  (leading_run flags <= longest_run flags)%nat.
Proof. destruct flags; simpl; lia. Qed.

Lemma longest_run_bounds (flags block : list bool) :
  true_block flags block -> (length block <= longest_run flags)%nat.
Proof.
  intros [(before & after & ->) Hall].
  induction before as [|b before IH].
  - simpl. etransitivity; [apply (leading_run_block _ after Hall)|].
    apply leading_le_longest.
  - change ((b :: before) ++ block ++ after) with (b :: (before ++ block ++ after)).
    cbn [longest_run]. lia.
Qed.

Lemma leading_run_attained (flags : list bool) :
  true_block flags (take (leading_run flags) flags).
Proof.
  split.
  - exists [], (drop (leading_run flags) flags). simpl. now rewrite take_drop.
  - induction flags as [|[|] flags IH]; simpl; constructor; auto.
Qed.

Lemma longest_run_attained (flags : list bool) :
  exists block, true_block flags block /\ length block = longest_run flags.
Proof.
  induction flags as [|b flags (block & [(before & after & Hfl) Hall] & Hlen)].
  - exists []. split; [split; [now exists [], [] | constructor] | reflexivity].
  - cbn [longest_run].
    destruct (Nat.max_spec (leading_run (b :: flags)) (longest_run flags))
      as [[_ ->] | [Hle ->]].
    + exists block. split; [|exact Hlen]. split; [|exact Hall].
      exists (b :: before), after. now rewrite Hfl.
    + exists (take (leading_run (b :: flags)) (b :: flags)).
      split; [apply leading_run_attained|].
      rewrite length_take. clear.
      assert (leading_run (b :: flags) <= length (b :: flags))%nat; [|lia].
      generalize (b :: flags). intros l. induction l as [|[|] l IH]; simpl; lia.
Qed.

(** *** The running peak *)

Lemma py_max_ge_l a b : a <= py_max a b.
Proof.
  unfold py_max. destruct (Qgtb b a) eqn:E; [|apply Qle_refl].
  apply Qgtb_true in E. now apply Qlt_le_weak.
Qed.

Lemma py_max_ge_r a b : b <= py_max a b.
Proof.
  unfold py_max. destruct (Qgtb b a) eqn:E; [apply Qle_refl|].
  now apply Qgtb_false in E.
Qed.

Lemma py_max_zero a b : 0 <= a -> b == 0 -> py_max a b = a.
Proof.
  intros Ha Hb. unfold py_max. destruct (Qgtb b a) eqn:E; [|reflexivity].
  apply Qgtb_true in E. lra.
Qed.

Lemma fold_py_max_ge (l : list Q) (a : Q) : a <= fold_left py_max l a.
Proof.
  revert a. induction l as [|x l IH]; intros a; simpl; [apply Qle_refl|].
  eapply Qle_trans; [apply (py_max_ge_l a x) | apply IH].
Qed.

(** [fold_left py_max] is the maximum: an upper bound that is attained. *)
Lemma fold_py_max_upper (l : list Q) (a x : Q) :
  In x l -> x <= fold_left py_max l a.
Proof.
  revert a. induction l as [|y l IH]; intros a; simpl; [tauto|].
  intros [->|Hin]; [|now apply IH].
  eapply Qle_trans; [apply (py_max_ge_r a x) | apply fold_py_max_ge].
Qed.

Lemma fold_py_max_attained (l : list Q) (a : Q) :
  fold_left py_max l a = a \/ In (fold_left py_max l a) l.
Proof.
  revert a. induction l as [|y l IH]; intros a; simpl; [now left|].
  destruct (IH (py_max a y)) as [H|H]; [|now right; right].
  rewrite H. unfold py_max. destruct (Qgtb y a); [right; now left | now left].
Qed.

(** [largest_drawdown] bounds the drawdown at every point, and is the
    drawdown at one of them unless it is 0. *)
Lemma largest_drawdown_is_max (pts : list (Q * Q)) :
  (forall pt, In pt pts -> drawdown_at pt <= largest_drawdown pts)
  /\ (largest_drawdown pts = 0
      \/ exists pt, In pt pts /\ largest_drawdown pts = drawdown_at pt).
Proof.
  unfold largest_drawdown. split.
  - intros pt Hin. apply fold_py_max_upper. now apply in_map.
  - destruct (fold_py_max_attained (List.map drawdown_at pts) 0) as [H|H];
      [now left | right].
    apply in_map_iff in H. destruct H as (pt & Heq & Hin). now exists pt.
Qed.

(** *** The loop of [max_drawdown] *)

Lemma dd_loop_result (values : list Q) (st st' : dd_state) :
  dd_loop st values = inr st' ->
  0 <= max_dd st ->
  (current_dd_duration st <= max_dd_duration st)%nat ->
  let pts := against_peak (peak st) values in
  max_dd st' = fold_left py_max (List.map drawdown_at pts) (max_dd st)
  /\ max_dd_duration st' =
       Nat.max (max_dd_duration st)
         (Nat.max (current_dd_duration st + leading_run (List.map at_or_below_peak pts))
                  (longest_run (List.map at_or_below_peak pts))).
Proof.
  revert st. induction values as [|v rest IH]; intros st Hrun Hdd Hcur.
  - simpl in *. inversion Hrun; subst. split; [reflexivity | lia].
  - cbn [dd_loop raise_bind] in Hrun. unfold dd_step in Hrun.
    cbn [against_peak List.map fold_left leading_run longest_run].
    destruct (Qgtb v (peak st)) eqn:Hgt.
    + assert (drawdown_at (peak st, v) == 0) as Hzero.
      { unfold drawdown_at, running_peak. cbn [fst snd]. rewrite Hgt.
        unfold Qdiv. ring. }
      assert (at_or_below_peak (peak st, v) = false) as ->.
      { unfold at_or_below_peak. cbn [fst snd]. now rewrite Hgt. }
      rewrite (py_max_zero _ _ Hdd Hzero).
      destruct (IH _ Hrun) as [Hd Hn]; cbn [max_dd max_dd_duration current_dd_duration];
        [exact Hdd | lia |].
      cbn [peak max_dd max_dd_duration current_dd_duration] in Hd, Hn.
      rewrite Hd, Hn. split; [reflexivity|].
      pose proof (leading_le_longest
                    (List.map at_or_below_peak (against_peak v rest))). lia.
    + assert (drawdown_at (peak st, v) = (peak st - v) / peak st) as ->.
      { unfold drawdown_at, running_peak. cbn [fst snd]. now rewrite Hgt. }
      assert (at_or_below_peak (peak st, v) = true) as ->.
      { unfold at_or_below_peak. cbn [fst snd]. now rewrite Hgt. }
      unfold py_div in Hrun. destruct (Qeq_bool (peak st) 0); [discriminate|].
      cbn [raise_bind] in Hrun.
      destruct (IH _ Hrun) as [Hd Hn]; cbn [max_dd max_dd_duration current_dd_duration];
        [eapply Qle_trans; [exact Hdd | apply py_max_ge_l] | lia |].
      cbn [peak max_dd max_dd_duration current_dd_duration] in Hd, Hn.
      rewrite Hd, Hn. split; [reflexivity|].
      pose proof (leading_le_longest
                    (List.map at_or_below_peak (against_peak (peak st) rest))). lia.
Qed.

Lemma dd_loop_total (values : list Q) (st : dd_state) :
  0 < peak st -> exists st', dd_loop st values = inr st'.
Proof.
  revert st. induction values as [|v rest IH]; intros st Hpk; simpl.
  - now eexists.
  - unfold dd_step. destruct (Qgtb v (peak st)) eqn:Hgt; simpl.
    + apply IH. simpl. apply Qgtb_true in Hgt. lra.
    + unfold py_div. destruct (Qeq_bool (peak st) 0) eqn:E.
      * apply Qeq_bool_iff in E. lra.
      * simpl. now apply IH.
Qed.

(** C7, as amended: whenever [max_drawdown] returns, the drawdown it
    reports is the maximum over the curve of (peak - value)/peak against
    the running peak, and the duration is the maximum number of
    consecutive equity points that do not set a new peak, that is, whose
    value is at or below the peak of the points before (the first point
    counts); it returns on every curve whose first value is positive. *)
Theorem max_drawdown_spec (equity_curve : list Portfolio.EquityPoint) :
  let pts := points (values_of equity_curve) in
  (forall dd duration,
      max_drawdown equity_curve = inr (dd, duration) ->
      dd = largest_drawdown pts
      /\ duration = longest_run (List.map at_or_below_peak pts))
  /\ ((exists first, head equity_curve = Some first /\ 0 < Portfolio.ep_value first) ->
      exists dd duration, max_drawdown equity_curve = inr (dd, duration)).
Proof.
  unfold max_drawdown, points, largest_drawdown.
  destruct equity_curve as [|first rest]; cbn [values_of List.map].
  - split.
    + intros dd duration H. inversion H. split; reflexivity.
    + now eexists _, _.
  - split.
    + intros dd duration H.
      destruct (dd_loop _ _) as [e|st'] eqn:Hrun; simpl in H; [discriminate|].
      inversion H; subst.
      destruct (dd_loop_result _ _ _ Hrun) as [Hd Hn]; simpl; [apply Qle_refl | lia |].
      simpl in Hd, Hn. rewrite Hd, Hn. split; [reflexivity|].
      match goal with |- context [leading_run ?l] =>
        pose proof (leading_le_longest l) end. lia.
    + intros (first' & Hhd & Hpos). simpl in Hhd. inversion Hhd; subst.
      destruct (dd_loop_total (Portfolio.ep_value first' :: values_of rest)
                  (mkDD (Portfolio.ep_value first') 0 0 0) Hpos) as [st' Hst'].
      unfold values_of in Hst'. rewrite Hst'. simpl. now eexists _, _.
Qed.

Lemma max_drawdown_spec_witness :
  max_drawdown (curve_of [100; 120; 90; 110; 130; 130]) = inr (30 / 120, 2%nat).
Proof.
  destruct (max_drawdown_spec (curve_of [100; 120; 90; 110; 130; 130])) as [Hval Hret].
  destruct Hret as (dd & duration & Hrun).
  - eexists. split; [reflexivity|]. reflexivity.
  - destruct (Hval dd duration Hrun) as [-> ->]. rewrite Hrun. reflexivity.
Defined.

(** The claim C7 as written fails on the duration: on a flat curve no point
    is strictly below the running peak, so the longest run of such points
    is 0, and the code reports 3. *)
Lemma max_drawdown_duration_counterexample :
  let curve := curve_of [100; 100; 100] in
  max_drawdown curve = inr (0, 3%nat)
  /\ longest_run (List.map strictly_below_peak (points (values_of curve))) = 0%nat.
Proof. split; reflexivity. Qed.

(** *** Metrics of a flat curve and an empty trade log *)

Lemma fold_Qplus_zeros (l : list Q) (a : Q) :
  Forall (fun x => x == 0) l -> fold_left Qplus l a == a.
Proof.
  revert a. induction l as [|x l IH]; intros a Hall; cbn; [reflexivity|].
  inversion Hall as [|? ? Hx Hl]; subst. rewrite (IH _ Hl), Hx. ring.
Qed.

Lemma Qsum_zeros (l : list Q) : Forall (fun x => x == 0) l -> Qsum l == 0.
Proof. apply fold_Qplus_zeros. Qed.

Lemma sample_variance_zeros (l : list Q) :
  Forall (fun x => x == 0) l -> sample_variance l == 0.
Proof.
  intros Hall. unfold sample_variance, mean.
  assert (Qsum l / length_Q l == 0) as Hmean.
  { rewrite (Qsum_zeros l Hall). unfold Qdiv. ring. }
  rewrite Qsum_zeros; [unfold Qdiv; ring|].
  apply Forall_map. eapply Forall_impl; [exact Hall|].
  cbn. intros x Hx. rewrite Hx, Hmean. ring.
Qed.

(** The changes along a curve that stays at a non-zero level are finite
    and zero. *)
Lemma pct_change_flat (c prev : Q) (values : list Q) :
  ~ c == 0 -> prev == c -> Forall (fun v => v == c) values ->
  exists qs, pct_change_from prev values = List.map Finite qs
             /\ Forall (fun q => q == 0) qs
             /\ length qs = length values.
Proof.
  intros Hc. revert prev. induction values as [|v rest IH]; intros prev Hprev Hall.
  - exists []. repeat split. constructor.
  - inversion Hall as [|? ? Hv Hrest]; subst.
    destruct (IH v Hv Hrest) as (qs & Heq & Hz & Hlen).
    exists ((v / prev - 1) :: qs). cbn [pct_change_from List.map length].
    rewrite Heq, Hlen. unfold pct.
    assert (Qeq_bool prev 0 = false) as ->.
    { apply Qeq_bool_false. now rewrite Hprev. }
    repeat split. constructor; [|exact Hz].
    rewrite Hv, Hprev. field. exact Hc.
Qed.

Lemma dropna_finite (qs : list Q) : dropna (List.map Finite qs) = List.map Finite qs.
Proof. induction qs as [|q qs IH]; cbn; [reflexivity | now f_equal]. Qed.

Lemma all_finite_map (qs : list Q) : all_finite (List.map Finite qs) = Some qs.
Proof. induction qs as [|q qs IH]; cbn; [reflexivity | now rewrite IH]. Qed.

(** The Sharpe ratio of a curve that stays at a non-zero level is 0, unless
    the curve has exactly two points. *)
Lemma flat_curve_sharpe (c rf : Q) (ppy : Z) (curve : list Portfolio.EquityPoint) :
  ~ c == 0 ->
  Forall (fun pt => Portfolio.ep_value pt == c) curve ->
  length curve <> 2%nat ->
  sharpe_ratio (calculate_returns curve) rf ppy = Num 0.
Proof.
  intros Hc Hall Hlen. destruct curve as [|first rest]; [reflexivity|].
  inversion Hall as [|? ? Hfirst Hrest]; subst.
  destruct (pct_change_flat c (Portfolio.ep_value first) (values_of rest) Hc Hfirst)
    as (qs & Heq & Hz & Hqs).
  { unfold values_of. now apply Forall_map. }
  unfold calculate_returns, values_of, pct_change. cbn [List.map dropna List.filter is_nan negb].
  fold (values_of rest). rewrite Heq. fold (dropna (List.map Finite qs)).
  rewrite dropna_finite. unfold values_of in Hqs. rewrite length_map in Hqs.
  cbn [length] in Hlen.
  destruct qs as [|q1 [|q2 qs]]; [reflexivity | cbn in Hqs; lia |].
  unfold sharpe_ratio, std_squared.
  cbn [List.map]. change (Finite q1 :: Finite q2 :: List.map Finite qs)
    with (List.map Finite (q1 :: q2 :: qs)).
  rewrite all_finite_map. cbn [length Nat.ltb Nat.leb].
  now rewrite (Qeq_eq_bool _ _ (sample_variance_zeros _ Hz)).
Qed.

Lemma empty_log_metrics (curve : list Portfolio.EquityPoint) (c rf : Q)
    (result : option Metrics) :
  calculate_all_metrics curve [] c rf = inr result ->
  match result with
  | None => curve = []
  | Some m =>
      curve <> [] /\ ~ c == 0
      /\ total_trades m = 0%nat /\ win_rate m = 0 /\ profit_factor m = 0
      /\ sharpe m = sharpe_ratio (calculate_returns curve) rf default_periods_per_year
  end.
Proof.
  unfold calculate_all_metrics. intros H.
  destruct (last curve) as [final|] eqn:Hlast.
  - unfold py_div in H at 1.
    destruct (Qeq_bool c 0) eqn:Hc; [discriminate|]. cbn [raise_bind] in H.
    destruct (max_drawdown curve) as [err|dd]; [discriminate|].
    cbn in H. inversion H; subst. cbn.
    repeat split; [|now apply Qeq_bool_false].
    intros ->. discriminate.
  - inversion H; subst. now apply last_None.
Qed.

(** With a single change the deviation, and so the ratio, is NaN. *)
Lemma two_point_sharpe :
  sharpe_ratio (calculate_returns (curve_of [100000; 100000]))
    default_risk_free_rate default_periods_per_year = NotANumber.
Proof. reflexivity. Qed.

End MetricsFacts.

(** * The engine *)

Module EngineFacts.
Import BacktestEngine EngineSpec.

(** A fill always appends one trade. *)
Lemma update_position_appends p symbol q price side commission now :
  length (Portfolio.trades
            (Portfolio.update_position p symbol q price side commission now))
  = S (length (Portfolio.trades p)).
Proof.
  unfold Portfolio.update_position.
  destruct (String.eqb (upper side) "BUY");
    [|destruct (String.eqb (upper side) "SELL")];
    cbn; destruct (Portfolio.positions p !! symbol) as [pos|]; cbn;
    try destruct (q >=? Portfolio.pos_quantity pos)%Z; cbn;
    rewrite ?length_alter, length_app; cbn; lia.
Qed.

(** Selling all the shares held removes the position. *)
Lemma sell_all_removes p symbol pos price commission now :
  Portfolio.positions p !! symbol = Some pos ->
  Portfolio.positions
    (Portfolio.update_position p symbol (Portfolio.pos_quantity pos) price
       "SELL" commission now) !! symbol = None.
Proof.
  intros Hpos. unfold Portfolio.update_position. cbn. rewrite Hpos.
  rewrite (proj2 (Z.geb_le _ _)) by lia. cbn. apply lookup_delete_eq.
Qed.

(** The risk gate approves every SELL of exactly the quantity held, which is
    the only SELL the engine proposes. *)
Lemma sell_of_holding_approved (rm : RiskManager.t) (p : Portfolio.t)
    symbol pos price :
  Portfolio.positions p !! symbol = Some pos ->
  RiskManager.check_trade rm p symbol (Portfolio.pos_quantity pos) price "SELL"
    = inr (true, RiskManager.TradeApproved).
Proof.
  intros Hpos. unfold RiskManager.check_trade, RiskManager._check_sell_order,
    Portfolio.get_position. cbn. rewrite Hpos.
  now rewrite Z.gtb_ltb, Z.ltb_irrefl.
Qed.

Section WithStrategy.

Context {State : Type}.
Variable on_bar : State -> BarEvent -> State * option Signal.
Variable clock : nat -> Z.

Abbreviation engine := (@BacktestEngine.t State).
Abbreviation _process_signal := (@BacktestEngine._process_signal State clock).

Lemma has_position_true (p : Portfolio.t) symbol :
  is_Some (Portfolio.positions p !! symbol) -> Portfolio.has_position p symbol = true.
Proof. intros H. unfold Portfolio.has_position. now apply bool_decide_eq_true. Qed.

Lemma has_position_false (p : Portfolio.t) symbol :
  Portfolio.positions p !! symbol = None -> Portfolio.has_position p symbol = false.
Proof.
  intros H. unfold Portfolio.has_position. apply bool_decide_eq_false.
  rewrite H. intros [x Hx]. discriminate.
Qed.

(** C6: a BUY signal on a symbol with a position changes nothing; an
    approved BUY of the quantity the risk gate sizes is filled at
    price * (1 + slippage) with the engine's commission; a SELL signal on a
    symbol with no position changes nothing; an approved SELL fills the
    whole quantity held at price * (1 - slippage), after which the
    position is gone. *)
Theorem signal_routing (e : engine) (sg : Signal) :
  let p := portfolio e in
  let symbol := sg_symbol sg in
  let price := sg_price sg in
  (signal_type sg = BUY -> is_Some (Portfolio.positions p !! symbol) ->
     _process_signal e sg = inr e)
  /\ (signal_type sg = BUY -> Portfolio.positions p !! symbol = None ->
      forall quantity r,
        quantity = RiskManager.calculate_position_size (risk_manager e) p price
                     RiskManager.default_stop_loss_pct ->
        (0 < quantity)%Z ->
        RiskManager.check_trade (risk_manager e) p symbol quantity price "BUY"
          = inr (true, r) ->
        _process_signal e sg
          = inr (set_portfolio
                   (Portfolio.update_position p symbol quantity
                      (price * (1 + slippage e)) "BUY" (commission e) (now clock p)) e))
  /\ (signal_type sg = SELL -> Portfolio.positions p !! symbol = None ->
      _process_signal e sg = inr e)
  /\ (signal_type sg = SELL ->
      forall pos r,
        Portfolio.positions p !! symbol = Some pos ->
        RiskManager.check_trade (risk_manager e) p symbol
          (Portfolio.pos_quantity pos) price "SELL" = inr (true, r) ->
        exists e',
          _process_signal e sg = inr e'
          /\ portfolio e' =
               Portfolio.update_position p symbol (Portfolio.pos_quantity pos)
                 (price * (1 - slippage e)) "SELL" (commission e) (now clock p)
          /\ Portfolio.positions (portfolio e') !! symbol = None).
Proof.
  intros p symbol price. subst p symbol price.
  unfold BacktestEngine._process_signal. repeat split.
  - intros -> Hsome. cbn. now rewrite (has_position_true _ _ Hsome).
  - intros -> Hnone quantity r -> Hq Hok. cbn.
    rewrite (has_position_false _ _ Hnone). cbn.
    rewrite (proj2 (Z.gtb_lt _ _) Hq), Hok. reflexivity.
  - intros -> Hnone. cbn. unfold Portfolio.get_position. now rewrite Hnone.
  - intros -> pos r Hpos Hok. cbn. unfold Portfolio.get_position.
    rewrite Hpos, Hok. cbn. eexists. split; [reflexivity|].
    split; [reflexivity|]. cbn. now apply sell_all_removes.
Qed.

(** *** Runs without trades *)

Abbreviation visit_symbol := (@BacktestEngine.visit_symbol State on_bar clock).
Abbreviation visit_symbols := (@BacktestEngine.visit_symbols State on_bar clock).
Abbreviation run_dates := (@BacktestEngine.run_dates State on_bar clock).
Abbreviation run := (@BacktestEngine.run State on_bar clock).

Lemma process_signal_step (e e' : engine) (sg : Signal) :
  _process_signal e sg = inr e' -> ledger_kept_or_traded e e'.
Proof.
  unfold BacktestEngine._process_signal, ledger_kept_or_traded, trade_count.
  intros H.
  repeat match type of H with
  | inr _ = inr _ => inversion H; subst; clear H
  | inl _ = inr _ => discriminate H
  | context [raise_bind ?m _] => destruct m as [?|[[|] ?]]; cbn [raise_bind fst] in H
  | context [if ?c then _ else _] => destruct c
  | context [match ?c with _ => _ end] => destruct c eqn:?; cbn [raise_bind] in H
  end; cbn; rewrite ?update_position_appends; auto with lia.
Qed.

Lemma visit_symbol_step (date : Z) (e e' : engine) (symbol : string) :
  visit_symbol date e symbol = inr e' -> ledger_kept_or_traded e e'.
Proof.
  unfold BacktestEngine.visit_symbol. intros H.
  destruct (dict_get (data e) symbol) as [df|]; [|inversion H; now split; auto].
  destruct (df !! date) as [bar|]; [|inversion H; now split; auto].
  destruct (on_bar _ _) as [s' [sg|]].
  - apply process_signal_step in H. exact H.
  - inversion H. split; auto.
Qed.

Lemma visit_symbols_step (date : Z) (symbols : list string) (e e' : engine) :
  visit_symbols date e symbols = inr e' -> ledger_kept_or_traded e e'.
Proof.
  revert e. induction symbols as [|symbol rest IH]; intros e H; cbn in H.
  - inversion H. split; auto.
  - destruct (visit_symbol date e symbol) as [err|e1] eqn:H1; [discriminate|].
    cbn in H. apply visit_symbol_step in H1. apply IH in H.
    destruct H1 as [H1 Hc1], H as [H Hc]. unfold ledger_kept_or_traded, trade_count in *.
    split; [|congruence].
    destruct H1 as [H1|H1], H as [H|H]; rewrite ?H, ?H1 in *; auto with lia.
Qed.

Lemma reprice_empty (items : list (string * Q)) : Portfolio.reprice ∅ items = ∅.
Proof.
  apply map_eq. intros symbol.
  now rewrite PortfolioFacts.reprice_lookup, lookup_empty.
Qed.

Lemma update_prices_untouched (c : Q) (p : Portfolio.t) prices now :
  untouched c p -> untouched c (Portfolio.update_prices p prices now).
Proof.
  intros (Hpos & Hcash & Hcurve).
  unfold untouched, Portfolio.update_prices, Portfolio._calculate_portfolio_value.
  cbn. rewrite Hpos, reprice_empty. repeat split; [exact Hcash|].
  apply Forall_app. split; [exact Hcurve|]. constructor; [|constructor].
  cbn. unfold Portfolio.positions_value. rewrite map_fold_empty, Hcash. ring.
Qed.

Lemma update_prices_trades (p : Portfolio.t) prices now :
  Portfolio.trades (Portfolio.update_prices p prices now) = Portfolio.trades p.
Proof. reflexivity. Qed.

Lemma run_dates_untouched (c : Q) (symbols : list string) (dates : list Z)
    (e e' : engine) :
  run_dates e symbols dates = inr e' ->
  (trade_count e <= trade_count e')%nat
  /\ initial_capital e' = initial_capital e
  /\ (trade_count e' = 0%nat -> untouched c (portfolio e) -> untouched c (portfolio e')).
Proof.
  revert e. induction dates as [|date rest IH]; intros e H; cbn in H.
  - inversion H. auto.
  - destruct (fst (RiskManager.should_stop_trading _ _)); [inversion H; auto|].
    destruct (visit_symbols date e symbols) as [err|e1] eqn:H1; [discriminate|].
    cbn in H. apply visit_symbols_step in H1. apply IH in H.
    destruct H1 as [H1 Hc1], H as (Hle & Hc & Hinv).
    unfold trade_count in *. cbn in Hle, Hc, Hinv.
    split; [destruct H1 as [H1|H1]; rewrite ?H1 in *; lia|].
    split; [congruence|].
    intros Hzero Hun. apply Hinv; [exact Hzero|].
    destruct H1 as [H1|H1]; [|lia].
    rewrite H1. now apply update_prices_untouched.
Qed.

Lemma generate_results_fields (e : engine) (r : Results) :
  _generate_results e = inr r ->
  res_trades r = Portfolio.trades (portfolio e)
  /\ res_equity_curve r = Portfolio.equity_curve (portfolio e)
  /\ PerformanceMetrics.calculate_all_metrics
       (Portfolio.equity_curve (portfolio e)) (Portfolio.trades (portfolio e))
       (initial_capital e) PerformanceMetrics.default_risk_free_rate
     = inr (metrics r).
Proof.
  unfold _generate_results. intros H.
  destruct (PerformanceMetrics.calculate_all_metrics _ _ _ _) as [err|m];
    [discriminate|]. cbn [raise_bind] in H.
  destruct (Portfolio.get_summary _) as [err|summary]; [discriminate|].
  cbn in H. inversion H; subst. cbn. auto.
Qed.

(** C8, as amended: a completed run of a freshly constructed engine that
    executed no trade yields a result with total_trades = 0, win_rate = 0
    and profit_factor = 0 whenever at least one equity point was recorded,
    and then with sharpe_ratio = 0 unless exactly two points were
    recorded; when no equity point was recorded the result has no metrics
    at all. *)
Theorem zero_trade_run (e e' : engine) (symbols : option (list string))
    (r : Results) :
  portfolio e = Portfolio.init (initial_capital e) ->
  run e symbols = inr (e', r) ->
  res_trades r = [] ->
  match metrics r with
  | None => res_equity_curve r = []
  | Some m =>
      res_equity_curve r <> []
      /\ PerformanceMetrics.total_trades m = 0%nat
      /\ PerformanceMetrics.win_rate m = 0
      /\ PerformanceMetrics.profit_factor m = 0
      /\ (length (res_equity_curve r) <> 2%nat ->
          PerformanceMetrics.sharpe m = PerformanceMetrics.Num 0)
  end.
Proof.
  intros Hfresh Hrun Hnone. unfold BacktestEngine.run in Hrun.
  destruct (match symbols with Some l => l | None => _ end) as [|s ss];
    [discriminate|].
  destruct (index_union _ _) as [err|dates]; [discriminate|].
  cbn [raise_bind] in Hrun.
  destruct (BacktestEngine.run_dates _ _ _ _ _) as [err|e1] eqn:Hdates; [discriminate|].
  cbn [raise_bind] in Hrun.
  destruct (_generate_results e1) as [err|r1] eqn:Hres; [discriminate|].
  cbn in Hrun. inversion Hrun; subst e' r1. clear Hrun.
  destruct (generate_results_fields _ _ Hres) as (Htr & Hcurve & Hm).
  destruct (run_dates_untouched (initial_capital e) _ _ _ _ Hdates) as (_ & Hcap & Hun).
  rewrite Htr in Hnone. rewrite Hnone, Hcap in Hm.
  assert (untouched (initial_capital e) (portfolio e1)) as (_ & _ & Hflat).
  { apply Hun; [unfold trade_count; now rewrite Hnone|].
    rewrite Hfresh. repeat split. constructor. }
  apply MetricsFacts.empty_log_metrics in Hm. rewrite Hcurve.
  destruct (metrics r) as [m|]; [|exact Hm].
  destruct Hm as (Hne & Hc & Htot & Hwin & Hpf & Hsh).
  repeat split; auto.
  intros Hlen. rewrite Hsh. now apply (MetricsFacts.flat_curve_sharpe (initial_capital e)).
Qed.

End WithStrategy.

(** *** Concrete runs *)

Lemma zero_trade_run_witness :
  exists e' r m,
    BacktestEngine.run idle ticks (idle_engine three_days) None = inr (e', r)
    /\ metrics r = Some m
    /\ PerformanceMetrics.total_trades m = 0%nat
    /\ PerformanceMetrics.sharpe m = PerformanceMetrics.Num 0.
Proof.
  destruct (BacktestEngine.run idle ticks (idle_engine three_days) None)
    as [err|[e' r]] eqn:Hrun; [vm_compute in Hrun; discriminate|].
  pose proof (zero_trade_run idle ticks (idle_engine three_days) e' None r
                eq_refl Hrun) as H.
  assert (res_trades r = [] /\ length (res_equity_curve r) = 3%nat) as [Htr Hlen].
  { vm_compute in Hrun. inversion Hrun; subst. split; reflexivity. }
  specialize (H Htr). destruct (metrics r) as [m|] eqn:Hm.
  - destruct H as (_ & Htot & _ & _ & Hsh).
    exists e', r, m. split; [reflexivity|]. split; [exact Hm|].
    split; [exact Htot|]. apply Hsh. rewrite Hlen. lia.
  - rewrite H in Hlen. discriminate.
Defined.

(** The claim C8 as written fails for a run that records no equity point:
    with a loaded but empty price table the run completes, no trade is
    executed, and the result has no total_trades, win_rate, profit_factor
    or sharpe_ratio entry. *)
Lemma zero_trade_run_counterexample :
  exists e' r,
    BacktestEngine.run idle ticks (idle_engine ∅) None = inr (e', r)
    /\ res_trades r = []
    /\ metrics r = None.
Proof. eexists _, _. vm_compute. repeat split. Qed.

Lemma signal_routing_witness :
  exists e1 e2,
    BacktestEngine._process_signal ticks (idle_engine three_days) buy_signal = inr e1
    /\ Portfolio.cash (portfolio e1) == 89990
    /\ BacktestEngine._process_signal ticks e1 sell_signal = inr e2
    /\ Portfolio.positions (portfolio e2) !! "X"%string = None.
Proof.
  destruct (signal_routing ticks (idle_engine three_days) buy_signal)
    as (_ & Hbuy & _ & _).
  specialize (Hbuy eq_refl eq_refl 200%Z RiskManager.TradeApproved eq_refl eq_refl eq_refl).
  eexists.
  destruct (signal_routing ticks
              (set_portfolio
                 (Portfolio.update_position (portfolio (idle_engine three_days)) "X" 200
                    (50 * (1 + slippage (idle_engine three_days))) "BUY"
                    (commission (idle_engine three_days))
                    (now ticks (portfolio (idle_engine three_days))))
                 (idle_engine three_days))
              sell_signal) as (_ & _ & _ & Hsell).
  destruct (Hsell eq_refl (Portfolio.mkPosition "X" 200 (50 * (1 + (1 # 1000)))
                             (50 * (1 + (1 # 1000)))
                             (inject_Z 200 * (50 * (1 + (1 # 1000)))) 0)
              RiskManager.TradeApproved eq_refl eq_refl) as (e2 & Hrun & _ & Hgone).
  exists e2. split; [exact Hbuy|]. split; [reflexivity|].
  split; [exact Hrun | exact Hgone].
Defined.

End EngineFacts.

(** * More on the ledger *)

Module LedgerProps.
Import Portfolio LedgerSpec LedgerTerms.

Lemma buy_then_sell_ledger (p : t) (symbol buy sell : string) (q : Z)
    (pb cb ps cs : Q) (t1 t2 : Z) :
  upper buy = "BUY"%string -> upper sell = "SELL"%string ->
  positions p !! symbol = None ->
  let p1 := update_position p symbol q pb buy cb t1 in
  let p2 := update_position p1 symbol q ps sell cs t2 in
  positions p2 = positions p
  /\ cash p2 = cash p - (inject_Z q * pb + cb) + (inject_Z q * ps - cs)
  /\ trades p2 = trades p ++
       [new_trade symbol buy q pb t1 cb;
        set_pnl ((ps - pb) * inject_Z q - cs) (new_trade symbol sell q ps t2 cs)].
Proof.
  intros Hbuy Hsell Hnone p1 p2. subst p1 p2.
  unfold update_position. rewrite Hbuy, Hsell. cbn. rewrite Hnone. cbn.
  rewrite lookup_insert_eq. cbn. rewrite (proj2 (Z.geb_le q q)) by lia. cbn.
  rewrite delete_insert_eq, (delete_id _ _ Hnone).
  repeat split.
  rewrite PortfolioFacts.alter_appended. now rewrite <- app_assoc.
Qed.

(** X1: buying a quantity of a symbol that has no position and then selling
    the same quantity restores the positions, leaves cash at
    cash - (q*pb + cb) + (q*ps - cs), and logs the two trades, the second
    with the realized P&L (ps - pb)*q - cs. *)
Theorem buy_sell_round_trip (p : t) (symbol buy sell : string) (q : Z)
    (pb cb ps cs : Q) (t1 t2 : Z) :
  upper buy = "BUY"%string -> upper sell = "SELL"%string ->
  positions p !! symbol = None ->
  let p1 := update_position p symbol q pb buy cb t1 in
  let p2 := update_position p1 symbol q ps sell cs t2 in
  positions p2 = positions p
  /\ cash p2 = cash p - (inject_Z q * pb + cb) + (inject_Z q * ps - cs)
  /\ trades p2 = trades p ++
       [new_trade symbol buy q pb t1 cb;
        set_pnl ((ps - pb) * inject_Z q - cs) (new_trade symbol sell q ps t2 cs)].
Proof. exact (buy_then_sell_ledger p symbol buy sell q pb cb ps cs t1 t2). Qed.

Lemma buy_sell_round_trip_witness :
  let p2 := update_position (update_position (init 100000) "X" 100 50 "buy" 1 0)
              "X" 100 60 "sell" 1 1 in
  positions p2 = ∅ /\ cash p2 == 100998.
Proof.
  destruct (buy_sell_round_trip (init 100000) "X" "buy" "sell" 100 50 1 60 1 0 1
              eq_refl eq_refl eq_refl) as (Hpos & Hcash & _).
  split; [exact Hpos|]. rewrite Hcash. reflexivity.
Defined.

Lemma update_position_frame (p : t) (symbol side : string) (q : Z) (price commission : Q)
    (now : Z) :
  let p' := update_position p symbol q price side commission now in
  portfolio_value p' = portfolio_value p
  /\ peak_value p' = peak_value p
  /\ equity_curve p' = equity_curve p
  /\ initial_capital p' = initial_capital p
  /\ forall other, other <> symbol -> positions p' !! other = positions p !! other.
Proof.
  intros p'. subst p'. unfold update_position.
  destruct (String.eqb (upper side) "BUY");
    [|destruct (String.eqb (upper side) "SELL")];
    cbn; destruct (positions p !! symbol) as [pos|]; cbn;
    try destruct (q >=? pos_quantity pos)%Z; cbn;
    repeat split; intros other Hne;
    rewrite ?lookup_insert_ne, ?lookup_delete_ne by congruence; reflexivity.
Qed.

(** X2: a fill is local.  It never changes the portfolio value, the peak,
    the equity curve or the initial capital, and it leaves the position of
    every other symbol as it was. *)
Theorem fill_is_local (p : t) (symbol side : string) (q : Z) (price commission : Q)
    (now : Z) :
  let p' := update_position p symbol q price side commission now in
  portfolio_value p' = portfolio_value p
  /\ peak_value p' = peak_value p
  /\ equity_curve p' = equity_curve p
  /\ initial_capital p' = initial_capital p
  /\ forall other, other <> symbol -> positions p' !! other = positions p !! other.
Proof. exact (update_position_frame p symbol side q price commission now). Qed.

(** *** What a revaluation does *)

Lemma last_price_items (items : list (string * Q)) (symbol : string) :
  NoDup (fst <$> items) ->
  last_price items symbol = snd <$> List.find (fun it => bool_decide (fst it = symbol)) items.
Proof.
  induction items as [|[s price] rest IH]; intros Hnd; cbn; [reflexivity|].
  apply NoDup_cons in Hnd as [Hnotin Hnd]. rewrite (IH Hnd).
  destruct (List.find _ rest) as [[s' price']|] eqn:Hfind; cbn.
  - apply find_some in Hfind as [Hin Heq]. cbn in Heq.
    apply bool_decide_eq_true in Heq. subst s'.
    case_bool_decide as Hs; [|reflexivity]. cbn in Hs. subst s.
    exfalso. apply Hnotin. apply list_elem_of_fmap. exists (symbol, price').
    split; [reflexivity|]. now apply list_elem_of_In.
  - case_decide; case_bool_decide; cbn in *; congruence.
Qed.

Lemma last_price_map (prices : gmap string Q) (symbol : string) :
  last_price (map_to_list prices) symbol = prices !! symbol.
Proof.
  rewrite last_price_items by apply NoDup_fst_map_to_list.
  destruct (List.find _ _) as [[s price]|] eqn:Hfind; cbn.
  - apply find_some in Hfind as [Hin Heq]. cbn in Heq.
    apply bool_decide_eq_true in Heq. subst s.
    apply list_elem_of_In, elem_of_map_to_list in Hin. now rewrite Hin.
  - destruct (prices !! symbol) as [price|] eqn:Hl; [|reflexivity].
    apply elem_of_map_to_list, list_elem_of_In in Hl.
    apply (find_none _ _ Hfind) in Hl. cbn in Hl.
    now apply bool_decide_eq_false in Hl.
Qed.

(** X3: a revaluation re-prices exactly the positions whose symbol is in
    the price map: such a position gets the price as current price,
    quantity times price as market value and (price - average cost) times
    quantity as unrealized P&L, and keeps its symbol, quantity and average
    cost; every other position, the set of open symbols, cash and the
    trade log are unchanged. *)
Theorem revalue_positions (p : t) (prices : gmap string Q) (now : Z) :
  let p' := update_prices p prices now in
  (forall symbol pos price,
      positions p !! symbol = Some pos -> prices !! symbol = Some price ->
      exists pos',
        positions p' !! symbol = Some pos'
        /\ current_price pos' = price
        /\ market_value pos' = inject_Z (pos_quantity pos) * price
        /\ unrealized_pl pos' = (price - avg_price pos) * inject_Z (pos_quantity pos)
        /\ pos_symbol pos' = pos_symbol pos
        /\ pos_quantity pos' = pos_quantity pos
        /\ avg_price pos' = avg_price pos)
  /\ (forall symbol,
        prices !! symbol = None -> positions p' !! symbol = positions p !! symbol)
  /\ dom (positions p') = dom (positions p)
  /\ cash p' = cash p
  /\ trades p' = trades p.
Proof.
  intros p'. subst p'. unfold update_prices, _calculate_portfolio_value. cbn.
  assert (forall symbol,
             reprice (positions p) (map_to_list prices) !! symbol
             = revalued prices symbol <$> positions p !! symbol) as Hlook.
  { intros symbol. rewrite PortfolioFacts.reprice_lookup.
    unfold repriced, revalued. now rewrite last_price_map. }
  split; [|split; [|split; [|split; reflexivity]]].
  - intros symbol pos price Hpos Hprice. rewrite Hlook, Hpos. unfold revalued.
    rewrite Hprice. cbn. eexists. split; [reflexivity|]. now cbn.
  - intros symbol Hnone. rewrite Hlook. unfold revalued. rewrite Hnone.
    now destruct (positions p !! symbol).
  - apply set_eq. intros symbol. rewrite !elem_of_dom, Hlook.
    now rewrite fmap_is_Some.
Qed.

(** *** The logs *)

Lemma apply_op_logs (p : t) (o : op) :
  length (trades (apply_op p o))
    = (length (trades p) + if is_fill o then 1 else 0)%nat
  /\ length (equity_curve (apply_op p o))
    = (length (equity_curve p) + if is_fill o then 0 else 1)%nat.
Proof.
  destruct o as [symbol q price side commission now | prices now]; cbn.
  - rewrite EngineFacts.update_position_appends.
    destruct (update_position_frame p symbol side q price commission now) as (_ & _ & -> & _).
    lia.
  - rewrite length_app. cbn. lia.
Qed.

Lemma apply_ops_logs (ops : list op) (p : t) :
  length (trades (apply_ops p ops)) = (length (trades p) + count_fills ops)%nat
  /\ length (equity_curve (apply_ops p ops))
     = (length (equity_curve p) + count_revalues ops)%nat.
Proof.
  revert p. induction ops as [|o ops IH]; intros p.
  - unfold count_fills, count_revalues. cbn. lia.
  - change (apply_ops p (o :: ops)) with (apply_ops (apply_op p o) ops).
    destruct (IH (apply_op p o)) as [-> ->].
    destruct (apply_op_logs p o) as [-> ->].
    unfold count_fills, count_revalues. cbn.
    destruct (is_fill o); cbn; lia.
Qed.

Lemma apply_op_curve (capital : Q) (p : t) (o : op) :
  curve_consistent capital p -> curve_consistent capital (apply_op p o).
Proof.
  intros [Hsum Hlast]. unfold curve_consistent.
  destruct o as [symbol q price side commission now | prices now]; cbn.
  - destruct (update_position_frame p symbol side q price commission now)
      as (-> & _ & -> & _). now split.
  - split.
    + apply Forall_app. split; [exact Hsum|]. now repeat constructor.
    + unfold last_value. now rewrite last_snoc.
Qed.

Lemma apply_op_high_water (capital : Q) (p : t) (o : op) :
  peak_is_high_water capital p -> peak_is_high_water capital (apply_op p o).
Proof.
  intros (Hcap & Hall & Hatt). unfold peak_is_high_water.
  destruct o as [symbol q price side commission now | prices now].
  - cbn [apply_op].
    destruct (update_position_frame p symbol side q price commission now)
      as (_ & -> & -> & _). now repeat split.
  - cbn. match goal with |- context [Qgtb ?v ?k] => destruct (Qgtb v k) eqn:E end.
    + apply Qgtb_true in E. repeat split.
      * apply Qlt_le_weak. eapply Qle_lt_trans; [exact Hcap | exact E].
      * apply Forall_app. split.
        -- eapply Forall_impl; [exact Hall|]. cbn. intros pt Hpt.
           apply Qlt_le_weak. eapply Qle_lt_trans; [exact Hpt | exact E].
        -- repeat constructor. cbn. apply Qle_refl.
      * right. eexists. split; [apply in_or_app; right; now left | reflexivity].
    + apply Qgtb_false in E. repeat split; [exact Hcap | |].
      * apply Forall_app. split; [exact Hall|]. now repeat constructor.
      * destruct Hatt as [Heq | (pt & Hin & Heq)]; [now left | right].
        exists pt. split; [apply in_or_app; now left | exact Heq].
Qed.

Lemma apply_ops_consistent (capital : Q) (ops : list op) (p : t) :
  curve_consistent capital p /\ peak_is_high_water capital p ->
  curve_consistent capital (apply_ops p ops)
  /\ peak_is_high_water capital (apply_ops p ops).
Proof.
  revert p. induction ops as [|o ops IH]; intros p [Hc Hp]; [now split|].
  apply (IH (apply_op p o)).
  split; [now apply apply_op_curve | now apply apply_op_high_water].
Qed.

(** X4: after any sequence of fills and revaluations from construction the
    trade log has one entry per fill and the equity curve one point per
    revaluation; every point satisfies value = cash + positions_value; the
    portfolio value is the value of the last point (the initial capital
    before the first); and the peak is the high-water mark: at least the
    initial capital and every recorded value, and equal to one of them. *)
Theorem ledger_logs (capital : Q) (ops : list op) :
  let p := apply_ops (init capital) ops in
  length (trades p) = count_fills ops
  /\ length (equity_curve p) = count_revalues ops
  /\ curve_consistent capital p
  /\ peak_is_high_water capital p.
Proof.
  intros p. subst p.
  destruct (apply_ops_logs ops (init capital)) as [Ht Hc]. cbn in Ht, Hc.
  split; [exact Ht|]. split; [exact Hc|].
  apply apply_ops_consistent.
  split; [split; [constructor | reflexivity]|].
  split; [apply Qle_refl|]. split; [constructor | now left].
Qed.

(** *** Re-averaging *)

Lemma inject_Z_pos (z : Z) : (0 < z)%Z -> 0 < inject_Z z.
Proof. intros H. unfold Qlt. cbn. lia. Qed.

(** X5: a BUY of a positive quantity on a position of positive quantity
    conserves the cost, new_avg * (oq + q) == oq * oa + q * p, and puts the
    new average cost between the old average cost and the fill price. *)
Theorem reaveraging_is_weighted (p : t) (symbol side : string) (q : Z)
    (price commission : Q) (now : Z) (pos : Position) :
  upper side = "BUY"%string ->
  positions p !! symbol = Some pos ->
  (0 < pos_quantity pos)%Z -> (0 < q)%Z ->
  exists pos',
    positions (update_position p symbol q price side commission now) !! symbol
      = Some pos'
    /\ avg_price pos' * inject_Z (pos_quantity pos + q)
       == inject_Z (pos_quantity pos) * avg_price pos + inject_Z q * price
    /\ (avg_price pos <= price -> avg_price pos <= avg_price pos' <= price)
    /\ (price <= avg_price pos -> price <= avg_price pos' <= avg_price pos).
Proof.
  intros Hside Hpos Hoq Hq. unfold update_position. rewrite Hside. cbn.
  rewrite Hpos. cbn. rewrite lookup_insert_eq. eexists. split; [reflexivity|].
  cbn. rewrite (proj2 (Z.gtb_lt _ _)) by lia.
  pose proof (inject_Z_pos _ Hoq) as Hoq'. pose proof (inject_Z_pos _ Hq) as Hq'.
  rewrite inject_Z_plus.
  set (a := inject_Z (pos_quantity pos)) in *. set (b := inject_Z q) in *.
  set (oa := avg_price pos). assert (0 < a + b) as Hab by lra.
  split; [field; lra|]. split; intros Hle; split.
  - apply Qle_shift_div_l; [exact Hab | nra].
  - apply Qle_shift_div_r; [exact Hab | nra].
  - apply Qle_shift_div_l; [exact Hab | nra].
  - apply Qle_shift_div_r; [exact Hab | nra].
Qed.

Lemma reaveraging_is_weighted_witness :
  exists pos',
    positions (update_position one_position "X" 30 9 "BUY" 0 1) !! "X"%string
      = Some pos'
    /\ 5 <= avg_price pos' <= 9.
Proof.
  destruct (reaveraging_is_weighted one_position "X" "BUY" 30 9 0 1
              (new_position "X" 10 5) eq_refl eq_refl eq_refl eq_refl)
    as (pos' & Hl & _ & Hup & _).
  exists pos'. split; [exact Hl|]. apply Hup. cbn. unfold Qle. cbn. lia.
Defined.

End LedgerProps.

(** * More on the risk gate *)

Module RiskProps.
Import RiskManager.

(** X6: on a ledger whose portfolio value is not zero, a BUY is approved
    exactly when the order value quantity * price is at most the cash, its
    share of the portfolio value is at most max_position_size and the
    drawdown is at most max_drawdown; an approved BUY filled at the checked
    price without commission leaves cash non-negative.  On a ledger whose
    portfolio value is zero an order that cash covers raises
    ZeroDivisionError. *)
Theorem buy_admission (rm : t) (p : Portfolio.t) (symbol side : string)
    (q : Z) (price : Q) :
  upper side = "BUY"%string ->
  let order_value := inject_Z q * price in
  (~ Portfolio.portfolio_value p == 0 ->
     (check_trade rm p symbol q price side = inr (true, TradeApproved)
        <-> order_value <= Portfolio.cash p
            /\ order_value / Portfolio.portfolio_value p <= max_position_size rm
            /\ Portfolio.get_drawdown p <= max_drawdown rm)
     /\ (forall r now, check_trade rm p symbol q price side = inr (true, r) ->
           r = TradeApproved
           /\ 0 <= Portfolio.cash
                     (Portfolio.update_position p symbol q price side 0 now)))
  /\ (Portfolio.portfolio_value p == 0 -> order_value <= Portfolio.cash p ->
      check_trade rm p symbol q price side = inl ZeroDivisionError).
Proof.
  intros Hside order_value. subst order_value.
  unfold check_trade, _check_buy_order, py_div. rewrite Hside. cbn.
  split.
  - intros Hv. apply Qeq_bool_false in Hv. rewrite Hv. cbn.
    destruct (Qgtb (inject_Z q * price) (Portfolio.cash p)) eqn:Hcash.
    { apply Qgtb_true in Hcash. split.
      - split; [discriminate|]. intros (H & _). lra.
      - intros r now H. discriminate. }
    apply Qgtb_false in Hcash.
    destruct (Qgtb _ (max_position_size rm)) eqn:Hsize.
    { apply Qgtb_true in Hsize. split.
      - split; [discriminate|]. intros (_ & H & _). lra.
      - intros r now H. discriminate. }
    apply Qgtb_false in Hsize.
    destruct (Qgtb _ (max_drawdown rm)) eqn:Hdd.
    { apply Qgtb_true in Hdd. split.
      - split; [discriminate|]. intros (_ & _ & H). lra.
      - intros r now H. discriminate. }
    apply Qgtb_false in Hdd. split; [tauto|].
    intros r now H. inversion H; subst. split; [reflexivity|].
    unfold Portfolio.update_position. rewrite Hside. cbn.
    destruct (Portfolio.positions p !! symbol); cbn; lra.
  - intros Hv Hcash. apply Qeq_bool_iff in Hv. rewrite Hv.
    now rewrite (proj2 (Qgtb_false _ _) Hcash).
Qed.

Lemma buy_admission_witness :
  check_trade (init (Some (10 # 100)) (Some (20 # 100)) (2 # 100))
    (Portfolio.init 100000) "TEST" 100 50 "BUY" = inr (true, TradeApproved).
Proof.
  destruct (buy_admission (init (Some (10 # 100)) (Some (20 # 100)) (2 # 100))
              (Portfolio.init 100000) "TEST" "BUY" 100 50 eq_refl) as [H _].
  destruct H as [H _]; [vm_compute; discriminate|].
  apply H. vm_compute. repeat split; discriminate.
Defined.

(** X7: a SELL check never raises; it approves exactly when the symbol has
    a position holding at least the quantity.  After the fill of an
    approved SELL the position is gone when all of it was sold and
    otherwise holds the positive remainder. *)
Theorem sell_admission (rm : t) (p : Portfolio.t) (symbol side : string)
    (q : Z) (price commission : Q) (now : Z) :
  upper side = "SELL"%string ->
  exists verdict,
    check_trade rm p symbol q price side = inr verdict
    /\ (fst verdict = true
        <-> exists pos, Portfolio.positions p !! symbol = Some pos
                        /\ (q <= Portfolio.pos_quantity pos)%Z)
    /\ (fst verdict = true ->
        match Portfolio.positions
                (Portfolio.update_position p symbol q price side commission now)
                !! symbol with
        | None => exists pos, Portfolio.positions p !! symbol = Some pos
                              /\ q = Portfolio.pos_quantity pos
        | Some pos' => (0 < Portfolio.pos_quantity pos')%Z
        end).
Proof.
  intros Hside. unfold check_trade, _check_sell_order, Portfolio.get_position.
  rewrite Hside. cbn. eexists. split; [reflexivity|].
  unfold Portfolio.update_position. rewrite Hside. cbn.
  destruct (Portfolio.positions p !! symbol) as [pos|] eqn:Hpos; cbn.
  - destruct (Z.gtb_spec q (Portfolio.pos_quantity pos)) as [Hgt|Hle]; cbn.
    + split; [|discriminate]. split; [discriminate|].
      intros (pos0 & Heq & Hq). inversion Heq; subst. lia.
    + split; [split; [intros _; now exists pos | reflexivity]|]. intros _.
      destruct (Z.geb_spec q (Portfolio.pos_quantity pos)) as [Hge|Hlt]; cbn.
      * rewrite lookup_delete_eq. exists pos. split; [reflexivity | lia].
      * rewrite lookup_insert_eq. cbn. lia.
  - split; [|discriminate]. split; [discriminate|]. intros (pos & Heq & _).
    discriminate.
Qed.

Lemma sell_admission_witness :
  exists verdict,
    check_trade (init None None (2 # 100)) LedgerSpec.one_position "X" 4 7 "SELL"
      = inr verdict
    /\ fst verdict = true.
Proof.
  destruct (sell_admission (init None None (2 # 100)) LedgerSpec.one_position
              "X" "SELL" 4 7 0 1 eq_refl) as (verdict & Hrun & Hiff & _).
  exists verdict. split; [exact Hrun|]. apply Hiff.
  eexists. split; [reflexivity|]. cbn. lia.
Defined.

End RiskProps.

(** * More on the metrics *)

Module MetricsProps.
Import PerformanceMetrics MetricsSpec MetricsTerms.

Lemma py_max_lt (a b c : Q) : a < c -> b < c -> py_max a b < c.
Proof. intros Ha Hb. unfold py_max. now destruct (Qgtb b a). Qed.

Lemma dd_loop_bounds (values : list Q) (st : dd_state) (n : nat) :
  0 < peak st -> 0 <= max_dd st < 1 ->
  (current_dd_duration st <= n)%nat -> (max_dd_duration st <= n)%nat ->
  Forall (fun v => 0 < v) values ->
  exists st',
    dd_loop st values = inr st'
    /\ 0 <= max_dd st' < 1
    /\ (max_dd_duration st <= max_dd_duration st' <= n + length values)%nat.
Proof.
  revert st n. induction values as [|v rest IH]; intros st n Hpk Hdd Hcur Hbest Hall.
  - exists st. split; [reflexivity|]. split; [exact Hdd | cbn; lia].
  - inversion Hall as [|? ? Hv Hrest]; subst. cbn [dd_loop]. unfold dd_step.
    destruct (Qgtb v (peak st)) eqn:Hgt; cbn [raise_bind].
    + destruct (IH (mkDD v (max_dd st) (max_dd_duration st) 0) (S n))
        as (st' & Hrun & Hb & Hd); cbn; auto with lia.
      exists st'. split; [exact Hrun|]. split; [exact Hb|]. cbn in Hd. cbn. lia.
    + apply Qgtb_false in Hgt. unfold py_div.
      assert (Qeq_bool (peak st) 0 = false) as ->. { apply Qeq_bool_false. lra. }
      cbn [raise_bind].
      assert (0 <= (peak st - v) / peak st < 1) as Hd0.
      { split.
        - apply Qle_shift_div_l; [exact Hpk | lra].
        - apply Qlt_shift_div_r; [exact Hpk | lra]. }
      destruct (IH (mkDD (peak st) (py_max (max_dd st) ((peak st - v) / peak st))
                      (Nat.max (max_dd_duration st) (S (current_dd_duration st)))
                      (S (current_dd_duration st))) (S n))
        as (st' & Hrun & Hb & Hd); cbn; auto with lia.
      { split.
        - eapply Qle_trans; [apply (proj1 Hdd) | apply MetricsFacts.py_max_ge_l].
        - apply py_max_lt; [apply Hdd | apply Hd0]. }
      exists st'. split; [exact Hrun|]. split; [exact Hb|]. cbn in Hd. cbn. lia.
Qed.

Lemma max_drawdown_positive (equity_curve : list Portfolio.EquityPoint) :
  equity_curve <> [] ->
  Forall (fun pt => 0 < Portfolio.ep_value pt) equity_curve ->
  exists dd duration,
    max_drawdown equity_curve = inr (dd, duration)
    /\ 0 <= dd < 1
    /\ (1 <= duration <= length equity_curve)%nat.
Proof.
  intros Hne Hall. destruct equity_curve as [|first rest]; [congruence|].
  inversion Hall as [|? ? Hfirst Hrest]; subst.
  unfold max_drawdown. cbn [values_of List.map dd_loop]. unfold dd_step.
  assert (Qgtb (Portfolio.ep_value first) (Portfolio.ep_value first) = false) as Hself.
  { apply Qgtb_false. apply Qle_refl. }
  cbn [peak]. rewrite Hself. unfold py_div.
  assert (Qeq_bool (Portfolio.ep_value first) 0 = false) as ->.
  { apply Qeq_bool_false. lra. }
  cbn [raise_bind peak max_dd max_dd_duration current_dd_duration].
  set (d0 := (Portfolio.ep_value first - Portfolio.ep_value first)
             / Portfolio.ep_value first).
  assert (d0 == 0) as Hd0. { unfold d0, Qdiv. ring. }
  lazymatch goal with
  | |- context [dd_loop ?s ?l] =>
      destruct (dd_loop_bounds l s 1) as (st' & Hrun & Hb & Hd); cbn; auto with lia
  end.
  - rewrite (MetricsFacts.py_max_zero 0 d0 (Qle_refl 0) Hd0). lra.
  - now apply Forall_map.
  - cbn in Hrun |- *. rewrite Hrun. cbn. exists (max_dd st'), (max_dd_duration st').
    split; [reflexivity|]. split; [exact Hb|]. cbn in Hd.
    rewrite length_map in Hd. lia.
Qed.

(** X10: on a non-empty equity curve whose values are all positive,
    [max_drawdown] returns; the drawdown is at least 0 and below 1, and the
    duration is at least 1 (the first point always counts) and at most the
    number of points. *)
Theorem positive_curve_drawdown (equity_curve : list Portfolio.EquityPoint) :
  equity_curve <> [] ->
  Forall (fun pt => 0 < Portfolio.ep_value pt) equity_curve ->
  exists dd duration,
    max_drawdown equity_curve = inr (dd, duration)
    /\ 0 <= dd < 1
    /\ (1 <= duration <= length equity_curve)%nat.
Proof. exact (max_drawdown_positive equity_curve). Qed.

Lemma positive_curve_drawdown_witness :
  exists dd duration,
    max_drawdown (curve_of [100; 120; 90]) = inr (dd, duration)
    /\ 0 <= dd < 1.
Proof.
  destruct (positive_curve_drawdown (curve_of [100; 120; 90]))
    as (dd & duration & Hrun & Hb & _).
  - discriminate.
  - repeat constructor.
  - exists dd, duration. split; [exact Hrun | exact Hb].
Defined.

(** *** Curves that only rise, or never rise *)

Lemma dd_loop_rising (values : list Q) (st : dd_state) :
  rising (peak st :: values) ->
  exists st',
    dd_loop st values = inr st'
    /\ max_dd st' = max_dd st
    /\ max_dd_duration st' = max_dd_duration st.
Proof.
  revert st. induction values as [|v rest IH]; intros st Hs.
  - now exists st.
  - apply Sorted_inv in Hs as [Hs Hhd]. apply HdRel_inv in Hhd.
    cbn [dd_loop]. unfold dd_step.
    rewrite (proj2 (Qgtb_true _ _) Hhd). cbn [raise_bind].
    destruct (IH (mkDD v (max_dd st) (max_dd_duration st) 0) Hs)
      as (st' & Hrun & Hd & Hn).
    exists st'. now repeat split.
Qed.

(** X11: on a curve that starts at a non-zero value and rises at every
    step, the reported drawdown is 0 and the reported duration is 1, not 0:
    the first point is counted although nothing ever fell. *)
Theorem rising_curve_drawdown (first : Portfolio.EquityPoint)
    (rest : list Portfolio.EquityPoint) :
  ~ Portfolio.ep_value first == 0 ->
  rising (values_of (first :: rest)) ->
  max_drawdown (first :: rest) = inr (0, 1%nat).
Proof.
  intros Hnz Hrise. unfold max_drawdown. cbn [values_of List.map dd_loop].
  unfold dd_step. cbn [peak].
  assert (Qgtb (Portfolio.ep_value first) (Portfolio.ep_value first) = false) as ->.
  { apply Qgtb_false. apply Qle_refl. }
  unfold py_div. rewrite (proj2 (Qeq_bool_false _ _) Hnz).
  cbn [raise_bind peak max_dd max_dd_duration current_dd_duration].
  lazymatch goal with
  | |- context [dd_loop ?s ?l] =>
      destruct (dd_loop_rising l s) as (st' & Hrun & Hd & Hn); [exact Hrise|]
  end.
  rewrite Hrun. cbn [raise_bind]. rewrite Hd, Hn. cbn [max_dd max_dd_duration].
  rewrite MetricsFacts.py_max_zero; [reflexivity | apply Qle_refl |].
  unfold Qdiv. ring.
Qed.

Lemma rising_curve_drawdown_witness :
  max_drawdown (curve_of [100; 110; 125]) = inr (0, 1%nat).
Proof.
  apply (rising_curve_drawdown (Portfolio.mkEquityPoint 0 100 100 0)
           (curve_of [110; 125])).
  - discriminate.
  - repeat constructor.
Defined.

Lemma py_max_of_larger (a b : Q) : a <= b -> py_max a b == b.
Proof.
  intros Hab. unfold py_max. destruct (Qgtb b a) eqn:E; [reflexivity|].
  apply Qgtb_false in E. lra.
Qed.

Lemma last_cons_default {A : Type} (l : list A) (a d : A) :
  List.last (a :: l) d = List.last l a.
Proof.
  revert a d. induction l as [|b l IH]; intros a d; [reflexivity|].
  change (List.last (a :: b :: l) d) with (List.last (b :: l) d).
  now rewrite (IH b d), (IH b a).
Qed.

Lemma dd_loop_falling (values : list Q) (st : dd_state) (prev : Q) :
  0 < peak st -> prev <= peak st ->
  max_dd st == (peak st - prev) / peak st ->
  max_dd_duration st = current_dd_duration st ->
  falling (prev :: values) ->
  exists st',
    dd_loop st values = inr st'
    /\ max_dd st' == (peak st - List.last values prev) / peak st
    /\ max_dd_duration st' = (max_dd_duration st + length values)%nat.
Proof.
  revert st prev. induction values as [|v rest IH]; intros st prev Hpk Hprev Hdd Hcur Hs.
  - exists st. split; [reflexivity|]. split; [exact Hdd | cbn; lia].
  - apply Sorted_inv in Hs as [Hs Hhd]. apply HdRel_inv in Hhd.
    cbn [dd_loop]. unfold dd_step.
    assert (Qgtb v (peak st) = false) as ->. { apply Qgtb_false. lra. }
    unfold py_div.
    assert (Qeq_bool (peak st) 0 = false) as ->. { apply Qeq_bool_false. lra. }
    cbn [raise_bind].
    destruct (IH (mkDD (peak st) (py_max (max_dd st) ((peak st - v) / peak st))
                    (Nat.max (max_dd_duration st) (S (current_dd_duration st)))
                    (S (current_dd_duration st))) v)
      as (st' & Hrun & Hd & Hn); cbn [peak max_dd max_dd_duration current_dd_duration];
      auto; try lra; try lia.
    + apply py_max_of_larger. rewrite Hdd.
      apply Qle_shift_div_l; [exact Hpk|].
      setoid_replace ((peak st - prev) / peak st * peak st) with (peak st - prev)
        using relation Qeq by (field; lra).
      lra.
    + exists st'. split; [exact Hrun|].
      cbn [peak max_dd_duration] in Hd, Hn. split.
      * rewrite Hd, last_cons_default. reflexivity.
      * rewrite Hn. cbn [length]. lia.
Qed.

(** X12: on a curve that starts at a positive value and never rises, every
    point counts towards the duration, which is the number of points, and
    the reported drawdown is the fall from the first value to the last,
    (first - last) / first. *)
Theorem falling_curve_drawdown (first : Portfolio.EquityPoint)
    (rest : list Portfolio.EquityPoint) :
  0 < Portfolio.ep_value first ->
  falling (values_of (first :: rest)) ->
  exists dd,
    max_drawdown (first :: rest) = inr (dd, length (first :: rest))
    /\ dd == (Portfolio.ep_value first
              - List.last (values_of rest) (Portfolio.ep_value first))
             / Portfolio.ep_value first.
Proof.
  intros Hpos Hfall. unfold max_drawdown. cbn [values_of List.map dd_loop].
  unfold dd_step. cbn [peak].
  assert (Qgtb (Portfolio.ep_value first) (Portfolio.ep_value first) = false) as ->.
  { apply Qgtb_false. apply Qle_refl. }
  unfold py_div.
  assert (Qeq_bool (Portfolio.ep_value first) 0 = false) as ->.
  { apply Qeq_bool_false. lra. }
  cbn [raise_bind peak max_dd max_dd_duration current_dd_duration].
  lazymatch goal with
  | |- context [dd_loop ?s ?l] =>
      destruct (dd_loop_falling l s (Portfolio.ep_value first))
        as (st' & Hrun & Hd & Hn)
  end; cbn [peak max_dd max_dd_duration current_dd_duration].
  - exact Hpos.
  - apply Qle_refl.
  - apply py_max_of_larger. apply Qle_shift_div_l; [exact Hpos | lra].
  - reflexivity.
  - exact Hfall.
  - rewrite Hrun. cbn [raise_bind]. exists (max_dd st').
    cbn [peak max_dd_duration] in Hd, Hn. rewrite Hn, length_map.
    split; [reflexivity | exact Hd].
Qed.

Lemma falling_curve_drawdown_witness :
  exists dd, max_drawdown (curve_of [100; 90; 90; 75]) = inr (dd, 4%nat)
             /\ dd == 25 # 100.
Proof.
  destruct (falling_curve_drawdown (Portfolio.mkEquityPoint 0 100 100 0)
              (curve_of [90; 90; 75])) as (dd & Hrun & Hdd).
  - reflexivity.
  - repeat constructor; discriminate.
  - exists dd. split; [exact Hrun|]. rewrite Hdd. reflexivity.
Defined.

(** *** The result record *)

Lemma fold_Qplus_signed (l : list Q) (a : Q) :
  (Forall (fun x => 0 < x) l -> a <= fold_left Qplus l a
                                /\ (l <> [] -> a < fold_left Qplus l a))
  /\ (Forall (fun x => x < 0) l -> fold_left Qplus l a <= a
                                   /\ (l <> [] -> fold_left Qplus l a < a)).
Proof.
  revert a. induction l as [|x l IH]; intros a.
  - split; intros _; (split; [apply Qle_refl | congruence]).
  - cbn [fold_left]. destruct (IH (a + x)) as [IHp IHn].
    split; intros Hall; inversion Hall as [|? ? Hx Hl]; subst.
    + destruct (IHp Hl) as [Hle _]. split; [lra | intros _; lra].
    + destruct (IHn Hl) as [Hle _]. split; [lra | intros _; lra].
Qed.

Lemma length_Q_pos {A : Type} (l : list A) : l <> [] -> 0 < length_Q l.
Proof.
  intros Hne. unfold length_Q. destruct l; [congruence|].
  unfold Qlt. cbn. lia.
Qed.

Lemma length_Q_le {A B : Type} (l : list A) (k : list B) :
  (length l <= length k)%nat -> length_Q l <= length_Q k.
Proof. intros H. unfold length_Q. rewrite <- Zle_Qle. lia. Qed.

Lemma filter_length_le {A : Type} (f : A -> bool) (l : list A) :
  (length (List.filter f l) <= length l)%nat.
Proof. induction l as [|x l IH]; cbn; [lia|]. destruct (f x); cbn; lia. Qed.

Lemma exclusive_filters {A : Type} (f g : A -> bool) (l : list A) :
  (forall x, f x = true -> g x = false) ->
  (length (List.filter f l) + length (List.filter g l) <= length l)%nat.
Proof.
  intros Hex. induction l as [|x l IH]; cbn; [lia|].
  destruct (f x) eqn:Hf; [rewrite (Hex x Hf)|destruct (g x)]; cbn; lia.
Qed.

Lemma filter_Forall_pnl (f : Q -> bool) (P : Q -> Prop) (l : list Portfolio.Trade) :
  (forall x, f x = true -> P x) ->
  Forall P (pnls (List.filter (fun t => f (Portfolio.pnl t)) l)).
Proof.
  intros Hf. unfold pnls. induction l as [|t l IH]; cbn; [constructor|].
  destruct (f (Portfolio.pnl t)) eqn:E; cbn; [constructor; auto | exact IH].
Qed.

(** The ratio of gross profit to gross loss is defined and non-negative. *)
Lemma profit_factor_defined (winning losing : list Q) :
  Forall (fun x => x < 0) losing -> losing <> [] ->
  exists pf, py_div (Qabs (Qsum winning)) (Qabs (Qsum losing)) = inr pf /\ 0 <= pf.
Proof.
  intros Hneg Hne. unfold py_div.
  destruct (proj2 (fold_Qplus_signed losing 0) Hneg) as [_ Hlt].
  specialize (Hlt Hne). fold (Qsum losing) in Hlt.
  assert (0 < Qabs (Qsum losing)) as Hpos.
  { rewrite Qabs_neg by lra. lra. }
  assert (Qeq_bool (Qabs (Qsum losing)) 0 = false) as ->.
  { apply Qeq_bool_false. lra. }
  eexists. split; [reflexivity|].
  apply Qle_shift_div_l; [exact Hpos|]. rewrite Qmult_0_l. apply Qabs_nonneg.
Qed.

Lemma mean_signed (l : list Q) :
  l <> [] ->
  (Forall (fun x => 0 < x) l -> 0 < mean l)
  /\ (Forall (fun x => x < 0) l -> mean l < 0).
Proof.
  intros Hne. unfold mean. pose proof (length_Q_pos l Hne) as Hlen.
  destruct (fold_Qplus_signed l 0) as [Hp Hn]. fold (Qsum l) in Hp, Hn.
  split; intros Hall.
  - destruct (Hp Hall) as [_ H]. specialize (H Hne).
    apply Qlt_shift_div_l; [exact Hlen | lra].
  - destruct (Hn Hall) as [_ H]. specialize (H Hne).
    apply Qlt_shift_div_r; [exact Hlen | lra].
Qed.

(** What the modelled entries of [calculate_all_metrics] come to. *)
Lemma metrics_model_outcome (equity_curve : list Portfolio.EquityPoint)
    (trades : list Portfolio.Trade) (initial_capital rf : Q) :
  (equity_curve = [] ->
     calculate_all_metrics equity_curve trades initial_capital rf = inr None)
  /\ (equity_curve <> [] -> initial_capital == 0 ->
      calculate_all_metrics equity_curve trades initial_capital rf
        = inl ZeroDivisionError)
  /\ (forall final,
        last equity_curve = Some final -> ~ initial_capital == 0 ->
        Forall (fun pt => 0 < Portfolio.ep_value pt) equity_curve ->
        exists m,
          calculate_all_metrics equity_curve trades initial_capital rf = inr (Some m)
          /\ total_return m = (Portfolio.ep_value final - initial_capital) / initial_capital
          /\ trading_days m = length equity_curve
          /\ total_trades m = length trades
          /\ (winning_trades m + losing_trades m <= total_trades m)%nat
          /\ 0 <= win_rate m <= 1
          /\ 0 <= profit_factor m
          /\ 0 <= avg_win m
          /\ avg_loss m <= 0
          /\ 0 <= max_drawdown_value m < 1).
Proof.
  unfold calculate_all_metrics. split; [intros ->; reflexivity|]. split.
  - intros Hne Hz. destruct (last equity_curve) as [final|] eqn:Hlast.
    + unfold py_div. now rewrite (Qeq_eq_bool _ _ Hz).
    + apply last_None in Hlast. congruence.
  - intros final Hlast Hnz Hpos. rewrite Hlast. unfold py_div at 1.
    rewrite (proj2 (Qeq_bool_false _ _) Hnz). cbn [raise_bind].
    destruct (max_drawdown_positive equity_curve) as (dd & dur & Hdd & Hb & _);
      [intros ->; discriminate | exact Hpos |].
    rewrite Hdd. cbn [raise_bind fst snd].
    set (winning := List.filter (fun t => Qgtb (Portfolio.pnl t) 0) trades).
    set (losing := List.filter (fun t => Qltb (Portfolio.pnl t) 0) trades).
    assert (Forall (fun x => 0 < x) (pnls winning)) as Hwin.
    { apply (filter_Forall_pnl (fun x => Qgtb x 0)). intros x. apply Qgtb_true. }
    assert (Forall (fun x => x < 0) (pnls losing)) as Hlose.
    { apply (filter_Forall_pnl (fun x => Qltb x 0)). intros x. apply Qltb_true. }
    assert (exists pf,
               match losing with
               | [] => inr 0
               | _ :: _ => py_div (Qabs (Qsum (pnls winning))) (Qabs (Qsum (pnls losing)))
               end = inr pf /\ 0 <= pf) as (pf & Hpf & Hpf0).
    { destruct losing as [|l0 ls] eqn:El.
      - exists 0. split; [reflexivity | apply Qle_refl].
      - apply profit_factor_defined; [exact Hlose | discriminate]. }
    rewrite Hpf. cbn [raise_bind]. eexists. split; [reflexivity|].
    cbn. repeat split; try lra; try apply Hb.
    + apply (exclusive_filters (fun t => Qgtb (Portfolio.pnl t) 0)
               (fun t => Qltb (Portfolio.pnl t) 0)).
      intros t Ht. apply Qgtb_true in Ht. apply Qltb_false. lra.
    + destruct trades as [|t0 ts] eqn:Et; [apply Qle_refl|].
      apply Qle_shift_div_l; [apply length_Q_pos; discriminate|].
      rewrite Qmult_0_l. unfold length_Q. change 0 with (inject_Z 0).
      rewrite <- Zle_Qle. lia.
    + destruct trades as [|t0 ts] eqn:Et; [lra|].
      apply Qle_shift_div_r; [apply length_Q_pos; discriminate|].
      rewrite Qmult_1_l. apply length_Q_le. subst winning. apply filter_length_le.
    + destruct winning as [|w0 ws] eqn:Ew; [apply Qle_refl|].
      apply Qlt_le_weak. apply mean_signed; [discriminate | exact Hwin].
    + destruct losing as [|l0 ls] eqn:El; [apply Qle_refl|].
      apply Qlt_le_weak. apply mean_signed; [discriminate | exact Hlose].
Qed.

(** X13: [calculate_all_metrics] returns the empty dictionary on an empty
    curve and raises ZeroDivisionError on a non-empty curve with zero
    initial capital.  Whenever it returns a record on a curve of positive
    values, total_return is (final - initial) / initial, trading_days is
    the number of points, total_trades the number of trades, winning and
    losing trades together are at most all trades, win_rate lies in
    [0, 1], profit_factor is at least 0, avg_win at least 0 and avg_loss
    at most 0, and the maximum drawdown lies in [0, 1).  (The entries
    computed with roots, powers and percentiles are not modelled, and the
    power in [calmar_ratio] can overflow: that the call returns is a
    condition here.) *)
Theorem metrics_outcome (equity_curve : list Portfolio.EquityPoint)
    (trades : list Portfolio.Trade) (initial_capital rf : Q) :
  (equity_curve = [] ->
     calculate_all_metrics equity_curve trades initial_capital rf = inr None)
  /\ (equity_curve <> [] -> initial_capital == 0 ->
      calculate_all_metrics equity_curve trades initial_capital rf
        = inl ZeroDivisionError)
  /\ (forall m,
        calculate_all_metrics equity_curve trades initial_capital rf = inr (Some m) ->
        Forall (fun pt => 0 < Portfolio.ep_value pt) equity_curve ->
        (exists final,
            last equity_curve = Some final
            /\ total_return m
               = (Portfolio.ep_value final - initial_capital) / initial_capital)
        /\ trading_days m = length equity_curve
        /\ total_trades m = length trades
        /\ (winning_trades m + losing_trades m <= total_trades m)%nat
        /\ 0 <= win_rate m <= 1
        /\ 0 <= profit_factor m
        /\ 0 <= avg_win m
        /\ avg_loss m <= 0
        /\ 0 <= max_drawdown_value m < 1).
Proof.
  destruct (metrics_model_outcome equity_curve trades initial_capital rf)
    as (Hempty & Hzero & Hfields).
  split; [exact Hempty|]. split; [exact Hzero|].
  intros m Hrun Hpos.
  destruct (last equity_curve) as [final|] eqn:Hlast.
  - destruct (Qeq_dec initial_capital 0) as [Hc|Hc].
    + rewrite Hzero in Hrun; [discriminate| |exact Hc].
      intros ->. discriminate.
    + destruct (Hfields final eq_refl Hc Hpos) as (m' & Hrun' & H).
      rewrite Hrun in Hrun'. injection Hrun' as <-.
      destruct H as (Htr & H). split; [|exact H]. exists final. now split.
  - apply last_None in Hlast. rewrite (Hempty Hlast) in Hrun. discriminate.
Qed.

Lemma metrics_outcome_witness :
  exists m,
    calculate_all_metrics (curve_of [100; 120; 90]) [] 100 (2 # 100) = inr (Some m)
    /\ total_return m == - (1 # 10).
Proof.
  eexists. split; [reflexivity|].
  destruct (metrics_outcome (curve_of [100; 120; 90]) [] 100 (2 # 100)) as (_ & _ & H).
  destruct (H _ eq_refl) as ((final & [= <-] & ->) & _).
  - repeat constructor.
  - reflexivity.
Defined.

(** X14: the Sharpe ratio of a curve of exactly two points whose first
    value is not zero is NaN, whatever the values: the deviation of a
    single return is NaN and the test [returns.std() == 0] fails. *)
Theorem two_point_curve_sharpe (a b : Portfolio.EquityPoint) (rf : Q) (ppy : Z) :
  ~ Portfolio.ep_value a == 0 ->
  sharpe_ratio (calculate_returns [a; b]) rf ppy = NotANumber.
Proof.
  intros Hnz. unfold calculate_returns, values_of, pct_change. cbn [List.map pct_change_from].
  unfold pct. rewrite (proj2 (Qeq_bool_false _ _) Hnz). reflexivity.
Qed.

Lemma two_point_curve_sharpe_witness :
  sharpe_ratio (calculate_returns (curve_of [100; 105])) (2 # 100) 252 = NotANumber.
Proof.
  apply (two_point_curve_sharpe (Portfolio.mkEquityPoint 0 100 100 0)
           (Portfolio.mkEquityPoint 1 105 105 0)).
  discriminate.
Defined.

End MetricsProps.

(** * The summary of the ledger *)

Module SummaryProps.
Import Portfolio.

Lemma sum_pnl_Qsum (l : list Trade) :
  sum_pnl l = PerformanceMetrics.Qsum (PerformanceMetrics.pnls l).
Proof.
  unfold sum_pnl, PerformanceMetrics.Qsum, PerformanceMetrics.pnls.
  generalize 0. induction l as [|tr l IH]; intros a; cbn; [reflexivity | apply IH].
Qed.

Lemma count_Q_length_Q {A : Type} (l : list A) :
  count_Q l = PerformanceMetrics.length_Q l.
Proof. reflexivity. Qed.

(** X15: [get_summary] raises ZeroDivisionError exactly when the initial
    capital is zero.  Otherwise it returns a summary whose total_return is
    (portfolio_value - initial_capital) / initial_capital, whose counts are
    those of the ledger, in which winning and losing trades together are at
    most all trades, win_rate lies in [0, 1], avg_win is at least 0 and
    avg_loss at most 0. *)
Theorem summary_outcome (p : t) :
  (initial_capital p == 0 -> get_summary p = inl ZeroDivisionError)
  /\ (~ initial_capital p == 0 ->
      exists s,
        get_summary p = inr s
        /\ sm_total_return s = (portfolio_value p - initial_capital p) / initial_capital p
        /\ sm_total_trades s = length (trades p)
        /\ sm_num_positions s = size (positions p)
        /\ (sm_winning_trades s + sm_losing_trades s <= sm_total_trades s)%nat
        /\ 0 <= sm_win_rate s <= 1
        /\ 0 <= sm_avg_win s
        /\ sm_avg_loss s <= 0).
Proof.
  unfold get_summary, get_total_return, py_div. split.
  - intros Hz. now rewrite (Qeq_eq_bool _ _ Hz).
  - intros Hnz. rewrite (proj2 (Qeq_bool_false _ _) Hnz). cbn [raise_bind].
    eexists. split; [reflexivity|]. cbn.
    set (winning := List.filter (fun tr => Qgtb (pnl tr) 0) (trades p)).
    set (losing := List.filter (fun tr => Qltb (pnl tr) 0) (trades p)).
    assert (Forall (fun x => 0 < x) (PerformanceMetrics.pnls winning)) as Hwin.
    { apply (MetricsProps.filter_Forall_pnl (fun x => Qgtb x 0)).
      intros x. apply Qgtb_true. }
    assert (Forall (fun x => x < 0) (PerformanceMetrics.pnls losing)) as Hlose.
    { apply (MetricsProps.filter_Forall_pnl (fun x => Qltb x 0)).
      intros x. apply Qltb_true. }
    repeat split.
    + apply (MetricsProps.exclusive_filters (fun tr => Qgtb (pnl tr) 0)
               (fun tr => Qltb (pnl tr) 0)).
      intros tr Ht. apply Qgtb_true in Ht. apply Qltb_false. lra.
    + destruct (trades p) as [|t0 ts] eqn:Et; cbn; [apply Qle_refl|].
      apply Qle_shift_div_l; [unfold Qlt; cbn; lia|].
      rewrite Qmult_0_l. unfold count_Q. change 0 with (inject_Z 0).
      rewrite <- Zle_Qle. lia.
    + destruct (trades p) as [|t0 ts] eqn:Et; cbn [length Nat.ltb Nat.leb]; [lra|].
      apply Qle_shift_div_r; [unfold Qlt; cbn; lia|].
      rewrite Qmult_1_l. unfold count_Q. rewrite <- Zle_Qle.
      apply inj_le. subst winning.
      exact (MetricsProps.filter_length_le _ (t0 :: ts)).
    + destruct winning as [|w0 ws] eqn:Ew; [apply Qle_refl|].
      rewrite sum_pnl_Qsum, count_Q_length_Q. apply Qlt_le_weak.
      apply (MetricsProps.mean_signed (PerformanceMetrics.pnls (w0 :: ws)));
        [discriminate | exact Hwin].
    + destruct losing as [|l0 ls] eqn:El; [apply Qle_refl|].
      rewrite sum_pnl_Qsum, count_Q_length_Q. apply Qlt_le_weak.
      apply (MetricsProps.mean_signed (PerformanceMetrics.pnls (l0 :: ls)));
        [discriminate | exact Hlose].
Qed.

Lemma summary_outcome_witness :
  exists s, get_summary LedgerSpec.one_position = inr s /\ sm_win_rate s <= 1.
Proof.
  destruct (summary_outcome LedgerSpec.one_position) as [_ H].
  destruct H as (s & Hrun & _ & _ & _ & _ & Hwr & _); [discriminate|].
  exists s. split; [exact Hrun | apply Hwr].
Defined.

End SummaryProps.

(** * More on the engine *)

Module EngineProps.
Import PrimFloat.
Import BacktestEngine EngineSpec EngineTerms.

(** *** Loading data and building the timeline *)

Lemma dict_get_set {V : Type} (d : list (string * V)) (k k' : string) (v : V) :
  dict_get (dict_set d k v) k' = if String.eqb k k' then Some v else dict_get d k'.
Proof.
  induction d as [|[k0 v0] rest IH]; cbn.
  - reflexivity.
  - destruct (String.eqb k0 k) eqn:E0; cbn.
    + apply String.eqb_eq in E0. subst k0. now destruct (String.eqb k k').
    + rewrite IH. destruct (String.eqb k0 k') eqn:E1; [|reflexivity].
      apply String.eqb_eq in E1. subst k0. now rewrite String.eqb_sym, E0.
Qed.

Lemma dict_set_keys {V : Type} (d : list (string * V)) (k : string) (v : V) :
  List.map fst (dict_set d k v)
  = match dict_get d k with
    | Some _ => List.map fst d
    | None => List.map fst d ++ [k]
    end.
Proof.
  induction d as [|[k0 v0] rest IH]; cbn; [reflexivity|].
  destruct (String.eqb k0 k) eqn:E0; cbn.
  - apply String.eqb_eq in E0. now subst.
  - rewrite IH. now destruct (dict_get rest k).
Qed.

(** X16: [load_data] stores the table under the symbol and nothing else:
    the symbol then reads back the table, every other symbol reads what it
    read before, a symbol loaded again keeps its place in the order of the
    symbols and a new one goes last, and the ledger is untouched. *)
Theorem load_data_lookup {State : Type} (e : @BacktestEngine.t State)
    (symbol : string) (df : DataFrame) :
  let e' := load_data e symbol df in
  dict_get (data e') symbol = Some df
  /\ (forall other, other <> symbol ->
        dict_get (data e') other = dict_get (data e) other)
  /\ List.map fst (data e')
     = match dict_get (data e) symbol with
       | Some _ => List.map fst (data e)
       | None => List.map fst (data e) ++ [symbol]
       end
  /\ portfolio e' = portfolio e.
Proof.
  cbn. repeat split.
  - now rewrite dict_get_set, String.eqb_refl.
  - intros other Hne. rewrite dict_get_set.
    destruct (String.eqb symbol other) eqn:E; [|reflexivity].
    apply String.eqb_eq in E. congruence.
  - apply dict_set_keys.
Qed.

Lemma index_union_missing (d : list (string * DataFrame)) (symbols : list string)
    (s : string) :
  In s symbols -> dict_get d s = None -> index_union d symbols = inl KeyError.
Proof.
  intros Hin Hmiss. induction symbols as [|s0 rest IH]; [destruct Hin|].
  cbn. destruct (dict_get d s0) as [df|] eqn:E0; [|reflexivity].
  destruct Hin as [->|Hin]; [congruence|].
  now rewrite (IH Hin).
Qed.

Lemma index_union_dates (d : list (string * DataFrame)) (symbols : list string)
    (dates : gset Z) :
  index_union d symbols = inr dates ->
  forall date, date ∈ dates <-> has_bar d symbols date.
Proof.
  revert dates. induction symbols as [|s0 rest IH]; intros dates H date; cbn in H.
  - inversion H; subst. split; [set_solver|]. intros (s & df & [] & _).
  - destruct (dict_get d s0) as [df0|] eqn:E0; [|discriminate].
    destruct (index_union d rest) as [err|others]; [discriminate|].
    cbn in H. inversion H; subst. rewrite elem_of_union, elem_of_dom, (IH others eq_refl).
    split.
    + intros [Hhere | (s & df & Hin & Hget & Hbar)].
      * exists s0, df0. split; [now left | now split].
      * exists s, df. split; [now right | now split].
    + intros (s & df & [->|Hin] & Hget & Hbar).
      * left. congruence.
      * right. now exists s, df.
Qed.

Lemma sorted_without_repeats (l : list Z) :
  StronglySorted Z.le l -> NoDup l -> StronglySorted Z.lt l.
Proof.
  induction 1 as [|x l Hs IH Hall]; intros Hnd; [constructor|].
  apply NoDup_cons in Hnd as [Hnotin Hnd]. constructor; [now apply IH|].
  rewrite Forall_forall in Hall |- *. intros y Hy.
  assert (x <> y). { intros ->. now apply Hnotin, list_elem_of_In. }
  specialize (Hall y Hy). lia.
Qed.

(** X17: when every listed symbol is loaded, the timeline of the run is
    strictly increasing and holds exactly the dates at which some listed
    symbol has a bar. *)
Theorem timeline_is_sorted_union (d : list (string * DataFrame))
    (symbols : list string) (dates : gset Z) :
  index_union d symbols = inr dates ->
  StronglySorted Z.lt (sorted_dates dates)
  /\ forall date, In date (sorted_dates dates) <-> has_bar d symbols date.
Proof.
  intros Hunion. unfold sorted_dates. split.
  - apply sorted_without_repeats.
    + apply StronglySorted_merge_sort; apply _.
    + rewrite merge_sort_Permutation. apply NoDup_elements.
  - intros date. rewrite <- (index_union_dates d symbols dates Hunion date).
    rewrite <- list_elem_of_In, merge_sort_Permutation. apply elem_of_elements.
Qed.

Lemma timeline_is_sorted_union_witness :
  StronglySorted Z.lt (sorted_dates (dom three_days ∪ ∅))
  /\ In 2%Z (sorted_dates (dom three_days ∪ ∅)).
Proof.
  destruct (timeline_is_sorted_union [("X"%string, three_days)] ["X"%string]
              (dom three_days ∪ ∅) eq_refl) as [Hsorted Hin].
  split; [exact Hsorted|]. apply Hin.
  exists "X"%string, three_days. split; [now left|]. split; [reflexivity|].
  now exists (flat_bar 60).
Defined.

(** X18: a run with an empty list of symbols, or with no list and no data
    loaded, raises ValueError before anything else; a run that lists a
    symbol that was never loaded raises KeyError. *)
Theorem run_rejects_symbols {State : Type}
    (on_bar : State -> BarEvent -> State * option Signal) (clock : nat -> Z)
    (e : @BacktestEngine.t State) :
  run on_bar clock e (Some []) = inl ValueError
  /\ (data e = [] -> run on_bar clock e None = inl ValueError)
  /\ (forall symbols s,
        In s symbols -> dict_get (data e) s = None ->
        run on_bar clock e (Some symbols) = inl KeyError).
Proof.
  unfold run. split; [reflexivity|]. split.
  - intros ->. reflexivity.
  - intros symbols s Hin Hmiss. destruct symbols as [|s0 rest]; [destruct Hin|].
    now rewrite (index_union_missing _ _ s Hin Hmiss).
Qed.

Lemma run_rejects_symbols_witness :
  run idle ticks (idle_engine three_days) (Some ["X"%string; "Y"%string])
  = inl KeyError.
Proof.
  destruct (run_rejects_symbols idle ticks (idle_engine three_days)) as (_ & _ & H).
  apply (H ["X"%string; "Y"%string] "Y"%string); [right; now left | reflexivity].
Defined.

(** *** Routing never divides by zero

    On the exact reading the routing of a signal returns: no division of
    it is by zero. *)

Lemma py_int_zero (x : Q) : x == 0 -> py_int x = 0%Z.
Proof.
  destruct x as [n d]. unfold Qeq, py_int. cbn. intros H.
  assert (n = 0%Z) as -> by lia. apply Z.quot_0_l. lia.
Qed.

(** A ledger worth nothing is sized at most zero shares. *)
Lemma worthless_is_not_sized (rm : RiskManager.t) (p : Portfolio.t) (price stop : Q) :
  Portfolio.portfolio_value p == 0 ->
  (RiskManager.calculate_position_size rm p price stop <= 0)%Z.
Proof.
  intros Hz. unfold RiskManager.calculate_position_size.
  destruct (Qeq_bool (price * stop) 0); [lia|].
  rewrite (py_int_zero (_ / (price * stop))); [lia|].
  rewrite Hz. unfold Qdiv. ring.
Qed.

Lemma sell_check_returns (p : Portfolio.t) (rm : RiskManager.t) symbol q price :
  exists verdict, RiskManager.check_trade rm p symbol q price "SELL" = inr verdict.
Proof. now eexists. Qed.

Lemma sized_buy_check_returns (rm : RiskManager.t) (p : Portfolio.t) symbol price stop :
  (0 < RiskManager.calculate_position_size rm p price stop)%Z ->
  exists verdict,
    RiskManager.check_trade rm p symbol
      (RiskManager.calculate_position_size rm p price stop) price "BUY" = inr verdict.
Proof.
  intros Hq. unfold RiskManager.check_trade, RiskManager._check_buy_order. cbn.
  destruct (Qgtb _ (Portfolio.cash p)); [now eexists|].
  unfold py_div. destruct (Qeq_bool (Portfolio.portfolio_value p) 0) eqn:Hv.
  - apply Qeq_bool_iff in Hv.
    pose proof (worthless_is_not_sized rm p price stop Hv). lia.
  - cbn. destruct (Qgtb _ (RiskManager.max_position_size rm)); [now eexists|].
    destruct (Qgtb _ (RiskManager.max_drawdown rm)); now eexists.
Qed.

(** *** Quantities stay positive *)

Lemma fill_keeps_positive (p : Portfolio.t) (symbol side : string) (q : Z)
    (price commission : Q) (now : Z) :
  (0 < q)%Z ->
  (upper side = "SELL"%string ->
   forall pos, Portfolio.positions p !! symbol = Some pos ->
               (q <= Portfolio.pos_quantity pos)%Z) ->
  positive_ledger p ->
  positive_ledger (Portfolio.update_position p symbol q price side commission now).
Proof.
  intros Hq Hheld [Hpos Htr]. unfold positive_ledger, Portfolio.update_position.
  assert (Forall (fun tr => (0 < Portfolio.tr_quantity tr)%Z)
            (Portfolio.trades p ++
               [Portfolio.new_trade symbol side q price now commission])) as Htr'.
  { apply Forall_app. split; [exact Htr|]. now repeat constructor. }
  destruct (String.eqb (upper side) "BUY") eqn:Hb.
  - cbn. destruct (Portfolio.positions p !! symbol) as [pos|] eqn:Hl; cbn;
      (split; [|exact Htr']); intros s pos' Hs;
      (destruct (decide (s = symbol)) as [->|Hne];
       [rewrite lookup_insert_eq in Hs; inversion Hs; subst; cbn
       |rewrite lookup_insert_ne in Hs by congruence; now apply (Hpos s)]).
    + specialize (Hpos _ _ Hl). lia.
    + exact Hq.
  - destruct (String.eqb (upper side) "SELL") eqn:Hs; [|now split].
    apply String.eqb_eq in Hs. specialize (Hheld Hs). cbn.
    destruct (Portfolio.positions p !! symbol) as [pos|] eqn:Hl; [|now split].
    specialize (Hheld pos eq_refl).
    assert (Forall (fun tr => (0 < Portfolio.tr_quantity tr)%Z)
              (alter (Portfolio.set_pnl
                        ((price - Portfolio.avg_price pos)
                         * inject_Z (Portfolio.pos_quantity pos) - commission))
                 (length (Portfolio.trades p))
                 (Portfolio.trades p ++
                    [Portfolio.new_trade symbol side q price now commission]))
            /\ Forall (fun tr => (0 < Portfolio.tr_quantity tr)%Z)
              (alter (Portfolio.set_pnl
                        ((price - Portfolio.avg_price pos) * inject_Z q - commission))
                 (length (Portfolio.trades p))
                 (Portfolio.trades p ++
                    [Portfolio.new_trade symbol side q price now commission])))
      as [Ha Hb'].
    { rewrite !PortfolioFacts.alter_appended.
      split; (apply Forall_app; split; [exact Htr|]; now repeat constructor). }
    destruct (Z.geb_spec q (Portfolio.pos_quantity pos)) as [Hge|Hlt]; cbn.
    + split; [|exact Ha]. intros s pos' Hs'.
      destruct (decide (s = symbol)) as [->|Hne];
        [now rewrite lookup_delete_eq in Hs'|].
      rewrite lookup_delete_ne in Hs' by congruence. now apply (Hpos s).
    + split; [|exact Hb']. intros s pos' Hs'.
      destruct (decide (s = symbol)) as [->|Hne].
      * rewrite lookup_insert_eq in Hs'. inversion Hs'; subst. cbn. lia.
      * rewrite lookup_insert_ne in Hs' by congruence. now apply (Hpos s).
Qed.

Lemma update_prices_keeps_positive (p : Portfolio.t) (prices : gmap string Q) (now : Z) :
  positive_ledger p -> positive_ledger (Portfolio.update_prices p prices now).
Proof.
  intros [Hpos Htr]. split; [|exact Htr]. cbn. intros s pos' Hs.
  rewrite PortfolioFacts.reprice_lookup in Hs.
  destruct (Portfolio.positions p !! s) as [pos|] eqn:Hl; [|discriminate].
  cbn in Hs. inversion Hs; subst. specialize (Hpos _ _ Hl).
  unfold LedgerSpec.repriced. now destruct (LedgerSpec.last_price _ _).
Qed.

(** X19: fills of a positive quantity that never sell more than is held
    keep the data model's invariant: every open position and every logged
    trade has a positive quantity. *)
Theorem validated_fill_keeps_quantities_positive (p : Portfolio.t)
    (symbol side : string) (q : Z) (price commission : Q) (now : Z) :
  (0 < q)%Z ->
  (upper side = "SELL"%string ->
   forall pos, Portfolio.positions p !! symbol = Some pos ->
               (q <= Portfolio.pos_quantity pos)%Z) ->
  positive_ledger p ->
  positive_ledger (Portfolio.update_position p symbol q price side commission now).
Proof. exact (fill_keeps_positive p symbol side q price commission now). Qed.

Lemma validated_fill_keeps_quantities_positive_witness :
  positive_ledger (Portfolio.update_position LedgerSpec.one_position "X" 4 7 "SELL" 0 1).
Proof.
  apply validated_fill_keeps_quantities_positive.
  - reflexivity.
  - intros _ pos Hpos.
    change (Portfolio.positions LedgerSpec.one_position)
      with (<["X"%string := Portfolio.new_position "X" 10 5]>
              (∅ : gmap string Portfolio.Position)) in Hpos.
    rewrite lookup_insert_eq in Hpos. inversion Hpos; subst. cbn. lia.
  - split.
    + intros s pos Hs.
      change (Portfolio.positions LedgerSpec.one_position)
        with (<["X"%string := Portfolio.new_position "X" 10 5]>
                (∅ : gmap string Portfolio.Position)) in Hs.
      destruct (decide (s = "X"%string)) as [->|Hne].
      * rewrite lookup_insert_eq in Hs. inversion Hs; subst. cbn. lia.
      * rewrite lookup_insert_ne in Hs by congruence. discriminate.
    + repeat constructor.
Defined.

(** On binary64 a ledger worth nothing is not sized above zero either:
    zero times the loss limit is zero or NaN, and so is the first
    quotient. *)
Lemma worthless_is_not_sized_binary64
    (v max_position_size max_loss_per_trade price stop : float) (n : Z) :
  (v =? 0)%float = true ->
  Binary64.calculate_position_size v max_position_size max_loss_per_trade price stop
  = inr n ->
  (n <= 0)%Z.
Proof.
  intros Hv.
  pose proof (RiskFacts.sizing_outcome v max_position_size max_loss_per_trade price stop)
    as H.
  cbv zeta in H. rewrite H. clear H.
  destruct (price * stop =? 0)%float; [intros [= Hn]; lia|].
  assert (Hq : RiskSpec.read
                 (v * max_loss_per_trade / (price * stop))%float = RiskSpec.Exact 0
               \/ RiskSpec.read
                    (v * max_loss_per_trade / (price * stop))%float
                  = RiskSpec.NotNumber).
  { unfold RiskSpec.read. rewrite FloatAxioms.div_spec, FloatAxioms.mul_spec.
    rewrite RiskFacts.eqb_zero in Hv.
    unfold FloatAxioms.SF64div, FloatAxioms.SF64mul, SpecFloat.SFdiv, SpecFloat.SFmul.
    destruct (FloatOps.Prim2SF v); try discriminate.
    destruct (FloatOps.Prim2SF max_loss_per_trade);
      destruct (FloatOps.Prim2SF (price * stop)%float); auto. }
  unfold RiskSpec.sized. destruct Hq as [-> | ->]; [|discriminate].
  destruct (RiskSpec.read _); try discriminate.
  intros [= Hn]. change (RiskSpec.toward_zero 0) with 0%Z in Hn. lia.
Qed.

Section WithStrategy.

Context {State : Type}.
Variable on_bar : State -> BarEvent -> State * option Signal.
Variable clock : nat -> Z.

Abbreviation engine := (@BacktestEngine.t State).
Abbreviation _process_signal := (@BacktestEngine._process_signal State clock).
Abbreviation visit_symbol := (@BacktestEngine.visit_symbol State on_bar clock).
Abbreviation visit_symbols := (@BacktestEngine.visit_symbols State on_bar clock).
Abbreviation run_dates := (@BacktestEngine.run_dates State on_bar clock).
Abbreviation run := (@BacktestEngine.run State on_bar clock).

Lemma process_signal_returns (e : engine) (sg : Signal) :
  exists e', _process_signal e sg = inr e'.
Proof.
  unfold BacktestEngine._process_signal.
  destruct (String.eqb (signal_type sg) BUY).
  - destruct (negb _); [|now eexists].
    destruct (Z.gtb_spec
                (RiskManager.calculate_position_size (risk_manager e) (portfolio e)
                   (sg_price sg) RiskManager.default_stop_loss_pct) 0) as [Hq|Hq];
      [|now eexists].
    destruct (sized_buy_check_returns (risk_manager e) (portfolio e) (sg_symbol sg)
                (sg_price sg) RiskManager.default_stop_loss_pct Hq) as (verdict & ->).
    cbn. destruct (fst verdict); now eexists.
  - destruct (String.eqb (signal_type sg) SELL); [|now eexists].
    destruct (Portfolio.get_position _ _) as [pos|]; [|now eexists].
    destruct (sell_check_returns (portfolio e) (risk_manager e) (sg_symbol sg)
                (Portfolio.pos_quantity pos) (sg_price sg)) as ([[|] r] & ->);
      now eexists.
Qed.

Lemma visit_symbols_returns (date : Z) (symbols : list string) (e : engine) :
  exists e', visit_symbols date e symbols = inr e'.
Proof.
  revert e. induction symbols as [|s rest IH]; intros e; cbn; [now eexists|].
  assert (exists e1, visit_symbol date e s = inr e1) as (e1 & ->).
  { unfold BacktestEngine.visit_symbol.
    destruct (dict_get (data e) s) as [df|]; [|now eexists].
    destruct (df !! date) as [bar|]; [|now eexists].
    destruct (on_bar _ _) as [s' [sg|]]; [apply process_signal_returns | now eexists]. }
  cbn. apply IH.
Qed.

Lemma run_dates_returns (e : engine) (symbols : list string) (dates : list Z) :
  exists e', run_dates e symbols dates = inr e'.
Proof.
  revert e. induction dates as [|date rest IH]; intros e; cbn; [now eexists|].
  match goal with |- context [if ?c then _ else _] => destruct c end; [now eexists|].
  destruct (visit_symbols_returns date symbols e) as (e1 & ->). cbn. apply IH.
Qed.

(** X20: the loop of the run never divides by zero, whatever the strategy
    signals and whatever the data and the ledger.  The admission check
    divides by the portfolio value only for a sized quantity above zero,
    and a ledger worth nothing is never sized above zero: on binary64 too
    the sizing rule gives it no positive quantity. *)
Theorem run_loop_never_divides_by_zero (e : engine) (symbols : list string)
    (dates : list Z) :
  run_dates e symbols dates <> inl ZeroDivisionError
  /\ (forall v max_position_size max_loss_per_trade price stop n,
        (v =? 0)%float = true ->
        Binary64.calculate_position_size v max_position_size max_loss_per_trade
          price stop = inr n ->
        (n <= 0)%Z).
Proof.
  split.
  - destruct (run_dates_returns e symbols dates) as (e' & ->). discriminate.
  - intros v mps mlpt price stop n Hv Hrun.
    now apply (worthless_is_not_sized_binary64 v mps mlpt price stop).
Qed.

Lemma process_signal_positive (e e' : engine) (sg : Signal) :
  _process_signal e sg = inr e' ->
  positive_ledger (portfolio e) -> positive_ledger (portfolio e').
Proof.
  unfold BacktestEngine._process_signal. intros H Hinv.
  destruct (String.eqb (signal_type sg) BUY).
  - destruct (negb _); [|inversion H; now subst].
    destruct (Z.gtb_spec
                (RiskManager.calculate_position_size (risk_manager e) (portfolio e)
                   (sg_price sg) RiskManager.default_stop_loss_pct) 0) as [Hq|Hq];
      [|inversion H; now subst].
    destruct (RiskManager.check_trade _ _ _ _ _ "BUY") as [err|[[|] r]];
      cbn in H; inversion H; subst; [|exact Hinv].
    cbn. apply fill_keeps_positive; [exact Hq | discriminate | exact Hinv].
  - destruct (String.eqb (signal_type sg) SELL); [|inversion H; now subst].
    unfold Portfolio.get_position in H.
    destruct (Portfolio.positions (portfolio e) !! sg_symbol sg) as [pos|] eqn:Hl;
      [|inversion H; now subst].
    destruct (RiskManager.check_trade _ _ _ _ _ "SELL") as [err|[[|] r]];
      cbn in H; inversion H; subst; [|exact Hinv].
    cbn. apply fill_keeps_positive; [|intros _ pos' Hp; rewrite Hl in Hp;
                                      inversion Hp; subst; lia | exact Hinv].
    apply (proj1 Hinv _ _ Hl).
Qed.

Lemma visit_symbols_positive (date : Z) (symbols : list string) (e e' : engine) :
  visit_symbols date e symbols = inr e' ->
  positive_ledger (portfolio e) -> positive_ledger (portfolio e').
Proof.
  revert e. induction symbols as [|s rest IH]; intros e H Hinv; cbn in H.
  - inversion H; now subst.
  - destruct (visit_symbol date e s) as [err|e1] eqn:H1; [discriminate|].
    cbn in H. apply (IH e1 H). unfold BacktestEngine.visit_symbol in H1.
    destruct (dict_get (data e) s) as [df|]; [|inversion H1; now subst].
    destruct (df !! date) as [bar|]; [|inversion H1; now subst].
    destruct (on_bar _ _) as [s' [sg|]]; [|inversion H1; now subst].
    apply (process_signal_positive _ _ _ H1). exact Hinv.
Qed.

Lemma run_dates_positive (symbols : list string) (dates : list Z) (e e' : engine) :
  run_dates e symbols dates = inr e' ->
  positive_ledger (portfolio e) -> positive_ledger (portfolio e').
Proof.
  revert e. induction dates as [|date rest IH]; intros e H Hinv; cbn in H.
  - inversion H; now subst.
  - destruct (fst (RiskManager.should_stop_trading _ _)); [inversion H; now subst|].
    destruct (visit_symbols date e symbols) as [err|e1] eqn:H1; [discriminate|].
    cbn in H. apply (IH _ H). cbn. apply update_prices_keeps_positive.
    now apply (visit_symbols_positive _ _ _ _ H1).
Qed.

(** X21: in a completed run of a freshly constructed engine every logged
    trade has a positive quantity and every position left open holds a
    positive quantity: the engine buys only sized quantities above zero and
    sells only what is held. *)
Theorem run_keeps_quantities_positive (e e' : engine)
    (symbols : option (list string)) (r : Results) :
  portfolio e = Portfolio.init (initial_capital e) ->
  run e symbols = inr (e', r) ->
  positive_ledger (portfolio e')
  /\ Forall (fun tr => (0 < Portfolio.tr_quantity tr)%Z) (res_trades r).
Proof.
  intros Hfresh Hrun. unfold BacktestEngine.run in Hrun.
  destruct (match symbols with Some l => l | None => _ end) as [|s ss];
    [discriminate|].
  destruct (index_union _ _) as [err|dates]; [discriminate|].
  cbn [raise_bind] in Hrun.
  destruct (BacktestEngine.run_dates _ _ _ _ _) as [err|e1] eqn:Hdates; [discriminate|].
  cbn [raise_bind] in Hrun.
  destruct (_generate_results e1) as [err|r1] eqn:Hres; [discriminate|].
  cbn in Hrun. inversion Hrun; subst e' r1. clear Hrun.
  assert (positive_ledger (portfolio e1)) as Hinv.
  { apply (run_dates_positive _ _ _ _ Hdates). rewrite Hfresh.
    split; [intros s0 pos Hs0; discriminate | constructor]. }
  split; [exact Hinv|].
  destruct (EngineFacts.generate_results_fields _ _ Hres) as (-> & _). apply Hinv.
Qed.

(** *** What a run appends *)

Lemma update_position_trades (p : Portfolio.t) symbol q price side commission now :
  exists tr,
    Portfolio.trades (Portfolio.update_position p symbol q price side commission now)
    = Portfolio.trades p ++ [tr].
Proof.
  unfold Portfolio.update_position.
  destruct (String.eqb (upper side) "BUY");
    [|destruct (String.eqb (upper side) "SELL")];
    cbn; destruct (Portfolio.positions p !! symbol) as [pos|]; cbn;
    try destruct (q >=? Portfolio.pos_quantity pos)%Z; cbn;
    rewrite ?PortfolioFacts.alter_appended; now eexists.
Qed.

Lemma update_position_curve (p : Portfolio.t) symbol q price side commission now :
  Portfolio.equity_curve (Portfolio.update_position p symbol q price side commission now)
  = Portfolio.equity_curve p.
Proof.
  unfold Portfolio.update_position.
  destruct (String.eqb (upper side) "BUY");
    [|destruct (String.eqb (upper side) "SELL")];
    cbn; destruct (Portfolio.positions p !! symbol) as [pos|]; cbn;
    try destruct (q >=? Portfolio.pos_quantity pos)%Z; reflexivity.
Qed.

Lemma appended_trans p1 p2 p3 trs1 pts1 trs2 pts2 :
  appended p1 p2 trs1 pts1 -> appended p2 p3 trs2 pts2 ->
  appended p1 p3 (trs1 ++ trs2) (pts1 ++ pts2).
Proof.
  intros [Ht1 Hc1] [Ht2 Hc2]. split.
  - now rewrite Ht2, Ht1, app_assoc.
  - now rewrite Hc2, Hc1, app_assoc.
Qed.

Lemma process_signal_appends (e e' : engine) (sg : Signal) :
  _process_signal e sg = inr e' ->
  exists trs, appended (portfolio e) (portfolio e') trs [] /\ (length trs <= 1)%nat.
Proof.
  assert (exists trs, appended (portfolio e) (portfolio e) trs []
                      /\ (length trs <= 1)%nat) as Hsame.
  { exists []. split; [split; now rewrite app_nil_r | cbn; lia]. }
  assert (forall symbol q price side c t0,
             exists trs,
               appended (portfolio e)
                 (Portfolio.update_position (portfolio e) symbol q price side c t0)
                 trs []
               /\ (length trs <= 1)%nat) as Hfill.
  { intros symbol q price side c t0.
    destruct (update_position_trades (portfolio e) symbol q price side c t0)
      as (tr & Htr).
    exists [tr]. split; [split; [exact Htr|] | cbn; lia].
    now rewrite update_position_curve, app_nil_r. }
  unfold BacktestEngine._process_signal. intros H.
  repeat match type of H with
  | inr _ = inr _ => inversion H; subst; clear H
  | inl _ = inr _ => discriminate H
  | context [raise_bind ?m _] => destruct m as [?|[[|] ?]]; cbn [raise_bind fst] in H
  | context [if ?c then _ else _] => destruct c
  | context [match ?c with _ => _ end] => destruct c eqn:?
  end; cbn; auto.
Qed.

Lemma visit_symbols_appends (date : Z) (symbols : list string) (e e' : engine) :
  visit_symbols date e symbols = inr e' ->
  exists trs, appended (portfolio e) (portfolio e') trs []
              /\ (length trs <= length symbols)%nat.
Proof.
  revert e. induction symbols as [|s rest IH]; intros e H; cbn in H.
  - inversion H; subst. exists []. split; [split; now rewrite app_nil_r | cbn; lia].
  - destruct (visit_symbol date e s) as [err|e1] eqn:H1; [discriminate|].
    cbn in H. destruct (IH e1 H) as (trs2 & Happ2 & Hlen2).
    assert (exists trs1, appended (portfolio e) (portfolio e1) trs1 []
                         /\ (length trs1 <= 1)%nat) as (trs1 & Happ1 & Hlen1).
    { unfold BacktestEngine.visit_symbol in H1.
      assert (exists trs, appended (portfolio e) (portfolio e) trs []
                          /\ (length trs <= 1)%nat) as Hsame.
      { exists []. split; [split; now rewrite app_nil_r | cbn; lia]. }
      destruct (dict_get (data e) s) as [df|]; [|inversion H1; now subst].
      destruct (df !! date) as [bar|]; [|inversion H1; now subst].
      destruct (on_bar _ _) as [s' [sg|]]; [|inversion H1; now subst].
      apply process_signal_appends in H1. exact H1. }
    exists (trs1 ++ trs2). split.
    + apply (appended_trans _ _ _ _ _ _ _ Happ1 Happ2).
    + rewrite length_app. cbn. lia.
Qed.

(** X22: the loop of the run only appends to the ledger's logs.  The
    entries that were there stay as they were; the equity curve gains at
    most one point per date, and the trade log at most one trade per symbol
    for every point gained. *)
Theorem run_loop_appends (e e' : engine) (symbols : list string) (dates : list Z) :
  run_dates e symbols dates = inr e' ->
  exists trs pts,
    Portfolio.trades (portfolio e') = Portfolio.trades (portfolio e) ++ trs
    /\ Portfolio.equity_curve (portfolio e')
       = Portfolio.equity_curve (portfolio e) ++ pts
    /\ (length pts <= length dates)%nat
    /\ (length trs <= length pts * length symbols)%nat.
Proof.
  revert e. induction dates as [|date rest IH]; intros e H; cbn in H.
  - inversion H; subst. exists [], []. rewrite !app_nil_r. cbn. repeat split; lia.
  - destruct (fst (RiskManager.should_stop_trading _ _)).
    { inversion H; subst. exists [], []. rewrite !app_nil_r. cbn. repeat split; lia. }
    destruct (visit_symbols date e symbols) as [err|e1] eqn:H1; [discriminate|].
    cbn in H. destruct (IH _ H) as (trs2 & pts2 & Ht2 & Hc2 & Hl2 & Hn2).
    destruct (visit_symbols_appends _ _ _ _ H1) as (trs1 & [Ht1 Hc1] & Hl1).
    cbn in Ht2, Hc2. rewrite app_nil_r in Hc1.
    eexists (trs1 ++ trs2), (_ :: pts2). repeat split.
    + now rewrite Ht2, Ht1, app_assoc.
    + rewrite Hc2, Hc1, <- app_assoc. reflexivity.
    + cbn. lia.
    + rewrite length_app. cbn. lia.
Qed.

(** *** Cash after an approved BUY *)

(** X23: the BUY check compares the cash with the order at the signal
    price, and the fill costs the slippage and the commission on top: after
    the engine has filled a BUY of quantity q at signal price p, cash is
    cash - (q * (p * (1 + slippage)) + commission), which is at least
    -(q * (p * slippage) + commission) and can be below zero. *)
Theorem buy_overdraws_at_most_costs (e e' : engine) (sg : Signal) :
  signal_type sg = BUY ->
  _process_signal e sg = inr e' ->
  portfolio e' <> portfolio e ->
  let q := inject_Z (RiskManager.calculate_position_size (risk_manager e) (portfolio e)
                       (sg_price sg) RiskManager.default_stop_loss_pct) in
  Portfolio.cash (portfolio e')
    = Portfolio.cash (portfolio e)
      - (q * (sg_price sg * (1 + slippage e)) + commission e)
  /\ q * sg_price sg <= Portfolio.cash (portfolio e)
  /\ - (q * (sg_price sg * slippage e) + commission e) <= Portfolio.cash (portfolio e').
Proof.
  intros Hbuy H Hchanged. unfold BacktestEngine._process_signal in H. rewrite Hbuy in H.
  cbn [String.eqb Ascii.eqb Bool.eqb BUY] in H.
  change (String.eqb "BUY" BUY) with true in H. cbv iota in H.
  destruct (negb _); [|inversion H; subst; congruence].
  destruct (_ >? 0)%Z; [|inversion H; subst; congruence].
  unfold RiskManager.check_trade, RiskManager._check_buy_order in H. cbn in H.
  set (q := inject_Z (RiskManager.calculate_position_size (risk_manager e) (portfolio e)
                        (sg_price sg) RiskManager.default_stop_loss_pct)) in *.
  destruct (Qgtb (q * sg_price sg) (Portfolio.cash (portfolio e))) eqn:Hcash;
    [cbn in H; inversion H; subst; congruence|].
  apply Qgtb_false in Hcash.
  assert (Portfolio.cash (portfolio e')
          = Portfolio.cash (portfolio e)
            - (q * (sg_price sg * (1 + slippage e)) + commission e)) as Hnew.
  { destruct (py_div _ _) as [err|size]; [discriminate|]. cbn in H.
    destruct (Qgtb size _); [cbn in H; inversion H; subst; congruence|].
    destruct (Qgtb _ (RiskManager.max_drawdown _));
      cbn in H; inversion H; subst; [congruence|].
    cbn. unfold Portfolio.update_position. cbn.
    now destruct (Portfolio.positions (portfolio e) !! sg_symbol sg). }
  split; [exact Hnew|]. split; [exact Hcash|]. rewrite Hnew. lra.
Qed.

(** *** Arguments that are zero *)

(** X24: the constructors read their optional arguments with [or]: an
    initial capital, commission or slippage of zero is replaced by the
    configured default exactly as a missing one is, and any other value is
    kept.  In particular a run without slippage cannot be asked for when
    the configured slippage is not zero. *)
Theorem zero_argument_is_default (cfg : Config) (strat : State)
    (capital commission_arg slippage_arg : option Q) (x : Q) :
  (x == 0 ->
     slippage (BacktestEngine.init cfg strat capital commission_arg (Some x))
       = SLIPPAGE_PERCENT cfg
     /\ commission (BacktestEngine.init cfg strat capital (Some x) slippage_arg)
        = COMMISSION_PER_TRADE cfg
     /\ initial_capital (BacktestEngine.init cfg strat (Some x) commission_arg slippage_arg)
        = INITIAL_CAPITAL cfg
     /\ Portfolio.cash
          (portfolio (BacktestEngine.init cfg strat (Some x) commission_arg slippage_arg))
        = INITIAL_CAPITAL cfg)
  /\ (~ x == 0 ->
      slippage (BacktestEngine.init cfg strat capital commission_arg (Some x)) = x
      /\ commission (BacktestEngine.init cfg strat capital (Some x) slippage_arg) = x
      /\ initial_capital (BacktestEngine.init cfg strat (Some x) commission_arg slippage_arg)
         = x).
Proof.
  split; intros Hx; cbn.
  - apply Qeq_bool_iff in Hx. now rewrite Hx.
  - apply Qeq_bool_false in Hx. now rewrite Hx.
Qed.

End WithStrategy.

Lemma run_loop_appends_witness :
  exists e', BacktestEngine.run_dates buy_then_sell ticks
               (trading_engine three_days) ["X"%string] [1%Z; 2%Z; 3%Z] = inr e'
             /\ (length (Portfolio.equity_curve (portfolio e')) <= 3)%nat.
Proof.
  destruct (BacktestEngine.run_dates buy_then_sell ticks (trading_engine three_days)
              ["X"%string] [1%Z; 2%Z; 3%Z]) as [err|e'] eqn:Hrun;
    [vm_compute in Hrun; discriminate|].
  destruct (run_loop_appends buy_then_sell ticks _ _ _ _ Hrun)
    as (trs & pts & _ & Hc & Hl & _).
  exists e'. split; [reflexivity|]. rewrite Hc, length_app. cbn in Hl |- *. lia.
Defined.

Lemma buy_overdraws_at_most_costs_witness :
  exists e',
    BacktestEngine._process_signal ticks (idle_engine three_days) buy_signal = inr e'
    /\ - (200 * (50 * (1 # 1000)) + 0) <= Portfolio.cash (portfolio e').
Proof.
  destruct (BacktestEngine._process_signal ticks (idle_engine three_days) buy_signal)
    as [err|e'] eqn:Hrun; [vm_compute in Hrun; discriminate|].
  exists e'. split; [reflexivity|].
  destruct (buy_overdraws_at_most_costs ticks (idle_engine three_days) e' buy_signal
              eq_refl Hrun) as (_ & _ & H).
  - vm_compute in Hrun. inversion Hrun; subst. cbn. intros Heq.
    apply (f_equal Portfolio.trades) in Heq. discriminate.
  - exact H.
Defined.

Lemma zero_argument_is_default_witness :
  slippage (BacktestEngine.init default_config tt None None (Some 0)) = 1 # 1000.
Proof.
  destruct (zero_argument_is_default default_config tt None None None 0) as [H _].
  destruct H as (H & _); [reflexivity | exact H].
Defined.

Lemma run_keeps_quantities_positive_witness :
  exists e' r,
    BacktestEngine.run buy_then_sell ticks (trading_engine three_days) None
      = inr (e', r)
    /\ Forall (fun tr => (0 < Portfolio.tr_quantity tr)%Z) (res_trades r).
Proof.
  destruct (BacktestEngine.run buy_then_sell ticks (trading_engine three_days) None)
    as [err|[e' r]] eqn:Hrun; [vm_compute in Hrun; discriminate|].
  exists e', r. split; [reflexivity|].
  apply (run_keeps_quantities_positive buy_then_sell ticks
           (trading_engine three_days) e' None r eq_refl Hrun).
Defined.

End EngineProps.

(** * The virtual broker *)

Module BrokerProps.
Import VirtualBroker BrokerSpec.

(** X25: [submit_order] stores the order under the new id and settles it at
    once.  Without a price for the symbol the order is REJECTED and the
    ledger is untouched.  With a price it is FILLED for its whole quantity
    at the price with slippage, against the ledger, with the configured
    commission; nothing is checked, neither the cash of a BUY nor the
    holding of a SELL. *)
Theorem submit_order_settles (cfg : Config) (b : t) (order : Order.t)
    (uuid : string) (filled_at now : Z) :
  let '(b', order', id) := submit_order cfg b order uuid filled_at now in
  id = uuid
  /\ Order.order_id order' = Some uuid
  /\ orders b' !! uuid = Some order'
  /\ current_prices b' = current_prices b
  /\ match current_prices b !! Order.symbol order with
     | None =>
         Order.status order' = OrderStatus.REJECTED
         /\ portfolio b' = portfolio b
     | Some market_price =>
         let fill_price := execution_price cfg (Order.side order) market_price in
         Order.status order' = OrderStatus.FILLED
         /\ Order.filled_quantity order' = Order.quantity order
         /\ Order.filled_price order' = Some fill_price
         /\ Order.commission order' = COMMISSION_PER_TRADE cfg
         /\ portfolio b'
            = Portfolio.update_position (portfolio b) (Order.symbol order)
                (Order.quantity order) fill_price
                (OrderSide.value (Order.side order)) (COMMISSION_PER_TRADE cfg) now
     end.
Proof.
  unfold submit_order, _execute_order. cbn.
  destruct (current_prices b !! Order.symbol order) as [market_price|]; cbn.
  - rewrite lookup_insert_eq. repeat split.
  - rewrite lookup_insert_eq. repeat split.
Qed.

Lemma serve_keeps_settled (cfg : Config) (b : t) (r : request) :
  (forall id o, orders b !! id = Some o -> settled o) ->
  forall id o, orders (serve cfg b r) !! id = Some o -> settled o.
Proof.
  intros Hinv id o. destruct r as [order uuid filled_at now | order_id | prices now]; cbn.
  - unfold submit_order, _execute_order. cbn.
    destruct (current_prices b !! Order.symbol order) as [market_price|]; cbn;
      (destruct (decide (uuid = id)) as [->|Hne];
       [rewrite lookup_insert_eq; intros H; inversion H; subst; unfold settled; cbn; auto
       |rewrite lookup_insert_ne by exact Hne; apply Hinv]).
  - unfold cancel_order. destruct (orders b !! order_id) as [o'|] eqn:Hl; [|apply Hinv].
    destruct (Hinv _ _ Hl) as [Hs|Hs]; rewrite Hs; apply Hinv.
  - apply Hinv.
Qed.

Lemma serve_all_keeps_settled (cfg : Config) (rs : list request) (b : t) :
  (forall id o, orders b !! id = Some o -> settled o) ->
  forall id o, orders (serve_all cfg b rs) !! id = Some o -> settled o.
Proof.
  revert b. induction rs as [|r rs IH]; intros b Hinv; [exact Hinv|].
  apply (IH (serve cfg b r)). now apply serve_keeps_settled.
Qed.

(** X26: whatever was asked of a broker since it was built, every order it
    holds is FILLED or REJECTED; so [cancel_order] returns False for every
    id and changes nothing: an order handed to [submit_order] can never be
    cancelled. *)
Theorem cancel_never_succeeds (cfg : Config) (capital : option Q)
    (rs : list request) (order_id : string) :
  let b := serve_all cfg (init cfg capital) rs in
  (forall id o, orders b !! id = Some o -> settled o)
  /\ cancel_order b order_id = (b, false).
Proof.
  intros b.
  assert (forall id o, orders b !! id = Some o -> settled o) as Hinv.
  { apply serve_all_keeps_settled. intros id o H. cbn in H.
    rewrite lookup_empty in H. discriminate. }
  split; [exact Hinv|]. unfold cancel_order.
  destruct (orders b !! order_id) as [o|] eqn:Hl; [|reflexivity].
  now destruct (Hinv _ _ Hl) as [-> | ->].
Qed.

Lemma submit_order_prices (cfg : Config) (b : t) order uuid filled_at now :
  current_prices (fst (fst (submit_order cfg b order uuid filled_at now)))
  = current_prices b.
Proof.
  unfold submit_order. now destruct (_execute_order cfg b _ filled_at now).
Qed.

Lemma cancel_order_prices (b : t) (order_id : string) :
  current_prices (fst (cancel_order b order_id)) = current_prices b.
Proof.
  unfold cancel_order. destruct (orders b !! order_id) as [o|]; [|reflexivity].
  now destruct (Order.status o).
Qed.

Lemma serve_keeps_prices (cfg : Config) (b : t) (r : request) (symbol : string) :
  is_Some (current_prices b !! symbol) ->
  is_Some (current_prices (serve cfg b r) !! symbol).
Proof.
  intros Hp. destruct r as [order uuid filled_at now | order_id | prices now];
    cbn [serve].
  - now rewrite submit_order_prices.
  - now rewrite cancel_order_prices.
  - cbn. rewrite lookup_union. destruct (prices !! symbol), Hp as [v ->]; cbn; eauto.
Qed.

Lemma serve_all_keeps_prices (cfg : Config) (rs : list request) (b : t)
    (symbol : string) :
  is_Some (current_prices b !! symbol) ->
  is_Some (current_prices (serve_all cfg b rs) !! symbol).
Proof.
  revert b. induction rs as [|r rs IH]; intros b H0; [exact H0|].
  apply (IH (serve cfg b r)). now apply serve_keeps_prices.
Qed.

Lemma update_prices_lookup (b : t) (prices : gmap string Q) (now : Z) (symbol : string) :
  current_prices (update_prices b prices now) !! symbol
  = match prices !! symbol with
    | Some price => Some price
    | None => current_prices b !! symbol
    end.
Proof.
  cbn. rewrite lookup_union.
  destruct (prices !! symbol), (current_prices b !! symbol); reflexivity.
Qed.

(** X27: the broker never forgets a price.  [update_prices] gives every
    symbol of the price map the new price and keeps the price of every
    other symbol, and no request removes one: once a symbol has a price,
    every later order for it is FILLED, never REJECTED. *)
Theorem priced_symbol_is_filled (cfg : Config) (b : t) (prices : gmap string Q)
    (now : Z) (rs : list request) (order : Order.t) (uuid : string)
    (filled_at now' : Z) :
  (forall symbol,
      get_current_price (update_prices b prices now) symbol
      = match prices !! symbol with
        | Some price => Some price
        | None => get_current_price b symbol
        end)
  /\ (is_Some (prices !! Order.symbol order) ->
      let b' := serve_all cfg (update_prices b prices now) rs in
      let '(_, order', _) := submit_order cfg b' order uuid filled_at now' in
      Order.status order' = OrderStatus.FILLED).
Proof.
  split; [intros symbol; apply update_prices_lookup|].
  intros [price Hp].
  destruct (serve_all_keeps_prices cfg rs (update_prices b prices now)
              (Order.symbol order)) as [v Hv].
  { rewrite update_prices_lookup, Hp. now eexists. }
  unfold submit_order, _execute_order. cbn. now rewrite Hv.
Qed.

Lemma priced_symbol_is_filled_witness :
  let '(_, order', _) :=
    submit_order default_config priced_broker
      (Order.market "X" OrderSide.BUY 100 1) "id-1" 2 3 in
  Order.status order' = OrderStatus.FILLED.
Proof.
  destruct (priced_symbol_is_filled default_config
              (init default_config (Some 100000)) {[ "X"%string := 50 ]} 0 []
              (Order.market "X" OrderSide.BUY 100 1) "id-1" 2 3) as [_ H].
  apply H. now exists 50.
Defined.
(** X28: a SELL order for a symbol the ledger does not hold is reported
    FILLED for its whole quantity although nothing is sold: the ledger's
    cash and positions stay as they were and its trade log gains an entry
    with P&L 0. *)
Theorem unheld_sell_is_reported_filled (cfg : Config) (b : t) (order : Order.t)
    (uuid : string) (filled_at now : Z) (market_price : Q) :
  Order.side order = OrderSide.SELL ->
  current_prices b !! Order.symbol order = Some market_price ->
  Portfolio.positions (portfolio b) !! Order.symbol order = None ->
  let '(b', order', _) := submit_order cfg b order uuid filled_at now in
  Order.status order' = OrderStatus.FILLED
  /\ Order.filled_quantity order' = Order.quantity order
  /\ Portfolio.cash (portfolio b') = Portfolio.cash (portfolio b)
  /\ Portfolio.positions (portfolio b') = Portfolio.positions (portfolio b)
  /\ exists tr, Portfolio.trades (portfolio b') = Portfolio.trades (portfolio b) ++ [tr]
                /\ Portfolio.pnl tr = 0.
Proof.
  intros Hside Hprice Hnone. unfold submit_order, _execute_order. cbn.
  rewrite Hprice, Hside. cbn. unfold Portfolio.update_position. cbn.
  rewrite Hnone. cbn. repeat split. eexists. split; reflexivity.
Qed.

Lemma unheld_sell_is_reported_filled_witness :
  let '(b', order', _) :=
    submit_order default_config priced_broker
      (Order.market "X" OrderSide.SELL 100 1) "id-1" 2 3 in
  Order.status order' = OrderStatus.FILLED
  /\ Portfolio.cash (portfolio b') = Portfolio.cash (portfolio priced_broker).
Proof.
  pose proof (unheld_sell_is_reported_filled default_config priced_broker
                (Order.market "X" OrderSide.SELL 100 1) "id-1" 2 3 50
                eq_refl eq_refl eq_refl) as H.
  destruct (submit_order default_config priced_broker
              (Order.market "X" OrderSide.SELL 100 1) "id-1" 2 3) as [[b' order'] id].
  destruct H as (Hs & _ & Hc & _). now split.
Defined.

(** X29: buying a quantity of a symbol the ledger does not hold and selling
    it again through the broker while the price stays the same restores the
    positions and costs twice the slippage on the order value and twice the
    commission. *)
Theorem broker_round_trip_cost (cfg : Config) (b : t) (symbol : string) (q : Z)
    (market_price : Q) (c1 c2 : Z) (id1 id2 : string) (f1 n1 f2 n2 : Z) :
  current_prices b !! symbol = Some market_price ->
  Portfolio.positions (portfolio b) !! symbol = None ->
  let b1 := serve cfg b (Submit (Order.market symbol OrderSide.BUY q c1) id1 f1 n1) in
  let b2 := serve cfg b1 (Submit (Order.market symbol OrderSide.SELL q c2) id2 f2 n2) in
  Portfolio.positions (portfolio b2) = Portfolio.positions (portfolio b)
  /\ Portfolio.cash (portfolio b2)
     == Portfolio.cash (portfolio b)
        - (2 * (inject_Z q * market_price * SLIPPAGE_PERCENT cfg)
           + 2 * COMMISSION_PER_TRADE cfg).
Proof.
  intros Hprice Hnone b1 b2. subst b1 b2. unfold serve, submit_order, _execute_order.
  cbn. rewrite Hprice. cbn. rewrite Hprice. cbn.
  destruct (LedgerProps.buy_then_sell_ledger (portfolio b) symbol "buy" "sell" q
              (market_price * (1 + SLIPPAGE_PERCENT cfg)) (COMMISSION_PER_TRADE cfg)
              (market_price * (1 - SLIPPAGE_PERCENT cfg)) (COMMISSION_PER_TRADE cfg)
              n1 n2 eq_refl eq_refl Hnone) as (Hpos & Hcash & _).
  cbv zeta in Hpos, Hcash. split; [exact Hpos|]. rewrite Hcash. ring.
Qed.

Lemma broker_round_trip_cost_witness :
  let b1 := serve default_config priced_broker
              (Submit (Order.market "X" OrderSide.BUY 100 1) "id-1" 2 3) in
  let b2 := serve default_config b1
              (Submit (Order.market "X" OrderSide.SELL 100 4) "id-2" 5 6) in
  Portfolio.cash (portfolio b2) == 100000 - 10.
Proof.
  destruct (broker_round_trip_cost default_config priced_broker "X" 100 50
              1 4 "id-1" "id-2" 2 3 5 6 eq_refl eq_refl) as [_ H].
  cbv zeta in H |- *. rewrite H. reflexivity.
Defined.

End BrokerProps.

(** * The paper trader *)

Module TraderProps.
Import PaperTrader TraderSpec.

Lemma idle_ledger_update_prices (c : Q) (p : Portfolio.t) prices now :
  idle_ledger c p -> idle_ledger c (Portfolio.update_prices p prices now).
Proof.
  intros (Hpos & Htr & Hcash & Hinit & Hval).
  unfold idle_ledger, Portfolio.update_prices, Portfolio._calculate_portfolio_value.
  cbn. rewrite Hpos, EngineFacts.reprice_empty. repeat split; try assumption.
  unfold Portfolio.positions_value. rewrite map_fold_empty, Hcash. ring.
Qed.

Section WithStrategy.
Context {State : Type}.
Variable cfg : Config.
Variable on_bar : State -> BarEvent -> State * option Signal.

Local Abbreviation trader := (@PaperTrader.t State).

Lemma submit_buy_invariant (c : Q) (f : feed) (t0 : trader) symbol quantity k :
  round_invariant c t0 ->
  round_invariant c
    (submit_market_order cfg (now_at f) (uuid_at f) t0 symbol OrderSide.BUY quantity k).
Proof.
  intros (Hidle & Hbuys).
  unfold submit_market_order, VirtualBroker.submit_order, VirtualBroker._execute_order.
  cbn -[Portfolio.update_position].
  assert (Hins : forall o' : Order.t, Order.side o' = OrderSide.BUY ->
            forall id o, <[uuid_at f k := o']> (VirtualBroker.orders (broker t0)) !! id
                         = Some o -> Order.side o = OrderSide.BUY).
  { intros o' Ho' id o. destruct (decide (uuid_at f k = id)) as [->|Hne].
    - rewrite lookup_insert_eq. now intros [= <-].
    - rewrite lookup_insert_ne by exact Hne. apply Hbuys. }
  destruct (VirtualBroker.current_prices (broker t0) !! symbol);
    unfold set_broker; cbn -[Portfolio.update_position]; (split; [exact Hidle|]);
    unfold only_buys; cbv beta iota delta [broker VirtualBroker.orders];
    apply Hins; reflexivity.
Qed.

(** A signal leaves the trader's own ledger alone, and sends at most a BUY
    order: with no position in that ledger the SELL branch is dead. *)
Lemma process_signal_invariant (c : Q) (f : feed) (t0 t1 : trader) signal price k :
  round_invariant c t0 ->
  _process_signal cfg (now_at f) (uuid_at f) t0 signal price k = inr t1 ->
  round_invariant c t1 /\ strategy t1 = strategy t0 /\ symbols t1 = symbols t0.
Proof.
  intros Hinv. pose proof Hinv as ((Hpos & _) & _).
  assert (Hkeep : forall t' : trader, (inr t0 : exn + trader) = inr t' ->
             round_invariant c t' /\ strategy t' = strategy t0
             /\ symbols t' = symbols t0) by (intros t' [= <-]; auto).
  unfold _process_signal.
  destruct (String.eqb (signal_type signal) BUY).
  - destruct (negb _); [|apply Hkeep].
    destruct (_ >? 0)%Z; [|apply Hkeep].
    destruct (RiskManager.check_trade _ _ _ _ _ _) as [err|[[|] r]];
      cbn [raise_bind fst]; [discriminate| |apply Hkeep].
    intros [= <-]. split; [now apply submit_buy_invariant|].
    unfold submit_market_order.
    now destruct (VirtualBroker.submit_order _ _ _ _ _ _) as [[? ?] ?].
  - destruct (String.eqb (signal_type signal) SELL); [|apply Hkeep].
    unfold Portfolio.get_position. rewrite Hpos, lookup_empty. apply Hkeep.
Qed.

Lemma visit_symbols_invariant (c : Q) (f : feed) prices (l : list string)
    (t0 t1 : trader) (i : nat) :
  round_invariant c t0 ->
  visit_symbols cfg on_bar (now_at f) (uuid_at f) prices t0 i l = inr t1 ->
  round_invariant c t1 /\ symbols t1 = symbols t0.
Proof.
  revert t0 i. induction l as [|symbol rest IH]; intros t0 i Hinv.
  - intros [= <-]. auto.
  - cbn [visit_symbols]. unfold visit_symbol.
    destruct (prices !! symbol) as [price|]; [|cbn [raise_bind]; now apply IH].
    destruct (on_bar (strategy t0) _) as [s' [sg|]]; cbv beta iota zeta.
    + destruct (_process_signal _ _ _ _ _ _ _) as [err|t2] eqn:Hsig;
        cbn [raise_bind]; [discriminate|].
      destruct (process_signal_invariant c f (set_strategy s' t0) t2 sg price
                  (3 + 4 * i) Hinv Hsig) as (Hinv2 & _ & Hsym).
      intros Hrest. destruct (IH t2 (S i) Hinv2 Hrest) as (Hinv1 & Hsym1).
      split; [exact Hinv1|]. now rewrite Hsym1, Hsym.
    + cbn [raise_bind]. intros Hrest.
      now destruct (IH (set_strategy s' t0) (S i) Hinv Hrest).
Qed.

Lemma trading_iteration_invariant (c : Q) (f : feed) (t0 t1 : trader) :
  round_invariant c t0 ->
  _trading_iteration cfg on_bar (latest_price f) (now_at f) (uuid_at f) t0 = inr t1 ->
  round_invariant c t1.
Proof.
  intros Hinv. pose proof Hinv as (Hidle & Hbuys).
  unfold _trading_iteration.
  destruct (fst _).
  - unfold stop. destruct (Portfolio.get_summary _); cbn [raise_bind]; [discriminate|].
    now intros [= <-].
  - set (prices := collect_prices (latest_price f) (symbols t0)).
    set (t2 := set_portfolio _ _).
    assert (Hinv2 : round_invariant c t2).
    { subst t2. split; cbn; [now apply idle_ledger_update_prices | exact Hbuys]. }
    destruct (visit_symbols _ _ _ _ _ _ _ _) as [err|t3] eqn:Hvisit;
      cbn [raise_bind]; [discriminate|].
    destruct (visit_symbols_invariant c f prices (symbols t2) t2 t3 0 Hinv2 Hvisit)
      as (Hinv3 & _).
    unfold _log_performance.
    destruct (VirtualBroker.get_account_info _); cbn [raise_bind]; [discriminate|].
    now intros [= <-].
Qed.

Lemma init_invariant (strat : State) (l : list string) (c : Q) :
  round_invariant c (init cfg strat l c).
Proof.
  unfold round_invariant, idle_ledger, init, VirtualBroker.init. cbn.
  repeat split; try reflexivity.
  intros id o. cbn. now rewrite lookup_empty.
Qed.

Lemma iterate_invariant (c : Q) (feeds : list feed) (t0 t1 : trader) :
  round_invariant c t0 ->
  iterate cfg on_bar feeds t0 = inr t1 -> round_invariant c t1.
Proof.
  revert t0. induction feeds as [|f rest IH]; intros t0 Hinv; cbn [iterate].
  - now intros [= <-].
  - destruct (_trading_iteration _ _ _ _ _ _) as [err|t2] eqn:Hround;
      cbn [raise_bind]; [discriminate|].
    apply IH. exact (trading_iteration_invariant c f t0 t2 Hinv Hround).
Qed.

(** X30: the paper trader decides on its own ledger, which the broker's
    fills never reach.  After any number of polling rounds that returned,
    the trader's ledger still has no position, no trade and the initial
    cash: every order it sent to the virtual broker is a BUY order,
    whatever the strategy signalled. *)
Theorem trader_ledger_never_fills (strat : State) (l : list string)
    (capital : Q) (feeds : list feed) (t1 : trader) :
  iterate cfg on_bar feeds (init cfg strat l capital) = inr t1 ->
  Portfolio.positions (portfolio t1) = ∅
  /\ Portfolio.trades (portfolio t1) = []
  /\ Portfolio.cash (portfolio t1) = capital
  /\ only_buys (broker t1).
Proof.
  intros Hrun.
  destruct (iterate_invariant capital feeds _ t1 (init_invariant strat l capital) Hrun)
    as ((Hpos & Htr & Hcash & _) & Hbuys).
  now repeat split.
Qed.

End WithStrategy.

Lemma trader_ledger_never_fills_witness :
  exists t1,
    iterate default_config alternating two_rounds
      (init default_config 0%nat ["X"%string] 100000) = inr t1
    /\ Portfolio.cash (portfolio t1) = 100000
    /\ only_buys (broker t1).
Proof.
  destruct (iterate default_config alternating two_rounds
              (init default_config 0%nat ["X"%string] 100000))
    as [err|t1] eqn:Hrun; [vm_compute in Hrun; discriminate|].
  exists t1. split; [reflexivity|].
  destruct (trader_ledger_never_fills default_config alternating 0%nat ["X"%string]
              100000 two_rounds t1 Hrun) as (_ & _ & Hcash & Hbuys).
  now split.
Defined.

End TraderProps.
